(** * The answer pipeline of the vector-embedded email app

    A shallow embedding of
      - [app/api/ask-question/route.ts]  (module [AskQuestion]) and
      - [app/api/store-email/route.ts]   (module [StoreEmail], the embedding
        client with retries)
    together with the facts the specification states about them.

    Conventions of the embedding.
      - A JavaScript string is the list of its UTF-16 code units.
      - A JavaScript value is a JSON value or [undefined]; numbers are
        rationals, since the code only tests their type and truthiness and
        passes them on.
      - [async] code runs in a monad that threads the chronological trace of
        the observable effects (HTTP requests, database calls, timer delays)
        and may end in a thrown exception.  [console.*] output is not an
        effect of the model.
      - The remote services are an oracle: the n-th HTTP request of a run is
        answered by [fetch w n url body].  Every request is a POST with the
        same two headers, so a request is its URL and its body. *)

From Stdlib Require Import List ZArith NArith QArith String Ascii Bool Lia.
From Stdlib Require Import DecimalString Permutation.
Import ListNotations.

Set Warnings "-register-all".

Local Open Scope list_scope.
Local Open Scope Z_scope.

(** ** JavaScript strings *)

Definition jsstring := list N.

(** An ASCII literal of the source, as code units. *)
Definition lit (s : string) : jsstring :=
  map N_of_ascii (list_ascii_of_string s).

Fixpoint jsstring_eqb (a b : jsstring) : bool :=
  match a, b with
  | [], [] => true
  | x :: a', y :: b' => N.eqb x y && jsstring_eqb a' b'
  | _, _ => false
  end.

(** ECMAScript WhiteSpace and LineTerminator code points, the set
    [String.prototype.trim] strips. *)
Definition is_whitespace (c : N) : bool :=
  existsb (N.eqb c)
    [9; 10; 11; 12; 13; 32; 160; 5760; 8192; 8193; 8194; 8195; 8196; 8197;
     8198; 8199; 8200; 8201; 8202; 8232; 8233; 8239; 8287; 12288; 65279]%N.

Fixpoint trimStart (s : jsstring) : jsstring :=
  match s with
  | [] => []
  | c :: s' => if is_whitespace c then trimStart s' else s
  end.

Definition trimEnd (s : jsstring) : jsstring := rev (trimStart (rev s)).

(** [s.trim()] *)
Definition trim (s : jsstring) : jsstring := trimEnd (trimStart s).

(** [s.slice(0, n)] *)
Definition slice0 (n : nat) (s : jsstring) : jsstring := firstn n s.

(** [arr.join(sep)] on an array of strings. *)
Fixpoint join (sep : jsstring) (parts : list jsstring) : jsstring :=
  match parts with
  | [] => []
  | [p] => p
  | p :: rest => p ++ sep ++ join sep rest
  end.

(** Decimal rendering of an integer inside a template literal. *)
Definition string_of_Z (z : Z) : jsstring :=
  lit (NilZero.string_of_int (Z.to_int z)).

(** *** encodeURIComponent

    Unreserved code units are kept, every other code point is UTF-8 encoded
    and percent-escaped with upper-case hexadecimal digits; a lone surrogate
    raises URIError, rendered here as [None]. *)
Definition uri_unreserved (c : N) : bool :=
  ((65 <=? c) && (c <=? 90) || (97 <=? c) && (c <=? 122)
   || (48 <=? c) && (c <=? 57)
   || existsb (N.eqb c) [45; 95; 46; 33; 126; 42; 39; 40; 41])%N.

Definition hex_digit (n : N) : N :=
  (if n <? 10 then 48 + n else 55 + n)%N.

Definition pct (byte : N) : jsstring :=
  [37%N; hex_digit (byte / 16); hex_digit (byte mod 16)].

Definition utf8 (cp : N) : list N :=
  (if cp <? 128 then [cp]
   else if cp <? 2048 then [192 + cp / 64; 128 + cp mod 64]
   else if cp <? 65536 then
     [224 + cp / 4096; 128 + (cp / 64) mod 64; 128 + cp mod 64]
   else
     [240 + cp / 262144; 128 + (cp / 4096) mod 64;
      128 + (cp / 64) mod 64; 128 + cp mod 64])%N.

Definition is_high_surrogate (c : N) : bool := ((55296 <=? c) && (c <=? 56319))%N.
Definition is_low_surrogate (c : N) : bool := ((56320 <=? c) && (c <=? 57343))%N.

Fixpoint encodeURIComponent (s : jsstring) : option jsstring :=
  match s with
  | [] => Some []
  | c :: rest =>
      if uri_unreserved c then option_map (cons c) (encodeURIComponent rest)
      else if is_high_surrogate c then
        match rest with
        | d :: rest' =>
            if is_low_surrogate d then
              option_map
                (app (flat_map pct
                        (utf8 (65536 + (c - 55296) * 1024 + (d - 56320))%N)))
                (encodeURIComponent rest')
            else None
        | [] => None
        end
      else if is_low_surrogate c then None
      else option_map (app (flat_map pct (utf8 c))) (encodeURIComponent rest)
  end.

(** ** JavaScript values *)

Inductive value : Type :=
| VUndefined
| VNull
| VBool (b : bool)
| VNum (q : Q)
| VStr (s : jsstring)
| VArr (xs : list value)
| VObj (fields : list (jsstring * value)).

(** Own properties of an object, the first binding of a key being the live
    one. *)
Fixpoint lookup (k : jsstring) (fields : list (jsstring * value)) : value :=
  match fields with
  | [] => VUndefined
  | (k', v) :: rest => if jsstring_eqb k k' then v else lookup k rest
  end.

(** Truthiness: what [!!v], [v && ...] and [v || ...] test. *)
Definition truthy (v : value) : bool :=
  match v with
  | VUndefined | VNull => false
  | VBool b => b
  | VNum q => negb (Qeq_bool q 0)
  | VStr s => match s with [] => false | _ => true end
  | VArr _ | VObj _ => true
  end.

Definition isArray (v : value) : bool :=
  match v with VArr _ => true | _ => false end.

(** [typeof v === "number"] and [typeof v === "string"] *)
Definition is_number (v : value) : bool :=
  match v with VNum _ => true | _ => false end.

Definition is_string (v : value) : bool :=
  match v with VStr _ => true | _ => false end.

(** Exceptions: the class of the error object and its [message]. *)
Inductive exn : Type :=
| Error (message : jsstring)
| TypeError (message : jsstring)
| SyntaxError (message : jsstring)
| URIError (message : jsstring).

Definition message (e : exn) : jsstring :=
  match e with
  | Error m | TypeError m | SyntaxError m | URIError m => m
  end.

Inductive outcome (A : Type) : Type :=
| Return (a : A)
| Throw (e : exn).
Arguments Return {A} a.
Arguments Throw {A} e.

(** The message V8 gives when a property of [null] or [undefined] is read. *)
Definition cannot_read (v : value) (k : jsstring) : exn :=
  TypeError
    (lit "Cannot read properties of "
     ++ (match v with VNull => lit "null" | _ => lit "undefined" end)
     ++ lit " (reading '" ++ k ++ lit "')").

Definition num_of_nat (n : nat) : value := VNum (inject_Z (Z.of_nat n)).

(** [v.k] for a named property [k].  Of the names the code reads, only
    [length] exists on arrays and strings; primitives have none of them. *)
Definition prop (v : value) (k : jsstring) : outcome value :=
  match v with
  | VUndefined | VNull => Throw (cannot_read v k)
  | VObj fields => Return (lookup k fields)
  | VArr xs =>
      Return (if jsstring_eqb k (lit "length") then num_of_nat (List.length xs)
              else VUndefined)
  | VStr s =>
      Return (if jsstring_eqb k (lit "length") then num_of_nat (List.length s)
              else VUndefined)
  | VBool _ | VNum _ => Return VUndefined
  end.

(** [v[0]] *)
Definition elem0 (v : value) : outcome value :=
  match v with
  | VUndefined | VNull => Throw (cannot_read v (lit "0"))
  | VArr xs => Return (match xs with x :: _ => x | [] => VUndefined end)
  | VObj fields => Return (lookup (lit "0") fields)
  | VStr s => Return (match s with c :: _ => VStr [c] | [] => VUndefined end)
  | VBool _ | VNum _ => Return VUndefined
  end.

(** [v?.k] *)
Definition opt_prop (v : value) (k : jsstring) : value :=
  match prop v k with
  | Return x => x
  | Throw _ => VUndefined
  end.

(** [a || b] and [a ?? b] *)
Definition or_else (a b : value) : value := if truthy a then a else b.

Definition nullish_else (a b : value) : value :=
  match a with
  | VUndefined | VNull => b
  | _ => a
  end.

(** ** The outside world *)

(** What [JSON.parse] makes of a body: a value, or a SyntaxError. *)
Inductive parse_outcome : Type :=
| Parsed (json : value)
| Unparsable (why : jsstring).

(** An HTTP response: status, body text, and the body as [JSON.parse]
    reads it. *)
Record response : Type := mkResponse {
  status : Z;
  body_text : jsstring;
  parsed : parse_outcome
}.

(** [resp.ok] *)
Definition ok (r : response) : bool :=
  (200 <=? status r) && (status r <=? 299).

(** [fetch] resolves to a response, or rejects (no connection). *)
Inductive fetch_outcome : Type :=
| Responded (r : response)
| Rejected (e : exn).

(** A row of the similarity search, as [match_filtered_email_sections]
    returns it.  The content column holds a string or nothing ([null], or no
    such field); the mail the section belongs to, its position in that mail
    and its similarity to the question come along, and the handler reads
    none of the three. *)
Record section : Type := mkSection {
  email_id : Z;
  section_content : option jsstring;
  section_order : Z;
  similarity : Q
}.

(** The [{ data, error }] pair of a Supabase call: [data] is [null] or the
    array of rows, [error] is absent or the message of the error object. *)
Record rpc_result : Type := mkRpcResult {
  data : option (list section);
  error : option jsstring
}.

(** Everything the code does not decide itself: the environment variable,
    the inference service, the database, and two things the JavaScript
    engine supplies: the text [JSON.stringify] produces, and the message of
    the TypeError raised when [.trim] is called on something that has no
    such method. *)
Record world : Type := mkWorld {
  HF_API_KEY : option jsstring;
  fetch : nat -> jsstring -> value -> fetch_outcome;
  rpc : jsstring -> value -> rpc_result;
  JSON_stringify : value -> jsstring;
  trim_is_not_a_function : jsstring
}.

(** Observable effects, in the order they happen.  A request is recorded
    with the value that is passed to [JSON.stringify] for its body. *)
Inductive event : Type :=
| EvFetch (url : jsstring) (body : value)
| EvRpc (fn : jsstring) (args : value)
| EvSleep (ms : Z).

Definition trace := list event.

Definition is_fetch (e : event) : bool :=
  match e with EvFetch _ _ => true | _ => false end.

Definition nfetch (t : trace) : nat := List.length (filter is_fetch t).

(** ** The monad of [async] functions *)

Definition M (A : Type) : Type := trace -> outcome A * trace.

Definition ret {A} (a : A) : M A := fun t => (Return a, t).

Definition throw {A} (e : exn) : M A := fun t => (Throw e, t).

Definition bind {A B} (m : M A) (k : A -> M B) : M B :=
  fun t =>
    match m t with
    | (Return a, t') => k a t'
    | (Throw e, t') => (Throw e, t')
    end.

(** [try { m } catch (err) { handler err }] *)
Definition try_catch {A} (m : M A) (handler : exn -> M A) : M A :=
  fun t =>
    match m t with
    | (Return a, t') => (Return a, t')
    | (Throw e, t') => handler e t'
    end.

Definition lift {A} (o : outcome A) : M A := fun t => (o, t).

Notation "x <- m ;; k" := (bind m (fun x => k))
  (at level 61, m at next level, right associativity).
Notation "m ;;; k" := (bind m (fun _ => k))
  (at level 61, right associativity).

(** [await fetch(url, { method: "POST", headers, body: JSON.stringify(body) })] *)
Definition do_fetch (w : world) (url : jsstring) (body : value) : M response :=
  fun t =>
    match fetch w (nfetch t) url body with
    | Responded r => (Return r, t ++ [EvFetch url body])
    | Rejected e => (Throw e, t ++ [EvFetch url body])
    end.

(** [await new Promise((r) => setTimeout(r, ms))] *)
Definition sleep (ms : Z) : M unit := fun t => (Return tt, t ++ [EvSleep ms]).

(** [await supabase.rpc(fn, args)] *)
Definition do_rpc (w : world) (fn : jsstring) (args : value) : M rpc_result :=
  fun t => (Return (rpc w fn args), t ++ [EvRpc fn args]).

(** [JSON.parse(txt)] on the body of [r] *)
Definition JSON_parse (r : response) : outcome value :=
  match parsed r with
  | Parsed json => Return json
  | Unparsable why => Throw (SyntaxError why)
  end.

(** [if (!HF_API_KEY)] *)
Definition key_missing (w : world) : bool :=
  match HF_API_KEY w with
  | None | Some [] => true
  | Some _ => false
  end.

Definition hf_models : jsstring := lit "https://router.huggingface.co/hf-inference/models/".

(** Pure code that may throw. *)
Definition obind {A B} (o : outcome A) (k : A -> outcome B) : outcome B :=
  match o with
  | Return a => k a
  | Throw e => Throw e
  end.

Notation "x <~ o ;; k" := (obind o (fun x => k))
  (at level 61, o at next level, right associativity).

(** [v[0]] where a guard has already made [v] non-null. *)
Definition at0 (v : value) : value :=
  match elem0 v with
  | Return x => x
  | Throw _ => VUndefined
  end.

(** [v.length] where a guard has already made [v] an array. *)
Definition length_of (v : value) : value := opt_prop v (lit "length").

(** [NextResponse.json(body, { status })] *)
Record reply : Type := mkReply {
  reply_status : Z;
  reply_body : value
}.

(** ** app/api/ask-question/route.ts *)

Module AskQuestion.

(** Lines 33-44: the shapes an embedding response may have. *)
Definition normalize (json : value) : outcome value :=
  if isArray json && is_number (at0 json) then Return json
  else if isArray json && isArray (at0 json) && is_number (at0 (at0 json))
  then Return (at0 json)
  else
    embedding <~ prop json (lit "embedding") ;;
    if truthy embedding && isArray embedding then Return embedding
    else
      embeddings <~ prop json (lit "embeddings") ;;
      if truthy embeddings && isArray (at0 embeddings)
         && is_number (at0 (at0 embeddings))
      then Return (at0 embeddings)
      else if truthy embeddings && is_number (at0 embeddings)
      then Return embeddings
      else
        data <~ prop json (lit "data") ;;
        if truthy data && isArray data
           && truthy (opt_prop (at0 data) (lit "embedding"))
        then prop (at0 data) (lit "embedding")
        else Throw (Error (lit "Unexpected HF embedding response shape")).

Definition default_embedding_model : jsstring :=
  lit "sentence-transformers/all-MiniLM-L6-v2".

(** Lines 18-45. *)
Definition getHfEmbedding (w : world) (text model : jsstring) : M value :=
  if key_missing w then throw (Error (lit "HF_API_KEY not set"))
  else
    match encodeURIComponent model with
    | None => throw (URIError (lit "URI malformed"))
    | Some enc =>
        resp <- do_fetch w
                  (hf_models ++ enc ++ lit "/pipeline/feature-extraction")
                  (VObj [(lit "inputs", VStr text)]) ;;
        if negb (ok resp) then
          throw (Error (lit "HF embedding error: " ++ string_of_Z (status resp)
                        ++ lit " " ++ body_text resp))
        else
          json <- lift (JSON_parse resp) ;;
          lift (normalize json)
    end.

(** What [tryExtractiveQA] resolves to when it is not [null]. *)
Record qa_result : Type := mkQa {
  answer : jsstring;
  score : value
}.

(** Lines 70-78: the two shapes of an extractive answer. *)
Definition read_answer (json : value) : outcome (option qa_result) :=
  let bare :=
    a <~ prop json (lit "answer") ;;
    match a with
    | VStr (c :: s) =>
        sc <~ prop json (lit "score") ;;
        Return (Some (mkQa (c :: s) sc))
    | _ => Return None
    end in
  if isArray json && truthy (length_of json) then
    a <~ prop (at0 json) (lit "answer") ;;
    match a with
    | VStr s =>
        sc <~ prop (at0 json) (lit "score") ;;
        Return (Some (mkQa s sc))
    | _ => bare
    end
  else bare.

Definition qa_payload (question context : jsstring) : value :=
  VObj [(lit "inputs",
         VObj [(lit "question", VStr question); (lit "context", VStr context)])].

Definition qa_url (enc : jsstring) : jsstring :=
  hf_models ++ enc ++ lit "/pipeline/question-answering".

(** Lines 50-83. *)
Definition tryExtractiveQA (w : world) (question context model : jsstring)
  : M (option qa_result) :=
  if key_missing w then throw (Error (lit "HF_API_KEY not set"))
  else
    try_catch
      (match encodeURIComponent model with
       | None => throw (URIError (lit "URI malformed"))
       | Some enc =>
           resp <- do_fetch w (qa_url enc) (qa_payload question context) ;;
           if negb (ok resp) then ret None
           else
             json <- lift (JSON_parse resp) ;;
             lift (read_answer json)
       end)
      (fun _ => ret None).

(** Lines 108-113: the text of a generation response (mode A). *)
Definition extract_text (w : world) (json : value) : outcome jsstring :=
  let second :=
    g <~ prop json (lit "generated_text") ;;
    match g with
    | VStr (c :: s) => Return (c :: s)
    | _ =>
        let dump := Return (slice0 4000 (JSON_stringify w json)) in
        if isArray json && truthy (length_of json) then
          t <~ prop (at0 json) (lit "text") ;;
          match t with
          | VStr s => Return s
          | _ => dump
          end
        else dump
    end in
  if isArray json && truthy (length_of json) then
    g <~ prop (at0 json) (lit "generated_text") ;;
    match g with
    | VStr s => Return s
    | _ => second
    end
  else second.

(** Lines 135-140: the same for mode B, which repeats the first test before
    it gives up on the known fields. *)
Definition extract_text2 (w : world) (json2 : value) : outcome jsstring :=
  let dump := Return (slice0 4000 (JSON_stringify w json2)) in
  let fourth :=
    if isArray json2 && truthy (length_of json2) then
      g <~ prop (at0 json2) (lit "generated_text") ;;
      match g with
      | VStr s => Return s
      | _ => dump
      end
    else dump in
  let second :=
    g <~ prop json2 (lit "generated_text") ;;
    match g with
    | VStr (c :: s) => Return (c :: s)
    | _ =>
        if isArray json2 && truthy (length_of json2) then
          t <~ prop (at0 json2) (lit "text") ;;
          match t with
          | VStr s => Return s
          | _ => fourth
          end
        else fourth
    end in
  if isArray json2 && truthy (length_of json2) then
    g <~ prop (at0 json2) (lit "generated_text") ;;
    match g with
    | VStr s => Return s
    | _ => second
    end
  else second.

Definition text_generation_url (enc : jsstring) : jsstring :=
  hf_models ++ enc ++ lit "/pipeline/text-generation".

Definition text2text_generation_url (enc : jsstring) : jsstring :=
  hf_models ++ enc ++ lit "/pipeline/text2text-generation".

Definition payload (prompt : jsstring) : value :=
  VObj [(lit "inputs", VStr prompt);
        (lit "parameters",
         VObj [(lit "max_new_tokens", VNum (256 # 1));
               (lit "temperature", VNum (0 # 1));
               (lit "do_sample", VBool false)])].

Definition payload2 (prompt : jsstring) : value :=
  VObj [(lit "inputs", VStr prompt);
        (lit "parameters",
         VObj [(lit "max_new_tokens", VNum (256 # 1));
               (lit "temperature", VNum (0 # 1))])].

(** One [try { ... } catch] block of the loop body: [Some text] when the
    block returns from the function, [None] when control falls out of it. *)
Definition attempt (w : world) (url_of : jsstring -> jsstring) (body : value)
    (extract : value -> outcome jsstring) (model : jsstring)
  : M (option jsstring) :=
  try_catch
    (match encodeURIComponent model with
     | None => throw (URIError (lit "URI malformed"))
     | Some enc =>
         resp <- do_fetch w (url_of enc) body ;;
         if ok resp then
           json <- lift (JSON_parse resp) ;;
           t <- lift (extract json) ;;
           ret (Some t)
         else ret None
     end)
    (fun _ => ret None).

(** Lines 93-149: the loop over the models. *)
Fixpoint generate_loop (w : world) (prompt : jsstring) (models : list jsstring)
  : M jsstring :=
  match models with
  | [] => throw (Error (lit "All generation models failed or were unavailable"))
  | model :: rest =>
      a <- attempt w text_generation_url (payload prompt)
             (extract_text w) model ;;
      match a with
      | Some t => ret t
      | None =>
          b <- attempt w text2text_generation_url (payload2 prompt)
                 (extract_text2 w) model ;;
          match b with
          | Some t => ret t
          | None => generate_loop w prompt rest
          end
      end
  end.

(** Lines 90-150. *)
Definition tryGenerateWithFallbacks (w : world) (prompt : jsstring)
    (models : list jsstring) : M jsstring :=
  if key_missing w then throw (Error (lit "HF_API_KEY not set"))
  else generate_loop w prompt models.

(** [Boolean(x)] on a column that holds a string or nothing. *)
Definition Boolean (x : option jsstring) : bool :=
  match x with
  | Some (_ :: _) => true
  | _ => false
  end.

(** How [Array.prototype.join] renders one element. *)
Definition element_text (x : option jsstring) : jsstring :=
  match x with
  | Some s => s
  | None => []
  end.

(** Line 190. *)
Definition contextArr (matchingSections : option (list section))
  : list (option jsstring) :=
  filter Boolean
    (map section_content
       (match matchingSections with Some rows => rows | None => [] end)).

(** Lines 190-191: the context handed to extraction and generation. *)
Definition build_context (matchingSections : option (list section))
  : jsstring :=
  join [10; 10]%N (map element_text (contextArr matchingSections)).

Definition str_truthy (s : jsstring) : bool :=
  match s with [] => false | _ => true end.

Definition obj_error (msg : jsstring) : value :=
  VObj [(lit "error", VStr msg)].

Definition noContextMsg : jsstring :=
  lit "No relevant email content was found for that query.".

(** Line 200. *)
Definition no_context_reply : reply :=
  mkReply 200
    (VObj [(lit "answer", VNull); (lit "info", VStr noContextMsg);
           (lit "contextFound", VBool false)]).

(** Line 214. *)
Definition extractive_reply (ansTrim : jsstring) (score : value) : reply :=
  mkReply 200
    (VObj [(lit "answer", VStr ansTrim); (lit "contextFound", VBool true);
           (lit "source", VStr (lit "extractive-qa"));
           (lit "score", nullish_else score VNull)]).

(** Line 238. *)
Definition generation_failed_reply : reply :=
  mkReply 502
    (obj_error
       (lit "Failed to generate answer: no available HF generation model.")).

(** Line 245; the source file holds the three code units U+00E2, U+20AC and
    U+201D between the two halves of the sentence. *)
Definition general_answer_info : jsstring :=
  lit "No matching email content found " ++ [226; 8364; 8221]%N
  ++ lit " returned a general answer.".

Definition general_answer_reply (answer : jsstring) : reply :=
  mkReply 200
    (VObj [(lit "answer", VStr answer); (lit "info", VStr general_answer_info);
           (lit "contextFound", VBool false)]).

(** Line 248. *)
Definition generation_reply (answer : jsstring) : reply :=
  mkReply 200
    (VObj [(lit "answer", VStr answer); (lit "contextFound", VBool true);
           (lit "source", VStr (lit "generation"))]).

Definition qa_model : jsstring := lit "deepset/roberta-base-squad2".

(** Lines 206-220: [Some r] when the handler returns [r] from inside the
    block, [None] when control reaches step 4. *)
Definition extraction_stage (w : world) (question context : jsstring)
  : M (option reply) :=
  if str_truthy context then
    try_catch
      (qaResult <- tryExtractiveQA w question context qa_model ;;
       match qaResult with
       | Some qa =>
           if str_truthy (answer qa) && str_truthy (trim (answer qa)) then
             let ansTrim := trim (answer qa) in
             if (0 <? List.length ansTrim)%nat
             then ret (Some (extractive_reply ansTrim (score qa)))
             else ret None
           else ret None
       | None => ret None
       end)
      (fun _ => ret None)
  else ret None.

Definition systemPrefix : jsstring :=
  lit "You are an assistant that will use the provided context to answer the question concisely and accurately. Use only the provided context unless asked otherwise.".

(** Line 224. *)
Definition build_prompt (question context : jsstring) : jsstring :=
  systemPrefix ++ [10; 10]%N ++ lit "Context:" ++ [10]%N
  ++ (if str_truthy context then context else lit "(no context available)")
  ++ [10; 10]%N ++ lit "Question:" ++ [10]%N ++ question
  ++ [10; 10]%N ++ lit "Answer:".

Definition genModels : list jsstring :=
  [lit "distilgpt2"; lit "gpt2-medium"; lit "facebook/opt-350m"].

(** Lines 222-248. *)
Definition generation_stage (w : world) (question context : jsstring)
  : M reply :=
  let prompt := build_prompt question context in
  try_catch
    (generated <- tryGenerateWithFallbacks w prompt genModels ;;
     let answer := trim generated in
     if negb (str_truthy context) then ret (general_answer_reply answer)
     else ret (generation_reply answer))
    (fun _ => ret generation_failed_reply).

(** Lines 194-248: everything after the context has been built. *)
Definition answer_stage (w : world) (question context : jsstring)
    (generateIfNoContext : bool) : M reply :=
  if negb (str_truthy context) && negb generateIfNoContext
  then ret no_context_reply
  else
    r <- extraction_stage w question context ;;
    match r with
    | Some early => ret early
    | None => generation_stage w question context
    end.

(** [(bodyJson?.question || "").trim()] *)
Definition call_trim (w : world) (v : value) : outcome jsstring :=
  match v with
  | VStr s => Return (trim s)
  | _ => Throw (TypeError (trim_is_not_a_function w))
  end.

(** [await request.json()] *)
Definition request_json (request : parse_outcome) : outcome value :=
  match request with
  | Parsed json => Return json
  | Unparsable why => Throw (SyntaxError why)
  end.

Definition rpc_args (questionEmbedding matchThreshold emailFilter : value)
  : value :=
  VObj [(lit "query_embedding", questionEmbedding);
        (lit "match_threshold", matchThreshold);
        (lit "match_count", VNum (10 # 1));
        (lit "email_address", emailFilter)].

(** Line 162. *)
Definition emailFilter_of (bodyJson : value) : value :=
  match opt_prop bodyJson (lit "email_filter") with
  | VUndefined => VStr (lit "brandon@gmail.com")
  | v => v
  end.

(** Line 163. *)
Definition generateIfNoContext_of (bodyJson : value) : bool :=
  truthy (opt_prop bodyJson (lit "generateIfNoContext")).

(** Line 164. *)
Definition matchThreshold_of (bodyJson : value) : value :=
  if is_number (opt_prop bodyJson (lit "match_threshold"))
  then opt_prop bodyJson (lit "match_threshold")
  else VNum (-3 # 10).

Definition search_fn : jsstring := lit "match_filtered_email_sections".

(** Lines 157-253. *)
Definition POST (w : world) (request : parse_outcome) : M reply :=
  try_catch
    (bodyJson <- lift (request_json request) ;;
     question <-
       lift (call_trim w
               (or_else (opt_prop bodyJson (lit "question")) (VStr []))) ;;
     let emailFilter := emailFilter_of bodyJson in
     let generateIfNoContext := generateIfNoContext_of bodyJson in
     let matchThreshold := matchThreshold_of bodyJson in
     if negb (str_truthy question)
     then ret (mkReply 400 (obj_error (lit "Missing question")))
     else
       questionEmbedding <-
         getHfEmbedding w question default_embedding_model ;;
       r <- do_rpc w search_fn
              (rpc_args questionEmbedding matchThreshold emailFilter) ;;
       match error r with
       | Some msg =>
           throw (Error (if str_truthy msg then msg
                         else lit "Supabase RPC failed"))
       | None =>
           answer_stage w question (build_context (data r))
             generateIfNoContext
       end)
    (fun err =>
       ret (mkReply 500
              (obj_error (if str_truthy (message err) then message err
                          else lit "Failed to generate response")))).

End AskQuestion.

(** ** app/api/store-email/route.ts: the embedding client *)

Module StoreEmail.

(** Lines 134-147: the shapes an embedding response may have. *)
Definition normalize (w : world) (json : value) : outcome value :=
  if isArray json && truthy (length_of json) && is_number (at0 json)
  then Return json
  else if isArray json && isArray (at0 json) && is_number (at0 (at0 json))
  then Return (at0 json)
  else
    embedding <~ prop json (lit "embedding") ;;
    if truthy embedding && isArray embedding then Return embedding
    else
      embeddings <~ prop json (lit "embeddings") ;;
      if truthy embeddings && isArray (at0 embeddings)
         && is_number (at0 (at0 embeddings))
      then Return (at0 embeddings)
      else if truthy embeddings && is_number (at0 embeddings)
      then Return embeddings
      else
        data <~ prop json (lit "data") ;;
        if truthy data && isArray data
           && truthy (opt_prop (at0 data) (lit "embedding"))
        then prop (at0 data) (lit "embedding")
        else
          Throw (Error (lit "Unexpected HF embeddings response shape: "
                        ++ slice0 500 (JSON_stringify w json))).

Definition maxAttempts : Z := 3.

(** How one turn of the attempt loop ends: with the function's result, by
    [continue], or by [break]. *)
Inductive turn : Type :=
| Returned (v : value)
| Continue
| Break.

(** Lines 99-157: the body of the attempt loop. *)
Definition attempt_body (w : world) (url : jsstring) (body : value)
    (attempt : Z) : M turn :=
  try_catch
    (resp <- do_fetch w url body ;;
     if negb (ok resp) then
       if (status resp =? 429) || (status resp >=? 500) then
         let backoff := 300 * attempt in
         sleep backoff ;;; ret Continue
       else
         throw (Error (lit "Hugging Face API error: "
                       ++ string_of_Z (status resp) ++ lit " "
                       ++ body_text resp))
     else
       json <- lift (match parsed resp with
                     | Parsed json => Return json
                     | Unparsable _ =>
                         Throw (Error (lit "Failed to parse HF response JSON: "
                                       ++ slice0 500 (body_text resp)))
                     end) ;;
       v <- lift (normalize w json) ;;
       ret (Returned v))
    (fun _ =>
       if attempt =? maxAttempts then ret Break
       else sleep (250 * attempt) ;;; ret Continue).

(** Lines 98-158: [for (let attempt = ...; attempt <= maxAttempts; attempt++)],
    with [remaining] turns left to run. *)
Fixpoint attempts (w : world) (url : jsstring) (body : value)
    (remaining : nat) (attempt : Z) : M (option value) :=
  match remaining with
  | O => ret None
  | S remaining' =>
      r <- attempt_body w url body attempt ;;
      match r with
      | Returned v => ret (Some v)
      | Continue => attempts w url body remaining' (attempt + 1)
      | Break => ret None
      end
  end.

(** Lines 95-161: the loop over the endpoints. *)
Fixpoint endpoints (w : world) (tryEndpoints : list jsstring) (body : value)
  : M value :=
  match tryEndpoints with
  | [] =>
      throw (Error (lit "Failed to fetch embedding from Hugging Face with any endpoint"))
  | url :: rest =>
      r <- attempts w url body (Z.to_nat maxAttempts) 1 ;;
      match r with
      | Some v => ret v
      | None => endpoints w rest body
      end
  end.

Definition urlPrimary (encodedModel : jsstring) : jsstring :=
  hf_models ++ encodedModel ++ lit "/pipeline/feature-extraction".

Definition urlFallback (encodedModel : jsstring) : jsstring :=
  lit "https://router.huggingface.co/hf-inference/" ++ encodedModel.

(** Lines 77-162. *)
Definition getHfEmbedding (w : world) (text model : jsstring) : M value :=
  if key_missing w then throw (Error (lit "HF_API_KEY not set in environment"))
  else
    match encodeURIComponent model with
    | None => throw (URIError (lit "URI malformed"))
    | Some encodedModel =>
        endpoints w [urlPrimary encodedModel; urlFallback encodedModel]
          (VObj [(lit "inputs", VStr text)])
    end.

End StoreEmail.

(** ** Vocabulary of the specification *)

(** A flat numeric vector as a JavaScript array. *)
Definition numvec (qs : list Q) : value := VArr (map VNum qs).

(** The five response shapes of the embedding client, in the order the
    specification lists them. *)
Inductive embedding_shape : Type :=
| BareArray
| NestedRow
| EmbeddingField
| EmbeddingsField
| DataField.

Definition shapes_in_order : list embedding_shape :=
  [BareArray; NestedRow; EmbeddingField; EmbeddingsField; DataField].

(** What one shape, looked at on its own, reads out of a body: a bare array
    of numbers, a nested row of numbers, an [embedding] field, an
    [embeddings] field (nested or flat), a [data[0].embedding] field. *)
Definition decode (s : embedding_shape) (json : value) : option value :=
  match s with
  | BareArray =>
      if isArray json && is_number (at0 json) then Some json else None
  | NestedRow =>
      if isArray json && isArray (at0 json) && is_number (at0 (at0 json))
      then Some (at0 json) else None
  | EmbeddingField =>
      if isArray (opt_prop json (lit "embedding"))
      then Some (opt_prop json (lit "embedding")) else None
  | EmbeddingsField =>
      let e := opt_prop json (lit "embeddings") in
      if truthy e && isArray (at0 e) && is_number (at0 (at0 e))
      then Some (at0 e)
      else if truthy e && is_number (at0 e) then Some e
      else None
  | DataField =>
      let d := opt_prop json (lit "data") in
      if isArray d && truthy (opt_prop (at0 d) (lit "embedding"))
      then Some (opt_prop (at0 d) (lit "embedding")) else None
  end.

(** The first shape of an ordered list that reads a vector out of a body. *)
Fixpoint first_match (shapes : list embedding_shape) (json : value)
  : option value :=
  match shapes with
  | [] => None
  | s :: rest =>
      match decode s json with
      | Some v => Some v
      | None => first_match rest json
      end
  end.

Definition ask_shape_error : exn :=
  Error (lit "Unexpected HF embedding response shape").

Definition store_shape_error (w : world) (json : value) : exn :=
  Error (lit "Unexpected HF embeddings response shape: "
         ++ slice0 500 (JSON_stringify w json)).

(** A failure the embedding client answers with a backoff: a rate limit or
    a server error. *)
Definition transient (r : response) : bool :=
  negb (ok r) && ((status r =? 429) || (status r >=? 500)).

(** What one generation request yields: the text of a 2xx response whose
    body parses and can be read, nothing otherwise. *)
Definition gen_text (w : world) (o : fetch_outcome) : option jsstring :=
  match o with
  | Responded resp =>
      if ok resp then
        match JSON_parse resp with
        | Return json =>
            match AskQuestion.extract_text w json with
            | Return t => Some t
            | Throw _ => None
            end
        | Throw _ => None
        end
      else None
  | Rejected _ => None
  end.

(** The requests one model stands for: mode A, then mode B. *)
Definition requests_of (prompt model : jsstring) : list (jsstring * value) :=
  match encodeURIComponent model with
  | Some enc =>
      [(AskQuestion.text_generation_url enc, AskQuestion.payload prompt);
       (AskQuestion.text2text_generation_url enc, AskQuestion.payload2 prompt)]
  | None => []
  end.

(** The requests of a model list, model by model in the caller's order. *)
Definition schedule (prompt : jsstring) (models : list jsstring)
  : list (jsstring * value) :=
  flat_map (requests_of prompt) models.

Definition fetch_events (reqs : list (jsstring * value)) : trace :=
  map (fun r => EvFetch (fst r) (snd r)) reqs.

(** Walking a schedule from the [n]-th request of the run on: the text of
    the first request that succeeds and how many requests were sent. *)
Fixpoint first_success (w : world) (n : nat) (reqs : list (jsstring * value))
  : option (jsstring * nat) :=
  match reqs with
  | [] => None
  | (url, body) :: rest =>
      match gen_text w (fetch w n url body) with
      | Some t => Some (t, 1%nat)
      | None =>
          match first_success w (S n) rest with
          | Some (t, k) => Some (t, S k)
          | None => None
          end
      end
  end.

Definition all_models_failed : exn :=
  Error (lit "All generation models failed or were unavailable").

Definition embedding_request (question : jsstring) : event :=
  EvFetch
    (hf_models ++ lit "sentence-transformers%2Fall-MiniLM-L6-v2"
     ++ lit "/pipeline/feature-extraction")
    (VObj [(lit "inputs", VStr question)]).

Definition qa_request (question context : jsstring) : event :=
  EvFetch (AskQuestion.qa_url (lit "deepset%2Froberta-base-squad2"))
    (AskQuestion.qa_payload question context).

(** The request got as far as a search result: it carries a question, the
    question was embedded, and the search came back without an error, with
    [rows] as its data and [search] as the call that was made. *)
Definition searched (w : world) (request : parse_outcome) (t : trace)
    (question : jsstring) (generateIfNoContext : bool)
    (rows : option (list section)) (search : event) : Prop :=
  exists bodyJson questionEmbedding,
    request = Parsed bodyJson
    /\ AskQuestion.call_trim w
         (or_else (opt_prop bodyJson (lit "question")) (VStr []))
       = Return question
    /\ question <> []
    /\ generateIfNoContext = AskQuestion.generateIfNoContext_of bodyJson
    /\ AskQuestion.getHfEmbedding w question
         AskQuestion.default_embedding_model t
       = (Return questionEmbedding, t ++ [embedding_request question])
    /\ (let args :=
          AskQuestion.rpc_args questionEmbedding
            (AskQuestion.matchThreshold_of bodyJson)
            (AskQuestion.emailFilter_of bodyJson) in
        search = EvRpc AskQuestion.search_fn args
        /\ error (rpc w AskQuestion.search_fn args) = None
        /\ rows = data (rpc w AskQuestion.search_fn args)).

(** The [source] field of a response body. *)
Definition source_tag (r : reply) : value :=
  opt_prop (reply_body r) (lit "source").

Definition field (name : string) (r : reply) : value :=
  opt_prop (reply_body r) (lit name).

(** Every character of the string is white space (the empty string
    included). *)
Definition blank (s : jsstring) : bool := forallb is_whitespace s.

(** What the extractive engine yields for one response: an answer, or
    nothing. *)
Definition qa_answer (o : fetch_outcome) : option AskQuestion.qa_result :=
  match o with
  | Responded resp =>
      if ok resp then
        match JSON_parse resp with
        | Return json =>
            match AskQuestion.read_answer json with
            | Return a => a
            | Throw _ => None
            end
        | Throw _ => None
        end
      else None
  | Rejected _ => None
  end.

(** An answer is usable when something is left of it after trimming. *)
Definition usable (a : option AskQuestion.qa_result) : option reply :=
  match a with
  | Some qa =>
      if blank (AskQuestion.answer qa) then None
      else Some (AskQuestion.extractive_reply (trim (AskQuestion.answer qa))
                   (AskQuestion.score qa))
  | None => None
  end.

(** ** Example worlds *)

(** A serializer for the example worlds: what [JSON.stringify] prints for
    the bodies used below, which hold integers only and strings that need
    no escape. *)
Fixpoint sample_stringify (v : value) : jsstring :=
  match v with
  | VUndefined | VNull => lit "null"
  | VBool true => lit "true"
  | VBool false => lit "false"
  | VNum q => string_of_Z (Qnum q)
  | VStr s => [34%N] ++ s ++ [34%N]
  | VArr xs => lit "[" ++ join (lit ",") (map sample_stringify xs) ++ lit "]"
  | VObj fields =>
      lit "{"
      ++ join (lit ",")
           (map (fun kv =>
                   match kv with
                   | (k, x) => [34%N] ++ k ++ [34%N] ++ lit ":" ++ sample_stringify x
                   end)
              fields)
      ++ lit "}"
  end.

(** A world that answers the n-th request with the n-th entry of a script
    (and refuses the connection once the script is over) and every search
    with the same result. *)
Definition scripted (script : list fetch_outcome) (found : rpc_result)
  : world :=
  mkWorld (Some (lit "hf_example_key"))
    (fun n _ _ => nth n script (Rejected (TypeError (lit "fetch failed"))))
    (fun _ _ => found)
    sample_stringify
    (lit "(intermediate value).trim is not a function").

Definition respond (code : Z) (json : value) : fetch_outcome :=
  Responded (mkResponse code (sample_stringify json) (Parsed json)).

Definition rows_found (rows : list section) : rpc_result :=
  mkRpcResult (Some rows) None.

(** The request body [{ question, generateIfNoContext }]. *)
Definition ask_body (question : string) (generateIfNoContext : bool) : value :=
  VObj [(lit "question", VStr (lit question));
        (lit "generateIfNoContext", VBool generateIfNoContext)].

Definition ask (question : string) (generateIfNoContext : bool)
  : parse_outcome :=
  Parsed (ask_body question generateIfNoContext).

Definition sample_vector : value := numvec [1 # 1; 2 # 1; 3 # 1].

Definition sample_search : event :=
  EvRpc AskQuestion.search_fn
    (AskQuestion.rpc_args sample_vector (VNum (-3 # 10))
       (VStr (lit "brandon@gmail.com"))).

(** Two rows, returned with the later section of the mail first. *)
Definition sample_rows : list section :=
  [mkSection 7 (Some (lit "Payment is pending.")) 2 (9 # 10);
   mkSection 7 (Some (lit "Invoice INV-7 is due.")) 1 (8 # 10)].

Definition sample_context : jsstring :=
  lit "Payment is pending." ++ [10; 10]%N ++ lit "Invoice INV-7 is due.".

(** Rows without any content. *)
Definition empty_rows : list section :=
  [mkSection 7 (Some []) 1 (9 # 10); mkSection 7 None 2 (8 # 10)].

Definition generated (text : string) : value :=
  VArr [VObj [(lit "generated_text", VStr (lit text))]].

Definition answered (text : string) : value :=
  VObj [(lit "answer", VStr (lit text)); (lit "score", VNum (91 # 100))].

(** The context a sequence of section contents stands for. *)
Definition assemble (contents : list (option jsstring)) : jsstring :=
  join [10; 10]%N
    (map AskQuestion.element_text (filter AskQuestion.Boolean contents)).

(** A list taken in another order: position [i] of the result holds the
    element at position [nth i order] of [l]. *)
Definition reorder {A} (order : list nat) (l : list A) (d : A) : list A :=
  map (fun i => nth i l d) order.

(** A row whose content is the empty string or is missing. *)
Definition without_content (r : section) : Prop :=
  section_content r = Some [] \/ section_content r = None.

(** The same world with a search that finds no row. *)
Definition nothing_found (w : world) : world :=
  mkWorld (HF_API_KEY w) (fetch w) (fun _ _ => mkRpcResult (Some []) None)
    (JSON_stringify w) (trim_is_not_a_function w).

(** * The rest of the two routes *)

(** ** app/api/store-email/route.ts: the chunker *)

Module Chunker.

(** [text.split(" ")]: the pieces between single spaces; the empty string
    gives one empty piece. *)
Fixpoint split_spaces (text : jsstring) : list jsstring :=
  match text with
  | [] => [[]]
  | c :: rest =>
      if (c =? 32)%N then [] :: split_spaces rest
      else
        match split_spaces rest with
        | word :: words => (c :: word) :: words
        | [] => [[c]]
        end
  end.

(** Lines 53-62: the loop over the words and the final push, with the
    chunks pushed so far and the chunk under construction. *)
Fixpoint chunk_words (chunkSize : Z) (words chunks : list jsstring)
    (currentChunk : jsstring) : list jsstring :=
  match words with
  | [] =>
      if AskQuestion.str_truthy currentChunk then chunks ++ [currentChunk]
      else chunks
  | word :: rest =>
      if Z.of_nat (List.length currentChunk) + Z.of_nat (List.length word) + 1
         >? chunkSize
      then chunk_words chunkSize rest (chunks ++ [currentChunk]) word
      else
        chunk_words chunkSize rest chunks
          (currentChunk
           ++ (if AskQuestion.str_truthy currentChunk then [32%N] else [])
           ++ word)
  end.

(** Lines 48-65. *)
Definition splitIntoChunks (text : jsstring) (chunkSize : Z)
  : list jsstring :=
  chunk_words chunkSize (split_spaces text) [] [].

Definition default_chunkSize : Z := 2000.

End Chunker.

(** The words of a text: its non-empty pieces between spaces. *)
Definition words_of (text : jsstring) : list jsstring :=
  filter AskQuestion.str_truthy (Chunker.split_spaces text).

Definition has_space (s : jsstring) : bool := existsb (N.eqb 32) s.

(** A string that neither starts nor ends with white space. *)
Definition trimmed (s : jsstring) : bool :=
  match s with
  | [] => true
  | c :: _ => negb (is_whitespace c) && negb (is_whitespace (last s c))
  end.

(** The delays of a run, added up, and the URLs it requested, in order. *)
Fixpoint sleep_total (t : trace) : Z :=
  match t with
  | [] => 0
  | EvSleep ms :: rest => ms + sleep_total rest
  | _ :: rest => sleep_total rest
  end.

Fixpoint fetched_urls (t : trace) : list jsstring :=
  match t with
  | [] => []
  | EvFetch url _ :: rest => url :: fetched_urls rest
  | _ :: rest => fetched_urls rest
  end.

Fixpoint searches (t : trace) : list (jsstring * value) :=
  match t with
  | [] => []
  | EvRpc fn args :: rest => (fn, args) :: searches rest
  | _ :: rest => searches rest
  end.

(** A body on which reading the generated text throws: [null], or an array
    whose first element is [null]. *)
Definition null_headed (json : value) : bool :=
  match json with
  | VNull | VUndefined => true
  | VArr (VNull :: _) | VArr (VUndefined :: _) => true
  | _ => false
  end.

Definition search_call (bodyJson questionEmbedding : value) : event :=
  EvRpc AskQuestion.search_fn
    (AskQuestion.rpc_args questionEmbedding
       (AskQuestion.matchThreshold_of bodyJson)
       (AskQuestion.emailFilter_of bodyJson)).

(** The responses of the question handler to a request met after the run
    [t], each with the effects it comes with. *)
Inductive handled (w : world) (t : trace) (request : parse_outcome)
  : reply -> trace -> Prop :=
| missing_question bodyJson :
    request = Parsed bodyJson ->
    AskQuestion.call_trim w
      (or_else (opt_prop bodyJson (lit "question")) (VStr []))
    = Return [] ->
    handled w t request
      (mkReply 400 (AskQuestion.obj_error (lit "Missing question"))) []
| failed_before_embedding msg :
    msg <> [] ->
    handled w t request (mkReply 500 (AskQuestion.obj_error msg)) []
| failed_embedding msg question :
    msg <> [] ->
    handled w t request (mkReply 500 (AskQuestion.obj_error msg))
      [embedding_request question]
| failed_search msg question bodyJson emb :
    msg <> [] ->
    request = Parsed bodyJson ->
    AskQuestion.call_trim w
      (or_else (opt_prop bodyJson (lit "question")) (VStr []))
    = Return question ->
    question <> [] ->
    AskQuestion.getHfEmbedding w question
      AskQuestion.default_embedding_model t
    = (Return emb, t ++ [embedding_request question]) ->
    handled w t request (mkReply 500 (AskQuestion.obj_error msg))
      [embedding_request question; search_call bodyJson emb]
| nothing_to_answer_from question rows search :
    searched w request t question false rows search ->
    AskQuestion.build_context rows = [] ->
    handled w t request AskQuestion.no_context_reply
      [embedding_request question; search]
| extracted question g rows search answer score :
    searched w request t question g rows search ->
    AskQuestion.build_context rows <> [] ->
    blank answer = false ->
    handled w t request (AskQuestion.extractive_reply (trim answer) score)
      [embedding_request question; search;
       qa_request question (AskQuestion.build_context rows)]
| generated_from_context question g rows search text k :
    searched w request t question g rows search ->
    AskQuestion.build_context rows <> [] ->
    (1 <= k <= 6)%nat ->
    handled w t request (AskQuestion.generation_reply (trim text))
      ([embedding_request question; search;
        qa_request question (AskQuestion.build_context rows)]
       ++ fetch_events
            (firstn k
               (schedule
                  (AskQuestion.build_prompt question
                     (AskQuestion.build_context rows))
                  AskQuestion.genModels)))
| generated_without_context question rows search text k :
    searched w request t question true rows search ->
    AskQuestion.build_context rows = [] ->
    (1 <= k <= 6)%nat ->
    handled w t request (AskQuestion.general_answer_reply (trim text))
      ([embedding_request question; search]
       ++ fetch_events
            (firstn k
               (schedule (AskQuestion.build_prompt question [])
                  AskQuestion.genModels)))
| generators_exhausted question g rows search :
    searched w request t question g rows search ->
    (AskQuestion.build_context rows = [] -> g = true) ->
    handled w t request AskQuestion.generation_failed_reply
      ([embedding_request question; search]
       ++ (if AskQuestion.str_truthy (AskQuestion.build_context rows)
           then [qa_request question (AskQuestion.build_context rows)]
           else [])
       ++ fetch_events
            (schedule
               (AskQuestion.build_prompt question
                  (AskQuestion.build_context rows))
               AskQuestion.genModels)).

(** A world without the access token, and a database that refuses the
    search. *)
Definition keyless : world :=
  mkWorld None
    (fun _ _ _ => Rejected (TypeError (lit "fetch failed")))
    (fun _ _ => rows_found [])
    sample_stringify
    (lit "(intermediate value).trim is not a function").

Definition search_refused (msg : string) : rpc_result :=
  mkRpcResult None (Some (lit msg)).

(** ** app/api/store-email/route.ts: the handler *)

Module StoreEmailHandler.

(** Line 9: a validated mail. *)
Record Email : Type := mkEmail {
  subject : jsstring;
  sender : jsstring;
  recipient : list jsstring;
  cc : option (list jsstring);
  bcc : option (list jsstring);
  body : jsstring
}.

(** What the handler does to the outside, in order: the requests and pauses
    of the embedding client, and the two kinds of insert. *)
Inductive store_event : Type :=
| Inference (e : event)
| InsertEmail (rows : value)
| InsertSection (rows : value).

Definition store_trace : Type := list store_event.

(** The [{ data, error }] pair of the insert into [emails]: the selected
    row or [null], and the message of the error object, if there is one. *)
Record insert_result : Type := mkInsertResult {
  inserted : value;
  emailError : option jsstring
}.

(** What the handler does not decide itself: which strings the validation
    library takes for mail addresses, the issues it reports, and the answers
    of the database to the two inserts, which may depend on everything that
    happened before. *)
Record database : Type := mkDatabase {
  is_email : jsstring -> bool;
  errors : value -> value;
  insert_email : store_trace -> value -> insert_result;
  insert_section : store_trace -> value -> option jsstring
}.

(** Lines 36-43: [emailSchema.safeParse], with [None] for a failed
    validation.  The data must be an object; [subject] and [body] must be
    strings, [sender] an address, [recipient] an array of addresses, and
    [cc] and [bcc] arrays of addresses or absent.  Other fields of the
    object are dropped. *)
Definition z_string (v : value) : option jsstring :=
  match v with
  | VStr s => Some s
  | _ => None
  end.

Definition z_string_email (db : database) (v : value) : option jsstring :=
  match v with
  | VStr s => if is_email db s then Some s else None
  | _ => None
  end.

Fixpoint z_each (db : database) (xs : list value) : option (list jsstring) :=
  match xs with
  | [] => Some []
  | x :: rest =>
      match z_string_email db x, z_each db rest with
      | Some s, Some ss => Some (s :: ss)
      | _, _ => None
      end
  end.

Definition z_array_email (db : database) (v : value)
  : option (list jsstring) :=
  match v with
  | VArr xs => z_each db xs
  | _ => None
  end.

Definition z_optional {A} (parse : value -> option A) (v : value)
  : option (option A) :=
  match v with
  | VUndefined => Some None
  | _ =>
      match parse v with
      | Some a => Some (Some a)
      | None => None
      end
  end.

Definition emailSchema (db : database) (requestData : value) : option Email :=
  match requestData with
  | VObj fields =>
      match z_string (lookup (lit "subject") fields),
            z_string_email db (lookup (lit "sender") fields),
            z_array_email db (lookup (lit "recipient") fields),
            z_optional (z_array_email db) (lookup (lit "cc") fields),
            z_optional (z_array_email db) (lookup (lit "bcc") fields),
            z_string (lookup (lit "body") fields) with
      | Some subject, Some sender, Some recipient, Some cc, Some bcc,
        Some body =>
          Some (mkEmail subject sender recipient cc bcc body)
      | _, _, _, _, _, _ => None
      end
  | _ => None
  end.

(** The monad of the handler: as [M], over the handler's own effects. *)
Definition SM (A : Type) : Type := store_trace -> outcome A * store_trace.

Definition sret {A} (a : A) : SM A := fun st => (Return a, st).

Definition sthrow {A} (e : exn) : SM A := fun st => (Throw e, st).

Definition sbind {A B} (m : SM A) (k : A -> SM B) : SM B :=
  fun st =>
    match m st with
    | (Return a, st') => k a st'
    | (Throw e, st') => (Throw e, st')
    end.

Definition stry_catch {A} (m : SM A) (handler : exn -> SM A) : SM A :=
  fun st =>
    match m st with
    | (Return a, st') => (Return a, st')
    | (Throw e, st') => handler e st'
    end.

Definition slift {A} (o : outcome A) : SM A := fun st => (o, st).

(** The requests and pauses of a run. *)
Fixpoint inference_of (st : store_trace) : trace :=
  match st with
  | [] => []
  | Inference e :: rest => e :: inference_of rest
  | _ :: rest => inference_of rest
  end.

(** A call of the embedding client from inside the handler: the client sees
    the requests made so far, and what it does is added to the run. *)
Definition run_client {A} (m : M A) : SM A :=
  fun st =>
    let t := inference_of st in
    let (o, t') := m t in
    (o, st ++ map Inference (skipn (List.length t) t')).

(** Lines 187-191 and 224. *)
Definition do_insert_email (db : database) (rows : value) : SM insert_result :=
  fun st => (Return (insert_email db st rows), st ++ [InsertEmail rows]).

Definition do_insert_section (db : database) (rows : value)
  : SM (option jsstring) :=
  fun st => (Return (insert_section db st rows), st ++ [InsertSection rows]).

Definition strings (l : list jsstring) : value := VArr (map VStr l).

Definition optional_strings (l : option (list jsstring)) : value :=
  match l with
  | Some l => strings l
  | None => VUndefined
  end.

(** Line 189: the row of the mail. *)
Definition email_row (email : Email) : value :=
  VObj [(lit "subject", VStr (subject email));
        (lit "sender", VStr (sender email));
        (lit "recipient", strings (recipient email));
        (lit "cc", optional_strings (cc email));
        (lit "bcc", optional_strings (bcc email));
        (lit "body", VStr (body email))].

(** Lines 217-222: the row of a section, for the chunk at index [i]. *)
Definition section_row (emailId : value) (chunk : jsstring) (embedding : value)
    (i : nat) : value :=
  VObj [(lit "email_id", emailId);
        (lit "section_content", VStr chunk);
        (lit "embedding", embedding);
        (lit "section_order", num_of_nat (i + 1)%nat)].

(** Lines 205-231: the loop over the chunks, from index [i] on. *)
Fixpoint store_chunks (w : world) (db : database) (emailId : value)
    (chunks : list jsstring) (i : nat) : SM unit :=
  match chunks with
  | [] => sret tt
  | chunk :: rest =>
      sbind
        (run_client
           (StoreEmail.getHfEmbedding w chunk
              AskQuestion.default_embedding_model))
        (fun embedding =>
           if negb (isArray embedding)
           then sthrow (Error (lit "Embedding not an array"))
           else
             sbind
               (do_insert_section db
                  (VArr [section_row emailId chunk embedding i]))
               (fun sectionError =>
                  match sectionError with
                  | Some msg =>
                      sthrow
                        (Error (if AskQuestion.str_truthy msg then msg
                                else lit "Failed to insert email section"))
                  | None => store_chunks w db emailId rest (S i)
                  end))
  end.

Definition invalid_reply (db : database) (requestData : value) : reply :=
  mkReply 400
    (VObj [(lit "error", VStr (lit "Invalid email data"));
           (lit "details", errors db requestData)]).

Definition stored_reply : reply :=
  mkReply 200 (VObj [(lit "message", VStr (lit "Email stored successfully!"))]).

(** Lines 167-239. *)
Definition POST (w : world) (db : database) (request : parse_outcome)
  : SM reply :=
  stry_catch
    (sbind (slift (AskQuestion.request_json request)) (fun requestData =>
     match emailSchema db requestData with
     | None => sret (invalid_reply db requestData)
     | Some email =>
         sbind (do_insert_email db (VArr [email_row email])) (fun r =>
         match emailError r with
         | Some msg =>
             sthrow (Error (if AskQuestion.str_truthy msg then msg
                            else lit "Failed to insert email"))
         | None =>
             sbind (slift (prop (inserted r) (lit "id"))) (fun emailId =>
             let chunks :=
               Chunker.splitIntoChunks (body email) Chunker.default_chunkSize
             in
             sbind (store_chunks w db emailId chunks 0) (fun _ =>
             sret stored_reply))
         end)
     end))
    (fun error =>
       sret (mkReply 500
               (AskQuestion.obj_error
                  (if AskQuestion.str_truthy (message error)
                   then message error
                   else lit "Failed to store email")))).

End StoreEmailHandler.

(** The rows the handler tried to insert into [email_sections], and how
    often it inserted into [emails]. *)
Fixpoint section_rows (st : StoreEmailHandler.store_trace) : list value :=
  match st with
  | [] => []
  | StoreEmailHandler.InsertSection (VArr [row]) :: rest =>
      row :: section_rows rest
  | _ :: rest => section_rows rest
  end.

Fixpoint email_rows (st : StoreEmailHandler.store_trace) : list value :=
  match st with
  | [] => []
  | StoreEmailHandler.InsertEmail rows :: rest => rows :: email_rows rest
  | _ :: rest => email_rows rest
  end.

(** The section rows of a mail: chunk by chunk, each with its embedding,
    numbered from [i + 1] on, for as many chunks as have an embedding. *)
Fixpoint numbered (emailId : value) (chunks : list jsstring)
    (embeddings : list value) (i : nat) : list value :=
  match chunks, embeddings with
  | chunk :: chunks', embedding :: embeddings' =>
      StoreEmailHandler.section_row emailId chunk embedding i
      :: numbered emailId chunks' embeddings' (S i)
  | _, _ => []
  end.

(** The responses of the store-email handler to a request met after the run
    [st], each with the effects it comes with. *)
Inductive stored (w : world) (db : StoreEmailHandler.database)
    (st : StoreEmailHandler.store_trace) (request : parse_outcome)
  : reply -> StoreEmailHandler.store_trace -> Prop :=
| unreadable_request why msg :
    request = Unparsable why ->
    msg <> [] ->
    stored w db st request (mkReply 500 (AskQuestion.obj_error msg)) []
| invalid_mail requestData :
    request = Parsed requestData ->
    StoreEmailHandler.emailSchema db requestData = None ->
    stored w db st request (StoreEmailHandler.invalid_reply db requestData) []
| mail_refused requestData email msg :
    request = Parsed requestData ->
    StoreEmailHandler.emailSchema db requestData = Some email ->
    msg <> [] ->
    (forall emailId,
        StoreEmailHandler.emailError
          (StoreEmailHandler.insert_email db st
             (VArr [StoreEmailHandler.email_row email])) = None ->
        prop (StoreEmailHandler.inserted
                (StoreEmailHandler.insert_email db st
                   (VArr [StoreEmailHandler.email_row email])))
          (lit "id") <> Return emailId) ->
    stored w db st request (mkReply 500 (AskQuestion.obj_error msg))
      [StoreEmailHandler.InsertEmail
         (VArr [StoreEmailHandler.email_row email])]
| sections_failed requestData email emailId embeddings rest msg :
    request = Parsed requestData ->
    StoreEmailHandler.emailSchema db requestData = Some email ->
    StoreEmailHandler.emailError
      (StoreEmailHandler.insert_email db st
         (VArr [StoreEmailHandler.email_row email])) = None ->
    prop (StoreEmailHandler.inserted
            (StoreEmailHandler.insert_email db st
               (VArr [StoreEmailHandler.email_row email])))
      (lit "id") = Return emailId ->
    msg <> [] ->
    section_rows rest
    = numbered emailId
        (Chunker.splitIntoChunks (StoreEmailHandler.body email)
           Chunker.default_chunkSize)
        embeddings 0 ->
    (List.length embeddings
     <= List.length
          (Chunker.splitIntoChunks (StoreEmailHandler.body email)
             Chunker.default_chunkSize))%nat ->
    Forall (fun embedding => isArray embedding = true) embeddings ->
    email_rows rest = [] ->
    (nfetch (StoreEmailHandler.inference_of rest)
     <= 6 * List.length
              (Chunker.splitIntoChunks (StoreEmailHandler.body email)
                 Chunker.default_chunkSize))%nat ->
    stored w db st request (mkReply 500 (AskQuestion.obj_error msg))
      (StoreEmailHandler.InsertEmail
         (VArr [StoreEmailHandler.email_row email]) :: rest)
| mail_stored requestData email emailId embeddings rest :
    request = Parsed requestData ->
    StoreEmailHandler.emailSchema db requestData = Some email ->
    StoreEmailHandler.emailError
      (StoreEmailHandler.insert_email db st
         (VArr [StoreEmailHandler.email_row email])) = None ->
    prop (StoreEmailHandler.inserted
            (StoreEmailHandler.insert_email db st
               (VArr [StoreEmailHandler.email_row email])))
      (lit "id") = Return emailId ->
    section_rows rest
    = numbered emailId
        (Chunker.splitIntoChunks (StoreEmailHandler.body email)
           Chunker.default_chunkSize)
        embeddings 0 ->
    List.length embeddings
    = List.length
        (Chunker.splitIntoChunks (StoreEmailHandler.body email)
           Chunker.default_chunkSize) ->
    Forall (fun embedding => isArray embedding = true) embeddings ->
    email_rows rest = [] ->
    (nfetch (StoreEmailHandler.inference_of rest)
     <= 6 * List.length
              (Chunker.splitIntoChunks (StoreEmailHandler.body email)
                 Chunker.default_chunkSize))%nat ->
    stored w db st request StoreEmailHandler.stored_reply
      (StoreEmailHandler.InsertEmail
         (VArr [StoreEmailHandler.email_row email]) :: rest).

(** A request that ends the work of the embedding client: the response has
    a 2xx status and a body that parses and decodes to [v]. *)
Definition decoded_from (w : world) (n : nat) (url : jsstring) (body v : value)
  : Prop :=
  exists resp json,
    fetch w n url body = Responded resp
    /\ ok resp = true
    /\ parsed resp = Parsed json
    /\ StoreEmail.normalize w json = Return v.

Definition failed_with_any_endpoint : exn :=
  Error (lit "Failed to fetch embedding from Hugging Face with any endpoint").

(** The two requests of the embedding client for the default model. *)
Definition primary_request (text : jsstring) : event :=
  EvFetch
    (StoreEmail.urlPrimary (lit "sentence-transformers%2Fall-MiniLM-L6-v2"))
    (VObj [(lit "inputs", VStr text)]).

Definition fallback_request (text : jsstring) : event :=
  EvFetch
    (StoreEmail.urlFallback (lit "sentence-transformers%2Fall-MiniLM-L6-v2"))
    (VObj [(lit "inputs", VStr text)]).

(** A database that takes every string with an at sign for an address,
    gives every mail the id 7 and accepts every section. *)
Definition sample_database : StoreEmailHandler.database :=
  StoreEmailHandler.mkDatabase
    (existsb (N.eqb 64))
    (fun _ => VArr [])
    (fun _ _ =>
       StoreEmailHandler.mkInsertResult (VObj [(lit "id", VNum (7 # 1))]) None)
    (fun _ _ => None).

(** A database that refuses every mail. *)
Definition full_database : StoreEmailHandler.database :=
  StoreEmailHandler.mkDatabase
    (existsb (N.eqb 64))
    (fun _ => VArr [])
    (fun _ _ =>
       StoreEmailHandler.mkInsertResult VNull (Some (lit "disk full")))
    (fun _ _ => None).

Definition sample_mail (body : string) : value :=
  VObj [(lit "subject", VStr (lit "Invoice"));
        (lit "sender", VStr (lit "ann@example.com"));
        (lit "recipient", VArr [VStr (lit "brandon@gmail.com")]);
        (lit "body", VStr (lit body))].

Definition sample_email (body : string) : StoreEmailHandler.Email :=
  StoreEmailHandler.mkEmail (lit "Invoice") (lit "ann@example.com")
    [lit "brandon@gmail.com"] None None (lit body).

(** * Proofs *)

Ltac by_running := vm_compute; first [reflexivity | discriminate | congruence].

(** Proves [searched] for a [scripted] world whose first response holds
    [sample_vector], by running the handler's first steps. *)
Ltac search_ran question g :=
  exists (ask_body question g), sample_vector;
  repeat split; by_running.


(** ** Traces and strings *)

Lemma nfetch_app (t u : trace) : nfetch (t ++ u) = (nfetch t + nfetch u)%nat.
Proof. unfold nfetch. now rewrite filter_app, length_app. Qed.

Lemma nfetch_fetch (t : trace) url body :
  nfetch (t ++ [EvFetch url body]) = S (nfetch t).
Proof. rewrite nfetch_app. unfold nfetch. simpl. lia. Qed.

(** *** Trimming *)

Lemma trimStart_blank (s : jsstring) : blank s = true -> trimStart s = [].
Proof.
  induction s as [|c s IH]; simpl; [reflexivity|].
  intros H. apply andb_prop in H as [Hc Hs]. rewrite Hc. auto.
Qed.

Lemma trimStart_nil_blank (s : jsstring) : trimStart s = [] -> blank s = true.
Proof.
  induction s as [|c s IH]; simpl; [reflexivity|].
  destruct (is_whitespace c); [auto|discriminate].
Qed.

Lemma trim_blank (s : jsstring) : blank s = true -> trim s = [].
Proof.
  intros H. unfold trim, trimEnd. now rewrite (trimStart_blank s H).
Qed.

Lemma blank_rev (s : jsstring) : blank (rev s) = blank s.
Proof.
  unfold blank. induction s as [|c s IH]; simpl; [reflexivity|].
  rewrite forallb_app, IH. simpl. rewrite andb_true_r. apply andb_comm.
Qed.

Lemma trimStart_suffix (s : jsstring) :
  exists p, s = p ++ trimStart s /\ blank p = true.
Proof.
  induction s as [|c s [p [E B]]]; simpl.
  - exists []. auto.
  - destruct (is_whitespace c) eqn:W.
    + exists (c :: p). simpl. rewrite W, B. split; [now f_equal|reflexivity].
    + exists []. auto.
Qed.

Lemma trim_nil_blank (s : jsstring) : trim s = [] -> blank s = true.
Proof.
  unfold trim, trimEnd. intros H.
  assert (H' : trimStart (rev (trimStart s)) = []).
  { apply (f_equal (@rev N)) in H. now rewrite rev_involutive in H. }
  apply trimStart_nil_blank in H'. rewrite blank_rev in H'.
  destruct (trimStart_suffix s) as [p [E B]]. rewrite E.
  unfold blank in *. rewrite forallb_app, B. exact H'.
Qed.

(** *** Generation *)

Lemma extract_text2_eq w json :
  AskQuestion.extract_text2 w json = AskQuestion.extract_text w json.
Proof.
  unfold AskQuestion.extract_text2, AskQuestion.extract_text.
  generalize (@Return jsstring (slice0 4000 (JSON_stringify w json))).
  intros dump.
  destruct (isArray json && truthy (length_of json)); [|reflexivity].
  destruct (prop (at0 json) (lit "generated_text")) as [g|e]; [|reflexivity].
  cbn [obind]. destruct g; try reflexivity;
  destruct (prop json (lit "generated_text")) as [g'|e']; try reflexivity;
  cbn [obind]; destruct g' as [| | | |[|]| |]; try reflexivity;
  destruct (prop (at0 json) (lit "text")) as [x|e'']; try reflexivity.
Qed.

Lemma attempt_A w prompt model enc t :
  encodeURIComponent model = Some enc ->
  AskQuestion.attempt w AskQuestion.text_generation_url
    (AskQuestion.payload prompt) (AskQuestion.extract_text w) model t
  = (Return (gen_text w (fetch w (nfetch t)
                           (AskQuestion.text_generation_url enc)
                           (AskQuestion.payload prompt))),
     t ++ [EvFetch (AskQuestion.text_generation_url enc)
             (AskQuestion.payload prompt)]).
Proof.
  intros He. unfold AskQuestion.attempt, try_catch, bind, do_fetch, gen_text.
  rewrite He.
  destruct (fetch w (nfetch t) _ _) as [r|e]; [|reflexivity].
  destruct (ok r); [|reflexivity]. unfold lift.
  destruct (JSON_parse r) as [json|e]; [|reflexivity].
  destruct (AskQuestion.extract_text w json); reflexivity.
Qed.

Lemma attempt_B w prompt model enc t :
  encodeURIComponent model = Some enc ->
  AskQuestion.attempt w AskQuestion.text2text_generation_url
    (AskQuestion.payload2 prompt) (AskQuestion.extract_text2 w) model t
  = (Return (gen_text w (fetch w (nfetch t)
                           (AskQuestion.text2text_generation_url enc)
                           (AskQuestion.payload2 prompt))),
     t ++ [EvFetch (AskQuestion.text2text_generation_url enc)
             (AskQuestion.payload2 prompt)]).
Proof.
  intros He. unfold AskQuestion.attempt, try_catch, bind, do_fetch, gen_text.
  rewrite He.
  destruct (fetch w (nfetch t) _ _) as [r|e]; [|reflexivity].
  destruct (ok r); [|reflexivity]. unfold lift.
  destruct (JSON_parse r) as [json|e]; [|reflexivity].
  rewrite extract_text2_eq.
  destruct (AskQuestion.extract_text w json); reflexivity.
Qed.

Lemma attempt_unencodable w url_of body extract model t :
  encodeURIComponent model = None ->
  AskQuestion.attempt w url_of body extract model t = (Return None, t).
Proof.
  intros He. unfold AskQuestion.attempt, try_catch. now rewrite He.
Qed.

Lemma generate_loop_schedule w prompt models : forall t,
  AskQuestion.generate_loop w prompt models t =
    match first_success w (nfetch t) (schedule prompt models) with
    | Some (text, k) =>
        (Return text, t ++ fetch_events (firstn k (schedule prompt models)))
    | None =>
        (Throw all_models_failed, t ++ fetch_events (schedule prompt models))
    end.
Proof.
  induction models as [|model rest IH]; intros t.
  - simpl. unfold throw. now rewrite app_nil_r.
  - cbn [AskQuestion.generate_loop schedule flat_map].
    fold (schedule prompt rest). unfold bind.
    destruct (encodeURIComponent model) as [enc|] eqn:He.
    + assert (R : requests_of prompt model
                  = [(AskQuestion.text_generation_url enc,
                      AskQuestion.payload prompt);
                     (AskQuestion.text2text_generation_url enc,
                      AskQuestion.payload2 prompt)])
        by (unfold requests_of; now rewrite He).
      rewrite R, (attempt_A _ _ _ _ _ He). clear R.
      cbn [app first_success].
      destruct (gen_text w (fetch w (nfetch t) _ _)) as [text|];
        [reflexivity|].
      rewrite (attempt_B _ _ _ _ _ He), nfetch_fetch.
      destruct (gen_text w (fetch w (S (nfetch t)) _ _)) as [text|].
      * unfold ret. cbn [firstn fetch_events map fst snd].
        rewrite <- (app_assoc t). reflexivity.
      * rewrite IH, !nfetch_fetch.
        destruct (first_success w (S (S (nfetch t))) (schedule prompt rest))
          as [[text k]|];
          cbn [firstn fetch_events map fst snd];
          rewrite <- (app_assoc t), <- (app_assoc t); reflexivity.
    + assert (R : requests_of prompt model = [])
        by (unfold requests_of; now rewrite He).
      rewrite R, !attempt_unencodable by assumption.
      cbn [app]. apply IH.
Qed.

(** *** Extraction *)

Lemma qa_model_encoded :
  encodeURIComponent AskQuestion.qa_model
  = Some (lit "deepset%2Froberta-base-squad2").
Proof. vm_compute. reflexivity. Qed.

Lemma embedding_model_encoded :
  encodeURIComponent AskQuestion.default_embedding_model
  = Some (lit "sentence-transformers%2Fall-MiniLM-L6-v2").
Proof. vm_compute. reflexivity. Qed.

Lemma tryExtractiveQA_spec w question context t :
  key_missing w = false ->
  AskQuestion.tryExtractiveQA w question context AskQuestion.qa_model t
  = (Return (qa_answer (fetch w (nfetch t)
                          (AskQuestion.qa_url (lit "deepset%2Froberta-base-squad2"))
                          (AskQuestion.qa_payload question context))),
     t ++ [qa_request question context]).
Proof.
  intros Hk. unfold AskQuestion.tryExtractiveQA. rewrite Hk, qa_model_encoded.
  unfold try_catch, bind, do_fetch, qa_answer, qa_request.
  destruct (fetch w (nfetch t) _ _) as [r|e]; [|reflexivity].
  destruct (ok r); [|reflexivity]. cbn [negb]. unfold lift.
  destruct (JSON_parse r) as [json|e]; [|reflexivity].
  destruct (AskQuestion.read_answer json); reflexivity.
Qed.

Lemma str_truthy_trim (s : jsstring) :
  AskQuestion.str_truthy (trim s) = negb (blank s).
Proof.
  destruct (blank s) eqn:B.
  - now rewrite (trim_blank s B).
  - destruct (trim s) eqn:T; [|reflexivity].
    apply trim_nil_blank in T. congruence.
Qed.

Lemma extraction_stage_spec w question context t :
  AskQuestion.extraction_stage w question context t =
    if AskQuestion.str_truthy context then
      if key_missing w then (Return None, t)
      else
        (Return (usable (qa_answer
                   (fetch w (nfetch t)
                      (AskQuestion.qa_url (lit "deepset%2Froberta-base-squad2"))
                      (AskQuestion.qa_payload question context)))),
         t ++ [qa_request question context])
    else (Return None, t).
Proof.
  unfold AskQuestion.extraction_stage.
  destruct (AskQuestion.str_truthy context); [|reflexivity].
  destruct (key_missing w) eqn:Hk.
  - unfold try_catch, bind, AskQuestion.tryExtractiveQA. now rewrite Hk.
  - unfold try_catch, bind. rewrite (tryExtractiveQA_spec _ _ _ _ Hk).
    destruct (qa_answer _) as [qa|]; [|reflexivity].
    cbn [usable]. rewrite str_truthy_trim.
    destruct (blank (AskQuestion.answer qa)) eqn:B.
    + cbn [negb]. now rewrite andb_false_r.
    + cbn [negb]. rewrite andb_true_r.
      assert (T : trim (AskQuestion.answer qa) <> []).
      { intros T. apply trim_nil_blank in T. congruence. }
      destruct (AskQuestion.answer qa) as [|c s] eqn:A; [discriminate B|].
      cbn [AskQuestion.str_truthy].
      destruct (trim (c :: s)) as [|c' s'] eqn:T'; [congruence|].
      reflexivity.
Qed.

(** *** Generation stage *)

Lemma generation_stage_spec w question context t :
  key_missing w = false ->
  AskQuestion.generation_stage w question context t =
    let sched :=
      schedule (AskQuestion.build_prompt question context)
        AskQuestion.genModels in
    match first_success w (nfetch t) sched with
    | Some (text, k) =>
        (Return (if AskQuestion.str_truthy context
                 then AskQuestion.generation_reply (trim text)
                 else AskQuestion.general_answer_reply (trim text)),
         t ++ fetch_events (firstn k sched))
    | None =>
        (Return AskQuestion.generation_failed_reply, t ++ fetch_events sched)
    end.
Proof.
  intros Hk. unfold AskQuestion.generation_stage, try_catch, bind,
    AskQuestion.tryGenerateWithFallbacks.
  rewrite Hk, generate_loop_schedule. cbv zeta.
  destruct (first_success _ _ _) as [[text k]|]; [|reflexivity].
  destruct (AskQuestion.str_truthy context); reflexivity.
Qed.

Lemma generation_stage_no_key w question context t :
  key_missing w = true ->
  AskQuestion.generation_stage w question context t
  = (Return AskQuestion.generation_failed_reply, t).
Proof.
  intros Hk. unfold AskQuestion.generation_stage, try_catch, bind,
    AskQuestion.tryGenerateWithFallbacks. now rewrite Hk.
Qed.

(** *** The pipeline after the search *)

Lemma generation_stage_returns w question context t :
  exists r t', AskQuestion.generation_stage w question context t = (Return r, t').
Proof.
  destruct (key_missing w) eqn:Hk.
  - rewrite generation_stage_no_key by assumption. eauto.
  - rewrite generation_stage_spec by assumption. cbv zeta.
    destruct (first_success _ _ _) as [[text k]|]; eauto.
Qed.

Lemma answer_stage_returns w question context g t :
  exists r t', AskQuestion.answer_stage w question context g t = (Return r, t').
Proof.
  unfold AskQuestion.answer_stage.
  destruct (negb (AskQuestion.str_truthy context) && negb g).
  - unfold ret. eauto.
  - unfold bind. rewrite extraction_stage_spec.
    destruct (AskQuestion.str_truthy context).
    + destruct (key_missing w).
      * apply generation_stage_returns.
      * destruct (usable _); [unfold ret; eauto|].
        apply generation_stage_returns.
    + apply generation_stage_returns.
Qed.

Lemma searched_key w request t question g rows search :
  searched w request t question g rows search -> key_missing w = false.
Proof.
  intros (bodyJson & emb & _ & _ & _ & _ & He & _).
  unfold AskQuestion.getHfEmbedding in He.
  destruct (key_missing w); [discriminate He|reflexivity].
Qed.

Lemma POST_answer_stage w request t question g rows search :
  searched w request t question g rows search ->
  AskQuestion.POST w request t
  = AskQuestion.answer_stage w question (AskQuestion.build_context rows) g
      (t ++ [embedding_request question; search]).
Proof.
  intros (bodyJson & emb & Hr & Hq & Hne & Hg & He & Hs & Herr & Hrows).
  unfold AskQuestion.POST, try_catch.
  destruct (answer_stage_returns w question (AskQuestion.build_context rows) g
              (t ++ [embedding_request question; search])) as (r & t' & Ha).
  rewrite Ha. unfold bind at 1. unfold lift at 1. subst request.
  cbn [AskQuestion.request_json]. unfold bind at 1. unfold lift at 1.
  rewrite Hq.
  destruct question as [|c q]; [congruence|]. cbn [AskQuestion.str_truthy negb].
  unfold bind at 1. rewrite He. unfold bind at 1. unfold do_rpc.
  rewrite Herr. rewrite <- Hrows, <- Hg, <- Hs, <- app_assoc.
  cbn [app]. now rewrite Ha.
Qed.

Lemma POST_after_search w request t question g rows search :
  searched w request t question g rows search ->
  let context := AskQuestion.build_context rows in
  let t1 := t ++ [embedding_request question; search] in
  AskQuestion.POST w request t =
    if negb (AskQuestion.str_truthy context) then
      if g then AskQuestion.generation_stage w question context t1
      else (Return AskQuestion.no_context_reply, t1)
    else
      match usable (qa_answer
                      (fetch w (nfetch t1)
                         (AskQuestion.qa_url (lit "deepset%2Froberta-base-squad2"))
                         (AskQuestion.qa_payload question context))) with
      | Some r => (Return r, t1 ++ [qa_request question context])
      | None =>
          AskQuestion.generation_stage w question context
            (t1 ++ [qa_request question context])
      end.
Proof.
  intros S. cbv zeta. rewrite (POST_answer_stage _ _ _ _ _ _ _ S).
  pose proof (searched_key _ _ _ _ _ _ _ S) as Hk.
  unfold AskQuestion.answer_stage.
  destruct (AskQuestion.str_truthy (AskQuestion.build_context rows)) eqn:C;
    cbn [negb andb].
  - unfold bind. rewrite extraction_stage_spec, Hk, C.
    destruct (usable _); reflexivity.
  - destruct g; cbn [negb]; [|reflexivity].
    unfold bind. now rewrite extraction_stage_spec, C.
Qed.

(** *** Embedding shapes *)

Lemma prop_of_truthy (x : value) (k : jsstring) :
  truthy (opt_prop x k) = true -> prop x k = Return (opt_prop x k).
Proof.
  unfold opt_prop. destruct (prop x k) as [v|e]; [reflexivity|discriminate].
Qed.

Lemma isArray_truthy (v : value) : isArray v = true -> truthy v = true.
Proof. destruct v; simpl; congruence. Qed.

Lemma truthy_and_isArray (v : value) : truthy v && isArray v = isArray v.
Proof. destruct v; simpl; auto using andb_false_r. Qed.

Lemma ask_normalize_first_match (json : value) :
  AskQuestion.normalize json =
    match json with
    | VNull | VUndefined => Throw (cannot_read json (lit "embedding"))
    | _ =>
        match first_match shapes_in_order json with
        | Some v => Return v
        | None => Throw ask_shape_error
        end
    end.
Proof.
  unfold AskQuestion.normalize, shapes_in_order, first_match, decode.
  destruct json as [| |b|q|s|xs|fs]; try reflexivity.
  - destruct xs as [|x xs']; [reflexivity|].
    destruct x as [| |b|q|s|ys|gs]; try reflexivity.
    destruct ys as [|y ys']; [reflexivity|]. destruct y; reflexivity.
  - cbn [isArray andb at0 elem0 prop obind opt_prop].
    generalize (lookup (lit "embedding") fs) (lookup (lit "embeddings") fs)
      (lookup (lit "data") fs).
    intros e es d.
    rewrite !truthy_and_isArray.
    destruct (isArray e); [reflexivity|].
    destruct (truthy es && isArray (at0 es) && is_number (at0 (at0 es)));
      [reflexivity|].
    destruct (truthy es && is_number (at0 es)); [reflexivity|].
    destruct (isArray d); [|reflexivity]. cbn [andb].
    destruct (truthy (opt_prop (at0 d) (lit "embedding"))) eqn:Ht;
      [|reflexivity].
    now rewrite prop_of_truthy.
Qed.

(** *** The embedding client with retries *)
Lemma nfetch_sleep (t : trace) ms : nfetch (t ++ [EvSleep ms]) = nfetch t.
Proof. rewrite nfetch_app. unfold nfetch. simpl. lia. Qed.

Lemma do_fetch_responded w url body t r :
  fetch w (nfetch t) url body = Responded r ->
  do_fetch w url body t = (Return r, t ++ [EvFetch url body]).
Proof. intros H. unfold do_fetch. now rewrite H. Qed.

Lemma do_fetch_rejected w url body t e :
  fetch w (nfetch t) url body = Rejected e ->
  do_fetch w url body t = (Throw e, t ++ [EvFetch url body]).
Proof. intros H. unfold do_fetch. now rewrite H. Qed.

Lemma attempt_body_transient w url body a t r :
  fetch w (nfetch t) url body = Responded r ->
  transient r = true ->
  StoreEmail.attempt_body w url body a t
  = (Return StoreEmail.Continue, t ++ [EvFetch url body; EvSleep (300 * a)]).
Proof.
  intros Hf Ht. unfold transient in Ht. apply andb_prop in Ht as [Hok Hs].
  unfold StoreEmail.attempt_body, try_catch, bind.
  rewrite (do_fetch_responded _ _ _ _ _ Hf), Hok, Hs.
  unfold sleep, ret. now rewrite <- app_assoc.
Qed.

Lemma attempt_body_success w url body a t r json v :
  fetch w (nfetch t) url body = Responded r ->
  ok r = true -> parsed r = Parsed json ->
  StoreEmail.normalize w json = Return v ->
  StoreEmail.attempt_body w url body a t
  = (Return (StoreEmail.Returned v), t ++ [EvFetch url body]).
Proof.
  intros Hf Hok Hp Hn.
  unfold StoreEmail.attempt_body, try_catch, bind.
  rewrite (do_fetch_responded _ _ _ _ _ Hf), Hok. simpl.
  unfold lift. rewrite Hp, Hn. reflexivity.
Qed.

Lemma attempts_transient w url body n a t r :
  fetch w (nfetch t) url body = Responded r ->
  transient r = true ->
  StoreEmail.attempts w url body (S n) a t
  = StoreEmail.attempts w url body n (a + 1)
      (t ++ [EvFetch url body; EvSleep (300 * a)]).
Proof.
  intros Hf Ht. cbn [StoreEmail.attempts]. unfold bind.
  now rewrite (attempt_body_transient _ _ _ _ _ _ Hf Ht).
Qed.

Lemma attempts_success w url body n a t r json v :
  fetch w (nfetch t) url body = Responded r ->
  ok r = true -> parsed r = Parsed json ->
  StoreEmail.normalize w json = Return v ->
  StoreEmail.attempts w url body (S n) a t
  = (Return (Some v), t ++ [EvFetch url body]).
Proof.
  intros Hf Hok Hp Hn. cbn [StoreEmail.attempts]. unfold bind.
  now rewrite (attempt_body_success _ _ _ _ _ _ _ _ Hf Hok Hp Hn).
Qed.

Lemma endpoints_first w url rest body t v t' :
  StoreEmail.attempts w url body 3 1 t = (Return (Some v), t') ->
  StoreEmail.endpoints w (url :: rest) body t = (Return v, t').
Proof.
  intros H. cbn [StoreEmail.endpoints]. unfold bind.
  change (Z.to_nat StoreEmail.maxAttempts) with 3%nat. now rewrite H.
Qed.


(** ** The answer source (C1, C2, C3) *)

Lemma getHfEmbedding_trace w question t v t' :
  AskQuestion.getHfEmbedding w question AskQuestion.default_embedding_model t
  = (Return v, t') ->
  t' = t ++ [embedding_request question].
Proof.
  unfold AskQuestion.getHfEmbedding. rewrite embedding_model_encoded.
  destruct (key_missing w); [discriminate|].
  unfold bind, do_fetch, embedding_request.
  destruct (fetch w (nfetch t) _ _) as [r|e]; [|discriminate].
  destruct (negb (ok r)); [discriminate|]. unfold lift.
  destruct (JSON_parse r) as [json|e]; [|discriminate].
  destruct (AskQuestion.normalize json); [|discriminate].
  intros E. now injection E as _ <-.
Qed.

(** Every request is answered: either the handler reaches a search result,
    or it answers 400 or 500 without having called an answer engine. *)
Lemma POST_searches_or_fails w request t :
  (exists question g rows search,
      searched w request t question g rows search)
  \/ (exists r t',
         AskQuestion.POST w request t = (Return r, t')
         /\ (reply_status r = 400 \/ reply_status r = 500)
         /\ (t' = t
             \/ (exists question, t' = t ++ [embedding_request question])
             \/ (exists question search,
                    t' = t ++ [embedding_request question; search]))).
Proof.
  unfold AskQuestion.POST, try_catch.
  destruct request as [bodyJson|why].
  2:{ right. do 2 eexists. split; [reflexivity|]. split; [now right|now left]. }
  unfold bind at 1. unfold lift at 1. cbn [AskQuestion.request_json].
  unfold bind at 1. unfold lift at 1.
  destruct (AskQuestion.call_trim w _) as [question|e] eqn:Hq.
  2:{ right. do 2 eexists. split; [reflexivity|]. split; [now right|now left]. }
  destruct question as [|c q].
  { right. do 2 eexists. split; [reflexivity|]. split; [now left|now left]. }
  cbn [AskQuestion.str_truthy negb]. unfold bind at 1.
  destruct (AskQuestion.getHfEmbedding w (c :: q) _ t) as [[emb|e] t0] eqn:He.
  2:{ right. do 2 eexists. split; [reflexivity|]. split; [now right|].
      unfold AskQuestion.getHfEmbedding in He.
      rewrite embedding_model_encoded in He.
      destruct (key_missing w); [injection He as _ <-; now left|].
      unfold bind, do_fetch in He. fold (embedding_request (c :: q)) in He.
      right. left. exists (c :: q).
      destruct (fetch w (nfetch t) _ _) as [r|e'];
        [|now injection He as _ <-].
      destruct (negb (ok r));
        [unfold throw in He; now injection He as _ <-|].
      unfold lift in He.
      destruct (JSON_parse r) as [json|e''];
        [|now injection He as _ <-].
      destruct (AskQuestion.normalize json); now injection He as _ <-. }
  pose proof (getHfEmbedding_trace _ _ _ _ _ He) as ->.
  unfold bind at 1. unfold do_rpc.
  destruct (error (rpc w AskQuestion.search_fn _)) as [msg|] eqn:Herr.
  { right. do 2 eexists. split; [reflexivity|]. split; [now right|].
    right. right. rewrite <- app_assoc. do 2 eexists. reflexivity. }
  left. exists (c :: q), (AskQuestion.generateIfNoContext_of bodyJson).
  do 2 eexists. exists bodyJson, emb.
  repeat split; try eassumption; try reflexivity. discriminate.
Qed.


Lemma nfetch_searched (t : trace) question search fn args :
  search = EvRpc fn args ->
  nfetch (t ++ [embedding_request question; search]) = S (nfetch t).
Proof. intros ->. rewrite nfetch_app. unfold nfetch. simpl. lia. Qed.

Lemma str_truthy_false (s : jsstring) :
  AskQuestion.str_truthy s = false <-> s = [].
Proof. destruct s; simpl; split; congruence. Qed.

Lemma str_truthy_true (s : jsstring) :
  AskQuestion.str_truthy s = true <-> s <> [].
Proof. destruct s; simpl; split; congruence. Qed.

(** C1, as amended.  After a search, the handler answers from one source.
    A usable extractive answer is returned with the tag "extractive-qa" and
    the extractive request is the last request of the run, so the generator
    is not called.  Without a usable answer and with context, the text of
    the first successful generation request is returned with the tag
    "generation".  When generation runs because the search gave no context,
    the successful response carries no source tag at all. *)
Theorem C1_one_answer_source w request t question g rows search :
  searched w request t question g rows search ->
  let context := AskQuestion.build_context rows in
  let t1 := t ++ [embedding_request question; search] in
  let extracted :=
    usable (qa_answer
              (fetch w (nfetch t1)
                 (AskQuestion.qa_url (lit "deepset%2Froberta-base-squad2"))
                 (AskQuestion.qa_payload question context))) in
  let sched :=
    schedule (AskQuestion.build_prompt question context)
      AskQuestion.genModels in
  (forall r,
      context <> [] -> extracted = Some r ->
      AskQuestion.POST w request t
      = (Return r, t1 ++ [qa_request question context])
      /\ reply_status r = 200
      /\ source_tag r = VStr (lit "extractive-qa"))
  /\ (forall text k,
         context <> [] -> extracted = None ->
         first_success w (nfetch (t1 ++ [qa_request question context])) sched
         = Some (text, k) ->
         AskQuestion.POST w request t
         = (Return (AskQuestion.generation_reply (trim text)),
            (t1 ++ [qa_request question context])
            ++ fetch_events (firstn k sched))
         /\ source_tag (AskQuestion.generation_reply (trim text))
            = VStr (lit "generation"))
  /\ (forall text k,
         context = [] -> g = true ->
         first_success w (nfetch t1) sched = Some (text, k) ->
         AskQuestion.POST w request t
         = (Return (AskQuestion.general_answer_reply (trim text)),
            t1 ++ fetch_events (firstn k sched))
         /\ source_tag (AskQuestion.general_answer_reply (trim text))
            = VUndefined).
Proof.
  intros S context t1 extracted sched.
  pose proof (POST_after_search _ _ _ _ _ _ _ S) as P. cbv zeta in P.
  pose proof (searched_key _ _ _ _ _ _ _ S) as Hk.
  fold context t1 in P. fold extracted in P.
  split; [|split].
  - intros r Hc Hx. apply str_truthy_true in Hc.
    split; [rewrite P, Hc; cbn [negb]; now rewrite Hx|].
    unfold extracted, usable in Hx.
    destruct (qa_answer _) as [qa|]; [|discriminate].
    destruct (blank _); [discriminate|].
    injection Hx as <-. split; reflexivity.
  - intros text k Hc Hx Hg. apply str_truthy_true in Hc.
    split; [|reflexivity].
    rewrite P, Hc. cbn [negb].
    rewrite Hx, (generation_stage_spec _ _ _ _ Hk). cbv zeta.
    fold context sched. now rewrite Hg, Hc.
  - intros text k Hc -> Hg. apply str_truthy_false in Hc.
    split; [|reflexivity].
    rewrite P, Hc. cbn [negb].
    rewrite (generation_stage_spec _ _ _ _ Hk). cbv zeta.
    fold context sched. now rewrite Hg, Hc.
Qed.

Lemma C1_witness :
  (let w := scripted [respond 200 sample_vector;
                      respond 200 (answered "No, INV-7 is due.")]
              (rows_found sample_rows) in
   let q := lit "Has Brandon paid?" in
   let r := AskQuestion.extractive_reply (lit "No, INV-7 is due.")
              (VNum (91 # 100)) in
   AskQuestion.POST w (ask "Has Brandon paid?" false) []
   = (Return r,
      ([] ++ [embedding_request q; sample_search])
      ++ [qa_request q (AskQuestion.build_context (Some sample_rows))])
   /\ reply_status r = 200
   /\ source_tag r = VStr (lit "extractive-qa"))
  /\ (let w := scripted [respond 200 sample_vector; respond 500 VNull;
                         respond 500 VNull; respond 200 (generated "Not yet.")]
                 (rows_found sample_rows) in
      let q := lit "Has Brandon paid?" in
      let context := AskQuestion.build_context (Some sample_rows) in
      AskQuestion.POST w (ask "Has Brandon paid?" false) []
      = (Return (AskQuestion.generation_reply (trim (lit "Not yet."))),
         (([] ++ [embedding_request q; sample_search])
          ++ [qa_request q context])
         ++ fetch_events
              (firstn 2 (schedule (AskQuestion.build_prompt q context)
                           AskQuestion.genModels)))
      /\ source_tag (AskQuestion.generation_reply (trim (lit "Not yet.")))
         = VStr (lit "generation"))
  /\ (let w := scripted [respond 200 sample_vector;
                         respond 200 (generated "General answer.")]
                 (rows_found []) in
      let q := lit "Has Brandon paid?" in
      AskQuestion.POST w (ask "Has Brandon paid?" true) []
      = (Return (AskQuestion.general_answer_reply
                   (trim (lit "General answer."))),
         ([] ++ [embedding_request q; sample_search])
         ++ fetch_events
              (firstn 1 (schedule
                           (AskQuestion.build_prompt q
                              (AskQuestion.build_context (Some [])))
                           AskQuestion.genModels)))
      /\ source_tag (AskQuestion.general_answer_reply
                       (trim (lit "General answer.")))
         = VUndefined).
Proof.
  cbv zeta. split; [|split].
  - refine (proj1
              (C1_one_answer_source
                 (scripted [respond 200 sample_vector;
                            respond 200 (answered "No, INV-7 is due.")]
                    (rows_found sample_rows))
                 (ask "Has Brandon paid?" false) [] (lit "Has Brandon paid?")
                 false (Some sample_rows) sample_search _) _ _ _).
    + search_ran "Has Brandon paid?"%string false.
    + by_running.
    + by_running.
  - refine (proj1 (proj2
              (C1_one_answer_source
                 (scripted [respond 200 sample_vector; respond 500 VNull;
                            respond 500 VNull;
                            respond 200 (generated "Not yet.")]
                    (rows_found sample_rows))
                 (ask "Has Brandon paid?" false) [] (lit "Has Brandon paid?")
                 false (Some sample_rows) sample_search _))
              (lit "Not yet.") 2%nat _ _ _).
    + search_ran "Has Brandon paid?"%string false.
    + by_running.
    + by_running.
    + by_running.
  - refine (proj2 (proj2
              (C1_one_answer_source
                 (scripted [respond 200 sample_vector;
                            respond 200 (generated "General answer.")]
                    (rows_found []))
                 (ask "Has Brandon paid?" true) [] (lit "Has Brandon paid?")
                 true (Some []) sample_search _))
              (lit "General answer.") 1%nat _ _ _).
    + search_ran "Has Brandon paid?"%string true.
    + by_running.
    + by_running.
    + by_running.
Defined.

(** C1 as stated fails where it insists on the no-context branch: the
    search finds nothing, the caller asked for generation, the first model
    answers, and the 200 response has no [source] field. *)
Lemma C1_counterexample :
  let w := scripted [respond 200 sample_vector;
                     respond 200 (generated "General answer.")]
             (rows_found []) in
  let r := AskQuestion.general_answer_reply (lit "General answer.") in
  AskQuestion.POST w (ask "What is due?" true) []
  = (Return r,
     [embedding_request (lit "What is due?"); sample_search;
      EvFetch (AskQuestion.text_generation_url (lit "distilgpt2"))
        (AskQuestion.payload
           (AskQuestion.build_prompt (lit "What is due?") []))])
  /\ reply_status r = 200
  /\ source_tag r <> VStr (lit "generation").
Proof.
  cbv zeta. split; [vm_compute; reflexivity|].
  split; [reflexivity|]. vm_compute. discriminate.
Qed.

(** C2.  When the extractive engine gives an answer that is empty or all
    white space, the handler goes on exactly as when the engine gives no
    answer: it runs the generation stage after the extractive request, and
    what it returns is not an extractive response. *)
Theorem C2_blank_answer_is_no_answer w request t question g rows search :
  searched w request t question g rows search ->
  let context := AskQuestion.build_context rows in
  let t1 := t ++ [embedding_request question; search] in
  context <> [] ->
  match qa_answer
          (fetch w (nfetch t1)
             (AskQuestion.qa_url (lit "deepset%2Froberta-base-squad2"))
             (AskQuestion.qa_payload question context)) with
  | Some qa => blank (AskQuestion.answer qa) = true
  | None => True
  end ->
  AskQuestion.POST w request t
  = AskQuestion.generation_stage w question context
      (t1 ++ [qa_request question context])
  /\ (forall r t',
         AskQuestion.POST w request t = (Return r, t') ->
         source_tag r <> VStr (lit "extractive-qa")).
Proof.
  intros S context t1 Hc Hqa.
  pose proof (POST_after_search _ _ _ _ _ _ _ S) as P. cbv zeta in P.
  pose proof (searched_key _ _ _ _ _ _ _ S) as Hk.
  fold context t1 in P. apply str_truthy_true in Hc.
  rewrite Hc in P. cbn [negb] in P.
  assert (U : usable (qa_answer
                        (fetch w (nfetch t1)
                           (AskQuestion.qa_url (lit "deepset%2Froberta-base-squad2"))
                           (AskQuestion.qa_payload question context))) = None).
  { destruct (qa_answer _) as [qa|]; [|reflexivity].
    cbn [usable]. now rewrite Hqa. }
  rewrite U in P. split; [exact P|].
  intros r t'. rewrite P, (generation_stage_spec _ _ _ _ Hk). cbv zeta.
  fold context. rewrite Hc.
  destruct (first_success _ _ _) as [[text k]|]; intros E;
    injection E as <- _; vm_compute; discriminate.
Qed.

Lemma C2_witness :
  let w := scripted [respond 200 sample_vector;
                     respond 200 (VObj [(lit "answer", VStr [32; 9; 160; 10]%N)]);
                     respond 200 (generated "Not yet.")]
             (rows_found sample_rows) in
  let q := lit "Has Brandon paid?" in
  AskQuestion.POST w (ask "Has Brandon paid?" false) []
  = AskQuestion.generation_stage w q (AskQuestion.build_context (Some sample_rows))
      (([] ++ [embedding_request q; sample_search])
       ++ [qa_request q (AskQuestion.build_context (Some sample_rows))])
  /\ (forall r t',
         AskQuestion.POST w (ask "Has Brandon paid?" false) [] = (Return r, t') ->
         source_tag r <> VStr (lit "extractive-qa")).
Proof.
  cbv zeta.
  refine (C2_blank_answer_is_no_answer
            (scripted [respond 200 sample_vector;
                       respond 200 (VObj [(lit "answer", VStr [32; 9; 160; 10]%N)]);
                       respond 200 (generated "Not yet.")]
               (rows_found sample_rows))
            (ask "Has Brandon paid?" false) [] (lit "Has Brandon paid?")
            false (Some sample_rows) sample_search _ _ _).
  - search_ran "Has Brandon paid?"%string false.
  - by_running.
  - vm_compute. reflexivity.
Defined.

(** C3.  With [generateIfNoContext] false and an empty context the handler
    answers 200 with [answer: null], [contextFound: false] and the
    informational message, and the run consists of the embedding request
    and the search only: neither QA engine is called. *)
Theorem C3_no_context_no_engine w request t question rows search :
  searched w request t question false rows search ->
  AskQuestion.build_context rows = [] ->
  AskQuestion.POST w request t
  = (Return AskQuestion.no_context_reply,
     t ++ [embedding_request question; search])
  /\ reply_status AskQuestion.no_context_reply = 200
  /\ field "answer" AskQuestion.no_context_reply = VNull
  /\ field "contextFound" AskQuestion.no_context_reply = VBool false
  /\ field "info" AskQuestion.no_context_reply
     = VStr (lit "No relevant email content was found for that query.").
Proof.
  intros S Hc.
  pose proof (POST_after_search _ _ _ _ _ _ _ S) as P. cbv zeta in P.
  rewrite Hc in P. cbn [AskQuestion.str_truthy negb] in P.
  split; [exact P|]. repeat split; vm_compute; reflexivity.
Qed.

Lemma C3_witness :
  let w := scripted [respond 200 sample_vector] (rows_found []) in
  AskQuestion.POST w (ask "Has Brandon paid?" false) []
  = (Return AskQuestion.no_context_reply,
     [] ++ [embedding_request (lit "Has Brandon paid?"); sample_search])
  /\ reply_status AskQuestion.no_context_reply = 200
  /\ field "answer" AskQuestion.no_context_reply = VNull
  /\ field "contextFound" AskQuestion.no_context_reply = VBool false
  /\ field "info" AskQuestion.no_context_reply
     = VStr (lit "No relevant email content was found for that query.").
Proof.
  cbv zeta.
  refine (C3_no_context_no_engine
            (scripted [respond 200 sample_vector] (rows_found []))
            (ask "Has Brandon paid?" false) [] (lit "Has Brandon paid?")
            (Some []) sample_search _ _).
  - search_ran "Has Brandon paid?"%string false.
  - by_running.
Defined.

(** ** The context (C8, C9) *)

Lemma build_context_assemble rows :
  AskQuestion.build_context (Some rows) = assemble (map section_content rows).
Proof. reflexivity. Qed.

Lemma assemble_cons_kept c s contents :
  assemble (Some (c :: s) :: contents)
  = match assemble contents with
    | [] => c :: s
    | _ :: _ => (c :: s) ++ [10; 10]%N ++ assemble contents
    end.
Proof.
  unfold assemble. cbn [filter AskQuestion.Boolean map AskQuestion.element_text].
  destruct (filter AskQuestion.Boolean contents) as [|x rest] eqn:F;
    [reflexivity|].
  assert (Hx : AskQuestion.Boolean x = true).
  { assert (I : In x (filter AskQuestion.Boolean contents))
      by (rewrite F; now left).
    now apply filter_In in I. }
  destruct x as [[|c' s']|]; try discriminate Hx.
  cbn [map AskQuestion.element_text join].
  destruct (map AskQuestion.element_text rest); reflexivity.
Qed.

Lemma assemble_cons_dropped x contents :
  AskQuestion.Boolean x = false -> assemble (x :: contents) = assemble contents.
Proof. intros H. unfold assemble. cbn [filter]. now rewrite H. Qed.

Lemma assemble_without_content rows :
  Forall without_content rows -> assemble (map section_content rows) = [].
Proof.
  induction 1 as [|r rows Hr _ IH]; [reflexivity|].
  cbn [map]. rewrite assemble_cons_dropped; [exact IH|].
  destruct Hr as [-> | ->]; reflexivity.
Qed.

Lemma reorder_map {A B} (f : A -> B) order (l : list A) d :
  map f (reorder order l d) = reorder order (map f l) (f d).
Proof.
  unfold reorder. rewrite map_map. apply map_ext. intros i.
  symmetry. apply map_nth.
Qed.

(** C8.  The context is assembled from the contents of the rows in the
    order the search returned them, with a blank line between two pieces:
    the first row with content comes first, what follows is the context of
    the remaining rows.  It depends on the rows through the sequence of
    their contents only, so taking the rows in another order takes the
    pieces of the context in that same order, whatever the scores and
    section numbers are.  This string is what the extractive request and
    the generation prompt carry. *)
Theorem C8_context_keeps_search_order :
  (forall rows,
      AskQuestion.build_context (Some rows)
      = assemble (map section_content rows))
  /\ (forall row rest c s,
         section_content row = Some (c :: s) ->
         AskQuestion.build_context (Some (row :: rest))
         = match AskQuestion.build_context (Some rest) with
           | [] => c :: s
           | _ :: _ =>
               (c :: s) ++ [10; 10]%N ++ AskQuestion.build_context (Some rest)
           end)
  /\ (forall order rows d,
         AskQuestion.build_context (Some (reorder order rows d))
         = assemble (reorder order (map section_content rows)
                       (section_content d)))
  /\ (forall rows rows',
         Permutation rows rows' ->
         Permutation (AskQuestion.contextArr (Some rows))
           (AskQuestion.contextArr (Some rows')))
  /\ (forall w request t question g rows search,
         searched w request t question g rows search ->
         let context := AskQuestion.build_context rows in
         context <> [] ->
         exists r k,
           AskQuestion.POST w request t
           = (Return r,
              t ++ [embedding_request question; search]
                ++ [EvFetch
                      (AskQuestion.qa_url (lit "deepset%2Froberta-base-squad2"))
                      (VObj [(lit "inputs",
                              VObj [(lit "question", VStr question);
                                    (lit "context", VStr context)])])]
                ++ fetch_events
                     (firstn k
                        (schedule (AskQuestion.build_prompt question context)
                           AskQuestion.genModels))))
  /\ (forall question context,
         context <> [] ->
         AskQuestion.build_prompt question context
         = AskQuestion.systemPrefix ++ [10; 10]%N ++ lit "Context:" ++ [10]%N
           ++ context ++ [10; 10]%N ++ lit "Question:" ++ [10]%N ++ question
           ++ [10; 10]%N ++ lit "Answer:").
Proof.
  split; [exact build_context_assemble|].
  split.
  { intros row rest c s Hrow.
    rewrite !build_context_assemble. cbn [map]. rewrite Hrow.
    apply assemble_cons_kept. }
  split.
  { intros order rows d. rewrite build_context_assemble. f_equal.
    apply reorder_map. }
  split.
  { intros rows rows' HP. unfold AskQuestion.contextArr.
    induction HP as [|x l l' _ IH|x y l|l l' l'' _ IH1 _ IH2].
    - constructor.
    - cbn [map filter].
      destruct (AskQuestion.Boolean (section_content x)); [now constructor|exact IH].
    - cbn [map filter].
      destruct (AskQuestion.Boolean (section_content x)),
               (AskQuestion.Boolean (section_content y));
        try apply Permutation_refl. apply perm_swap.
    - eapply Permutation_trans; eassumption. }
  split.
  { intros w request t question g rows search S context Hc.
    pose proof (POST_after_search _ _ _ _ _ _ _ S) as P. cbv zeta in P.
    pose proof (searched_key _ _ _ _ _ _ _ S) as Hk.
    fold context in P. apply str_truthy_true in Hc.
    rewrite Hc in P. cbn [negb] in P. rewrite P.
    change (EvFetch (AskQuestion.qa_url (lit "deepset%2Froberta-base-squad2"))
              (VObj [(lit "inputs",
                      VObj [(lit "question", VStr question);
                            (lit "context", VStr context)])]))
      with (qa_request question context).
    destruct (usable _) as [r|].
    - exists r, 0%nat. cbn [firstn fetch_events map].
      now rewrite app_nil_r, <- app_assoc.
    - rewrite (generation_stage_spec _ _ _ _ Hk). cbv zeta.
      fold context.
      destruct (first_success _ _ _) as [[text k]|].
      + eexists _, k. now rewrite <- !(app_assoc t).
      + eexists _, (List.length
                      (schedule (AskQuestion.build_prompt question context)
                         AskQuestion.genModels)).
        rewrite firstn_all. now rewrite <- !(app_assoc t). }
  intros question context Hc. unfold AskQuestion.build_prompt.
  apply str_truthy_true in Hc. now rewrite Hc.
Qed.

(** C9.  A row whose content is empty or missing leaves no trace in the
    context.  When no row has content the context is empty, and the handler
    does what it does for a search that finds no row: it sends no extractive
    request, and every 200 response says [contextFound: false]. *)
Theorem C9_rows_without_content :
  (forall before row after,
      without_content row ->
      AskQuestion.build_context (Some (before ++ row :: after))
      = AskQuestion.build_context (Some (before ++ after)))
  /\ (forall rows,
         Forall without_content rows ->
         AskQuestion.build_context (Some rows) = [])
  /\ (forall w request t question g rows search,
         searched w request t question g (Some rows) search ->
         Forall without_content rows ->
         let t1 := t ++ [embedding_request question; search] in
         AskQuestion.POST w request t
         = (if g then AskQuestion.generation_stage w question [] t1
            else (Return AskQuestion.no_context_reply, t1))
         /\ AskQuestion.POST w request t
            = AskQuestion.POST (nothing_found w) request t
         /\ (forall r t',
                AskQuestion.POST w request t = (Return r, t') ->
                reply_status r = 200 ->
                field "contextFound" r = VBool false)).
Proof.
  split.
  { intros before row after Hrow. rewrite !build_context_assemble.
    unfold assemble. rewrite !map_app, !filter_app. cbn [map filter].
    destruct Hrow as [-> | ->]; reflexivity. }
  split.
  { intros rows HF. rewrite build_context_assemble.
    now apply assemble_without_content. }
  intros w request t question g rows search S HF t1.
  pose proof (POST_after_search _ _ _ _ _ _ _ S) as P. cbv zeta in P.
  pose proof (searched_key _ _ _ _ _ _ _ S) as Hk.
  rewrite build_context_assemble, (assemble_without_content _ HF) in P.
  cbn [AskQuestion.str_truthy negb] in P. fold t1 in P.
  split; [exact P|]. split.
  - assert (S0 : searched (nothing_found w) request t question g (Some [])
                   search).
    { destruct S as (bodyJson & emb & Hr & Hq & Hne & Hg & He & Hs & Herr & _).
      exists bodyJson, emb. repeat split; assumption || reflexivity. }
    rewrite P, (POST_after_search _ _ _ _ _ _ _ S0). cbv zeta.
    cbn [AskQuestion.build_context AskQuestion.contextArr map filter join
         AskQuestion.str_truthy negb].
    reflexivity.
  - intros r t'. rewrite P. destruct g.
    + rewrite (generation_stage_spec _ _ _ _ Hk). cbv zeta.
      cbn [AskQuestion.str_truthy].
      destruct (first_success _ _ _) as [[text k]|]; intros E;
        injection E as <- _; intros E; [reflexivity|discriminate E].
    + intros E. injection E as <- _. reflexivity.
Qed.

Lemma C8_witness :
  AskQuestion.build_context (Some sample_rows)
  = lit "Payment is pending." ++ [10; 10]%N ++ lit "Invoice INV-7 is due."
  /\ AskQuestion.build_context (Some (reorder [1; 0]%nat sample_rows
                                        (mkSection 0 None 0 0)))
     = lit "Invoice INV-7 is due." ++ [10; 10]%N ++ lit "Payment is pending."
  /\ exists r k,
       AskQuestion.POST
         (scripted [respond 200 sample_vector;
                    respond 200 (answered "No, INV-7 is due.")]
            (rows_found sample_rows))
         (ask "Has Brandon paid?" false) []
       = (Return r,
          [] ++ [embedding_request (lit "Has Brandon paid?"); sample_search]
             ++ [EvFetch
                   (AskQuestion.qa_url (lit "deepset%2Froberta-base-squad2"))
                   (VObj [(lit "inputs",
                           VObj [(lit "question", VStr (lit "Has Brandon paid?"));
                                 (lit "context",
                                  VStr (AskQuestion.build_context
                                          (Some sample_rows)))])])]
             ++ fetch_events
                  (firstn k
                     (schedule
                        (AskQuestion.build_prompt (lit "Has Brandon paid?")
                           (AskQuestion.build_context (Some sample_rows)))
                        AskQuestion.genModels))).
Proof.
  destruct C8_context_keeps_search_order as (_ & Hcons & Hre & _ & Hpost & _).
  split; [|split].
  - unfold sample_rows.
    rewrite (Hcons _ _ 80%N (tl (lit "Payment is pending."))) by reflexivity.
    vm_compute. reflexivity.
  - rewrite Hre. vm_compute. reflexivity.
  - refine (Hpost _ _ [] (lit "Has Brandon paid?") false (Some sample_rows)
              sample_search _ _).
    + search_ran "Has Brandon paid?"%string false.
    + by_running.
Defined.

Lemma C9_witness :
  let w := scripted [respond 200 sample_vector] (rows_found empty_rows) in
  AskQuestion.build_context (Some empty_rows) = []
  /\ AskQuestion.POST w (ask "Has Brandon paid?" false) []
     = (Return AskQuestion.no_context_reply,
        [] ++ [embedding_request (lit "Has Brandon paid?"); sample_search])
  /\ AskQuestion.POST w (ask "Has Brandon paid?" false) []
     = AskQuestion.POST (nothing_found w) (ask "Has Brandon paid?" false) [].
Proof.
  cbv zeta.
  destruct C9_rows_without_content as (_ & Hnil & Hpost).
  assert (E : Forall without_content empty_rows).
  { apply Forall_cons; [left; reflexivity|].
    apply Forall_cons; [right; reflexivity|]. apply Forall_nil. }
  split; [exact (Hnil empty_rows E)|].
  assert (S : searched (scripted [respond 200 sample_vector]
                          (rows_found empty_rows))
                (ask "Has Brandon paid?" false) [] (lit "Has Brandon paid?")
                false (Some empty_rows) sample_search)
    by search_ran "Has Brandon paid?"%string false.
  destruct (Hpost _ _ _ _ _ _ _ S E) as (H1 & H2 & _).
  split; [exact H1|exact H2].
Defined.

(** ** Generation (C4, C10) *)

Lemma first_success_some w reqs : forall n text k,
  first_success w n reqs = Some (text, k) ->
  (1 <= k <= List.length reqs)%nat
  /\ (exists url body,
         nth_error reqs (k - 1) = Some (url, body)
         /\ gen_text w (fetch w (n + (k - 1)) url body) = Some text)
  /\ (forall i url body,
         (i < k - 1)%nat -> nth_error reqs i = Some (url, body) ->
         gen_text w (fetch w (n + i) url body) = None).
Proof.
  induction reqs as [|[url body] rest IH]; intros n text k H; [discriminate|].
  cbn [first_success] in H.
  destruct (gen_text w (fetch w n url body)) as [t0|] eqn:G.
  - injection H as <- <-. cbn [List.length]. split; [lia|]. split.
    + exists url, body. cbn. now rewrite Nat.add_0_r.
    + intros i ? ? Hi. cbn in Hi. lia.
  - destruct (first_success w (S n) rest) as [[t0 k0]|] eqn:F; [|discriminate].
    injection H as <- <-.
    destruct (IH _ _ _ F) as (Hk & (u & b & Hn & Hg) & Hbefore).
    cbn [List.length]. split; [lia|]. split.
    + exists u, b. replace (S k0 - 1)%nat with (S (k0 - 1)) by lia.
      cbn [nth_error]. split; [exact Hn|].
      now replace (n + S (k0 - 1))%nat with (S n + (k0 - 1))%nat by lia.
    + intros i u' b' Hi Hnth. destruct i as [|i].
      * cbn in Hnth. injection Hnth as <- <-. now rewrite Nat.add_0_r.
      * cbn [nth_error] in Hnth.
        replace (n + S i)%nat with (S n + i)%nat by lia.
        apply (Hbefore i); [lia|exact Hnth].
Qed.

Lemma first_success_none w reqs : forall n,
  first_success w n reqs = None ->
  forall i url body,
    nth_error reqs i = Some (url, body) ->
    gen_text w (fetch w (n + i) url body) = None.
Proof.
  induction reqs as [|[url body] rest IH]; intros n H i u b Hnth.
  - destruct i; discriminate.
  - cbn [first_success] in H.
    destruct (gen_text w (fetch w n url body)) as [t0|] eqn:G; [discriminate|].
    destruct (first_success w (S n) rest) as [[t0 k0]|] eqn:F; [discriminate|].
    destruct i as [|i].
    + cbn in Hnth. injection Hnth as <- <-. now rewrite Nat.add_0_r.
    + cbn [nth_error] in Hnth.
      replace (n + S i)%nat with (S n + i)%nat by lia.
      now apply (IH _ F).
Qed.

Lemma first_success_all_fail w reqs : forall n,
  (forall i url body,
      nth_error reqs i = Some (url, body) ->
      gen_text w (fetch w (n + i) url body) = None) ->
  first_success w n reqs = None.
Proof.
  induction reqs as [|[url body] rest IH]; intros n H; [reflexivity|].
  cbn [first_success].
  rewrite <- (Nat.add_0_r n) at 1. rewrite (H 0%nat url body eq_refl).
  rewrite IH; [reflexivity|].
  intros i u b Hnth. replace (S n + i)%nat with (n + S i)%nat by lia.
  now apply H.
Qed.

(** C4.  The generator sends the requests of its schedule: for each model
    of the caller's list, in the caller's order, mode A and then mode B.
    It stops at the first request that succeeds and returns its text; when
    no request succeeds it has sent them all and throws the
    all-models-failed error, which the handler turns into a 502 response. *)
Theorem C4_generation_fallback :
  (forall prompt model rest enc,
      encodeURIComponent model = Some enc ->
      schedule prompt (model :: rest)
      = (AskQuestion.text_generation_url enc, AskQuestion.payload prompt)
        :: (AskQuestion.text2text_generation_url enc,
            AskQuestion.payload2 prompt)
        :: schedule prompt rest)
  /\ (forall w prompt models t,
         key_missing w = false ->
         AskQuestion.tryGenerateWithFallbacks w prompt models t
         = match first_success w (nfetch t) (schedule prompt models) with
           | Some (text, k) =>
               (Return text,
                t ++ fetch_events (firstn k (schedule prompt models)))
           | None =>
               (Throw (Error (lit "All generation models failed or were unavailable")),
                t ++ fetch_events (schedule prompt models))
           end)
  /\ (forall w n reqs text k,
         first_success w n reqs = Some (text, k) ->
         (1 <= k <= List.length reqs)%nat
         /\ (exists url body,
                nth_error reqs (k - 1) = Some (url, body)
                /\ gen_text w (fetch w (n + (k - 1)) url body) = Some text)
         /\ (forall i url body,
                (i < k - 1)%nat -> nth_error reqs i = Some (url, body) ->
                gen_text w (fetch w (n + i) url body) = None))
  /\ (forall w n reqs,
         first_success w n reqs = None <->
         (forall i url body,
             nth_error reqs i = Some (url, body) ->
             gen_text w (fetch w (n + i) url body) = None))
  /\ (forall w request t question g rows search,
         searched w request t question g rows search ->
         let context := AskQuestion.build_context rows in
         let t1 := t ++ [embedding_request question; search] in
         let t2 := if AskQuestion.str_truthy context
                   then t1 ++ [qa_request question context] else t1 in
         let sched :=
           schedule (AskQuestion.build_prompt question context)
             AskQuestion.genModels in
         (context = [] -> g = true) ->
         (context <> [] ->
          usable (qa_answer
                    (fetch w (nfetch t1)
                       (AskQuestion.qa_url (lit "deepset%2Froberta-base-squad2"))
                       (AskQuestion.qa_payload question context))) = None) ->
         first_success w (nfetch t2) sched = None ->
         AskQuestion.POST w request t
         = (Return (mkReply 502
                      (VObj [(lit "error",
                              VStr (lit "Failed to generate answer: no available HF generation model."))])),
            t2 ++ fetch_events sched)).
Proof.
  split.
  { intros prompt model rest enc He. unfold schedule. cbn [flat_map].
    unfold requests_of at 1. now rewrite He. }
  split.
  { intros w prompt models t Hk. unfold AskQuestion.tryGenerateWithFallbacks.
    rewrite Hk. apply generate_loop_schedule. }
  split; [intros w n reqs; apply first_success_some|].
  split.
  { intros w n reqs. split;
      [apply first_success_none|apply first_success_all_fail]. }
  intros w request t question g rows search S context t1 t2 sched Hg Hx Hf.
  pose proof (POST_after_search _ _ _ _ _ _ _ S) as P. cbv zeta in P.
  pose proof (searched_key _ _ _ _ _ _ _ S) as Hk.
  fold context t1 in P. rewrite P. unfold t2 in *.
  destruct (AskQuestion.str_truthy context) eqn:C; cbn [negb].
  - apply str_truthy_true in C. rewrite (Hx C).
    rewrite (generation_stage_spec _ _ _ _ Hk). cbv zeta.
    fold sched. now rewrite Hf.
  - apply str_truthy_false in C. rewrite (Hg C).
    rewrite (generation_stage_spec _ _ _ _ Hk). cbv zeta.
    fold sched. now rewrite Hf.
Qed.

Lemma C4_witness :
  (let w := scripted [respond 200 sample_vector; respond 500 VNull;
                      respond 500 VNull; respond 503 VNull;
                      respond 404 VNull; respond 500 VNull;
                      respond 429 VNull; respond 500 VNull]
              (rows_found sample_rows) in
   let q := lit "Has Brandon paid?" in
   let context := AskQuestion.build_context (Some sample_rows) in
   AskQuestion.POST w (ask "Has Brandon paid?" false) []
   = (Return (mkReply 502
                (VObj [(lit "error",
                        VStr (lit "Failed to generate answer: no available HF generation model."))])),
      (if AskQuestion.str_truthy context
       then ([] ++ [embedding_request q; sample_search])
            ++ [qa_request q context]
       else [] ++ [embedding_request q; sample_search])
      ++ fetch_events (schedule (AskQuestion.build_prompt q context)
                         AskQuestion.genModels)))
  /\ (let w := scripted [respond 500 VNull; respond 200 (generated "Not yet.")]
                 (rows_found []) in
      let models := [lit "distilgpt2"; lit "gpt2-medium"] in
      schedule (lit "prompt") models
      = [(AskQuestion.text_generation_url (lit "distilgpt2"),
          AskQuestion.payload (lit "prompt"));
         (AskQuestion.text2text_generation_url (lit "distilgpt2"),
          AskQuestion.payload2 (lit "prompt"));
         (AskQuestion.text_generation_url (lit "gpt2-medium"),
          AskQuestion.payload (lit "prompt"));
         (AskQuestion.text2text_generation_url (lit "gpt2-medium"),
          AskQuestion.payload2 (lit "prompt"))]
      /\ AskQuestion.tryGenerateWithFallbacks w (lit "prompt") models []
         = (Return (lit "Not yet."),
            [EvFetch (AskQuestion.text_generation_url (lit "distilgpt2"))
               (AskQuestion.payload (lit "prompt"));
             EvFetch (AskQuestion.text2text_generation_url (lit "distilgpt2"))
               (AskQuestion.payload2 (lit "prompt"))])).
Proof.
  cbv zeta.
  destruct C4_generation_fallback as (Hsched & Hloop & _ & _ & Hpost).
  split; [|split].
  - refine (Hpost _ _ [] (lit "Has Brandon paid?") false (Some sample_rows)
              sample_search _ _ _ _).
    + search_ran "Has Brandon paid?"%string false.
    + by_running.
    + intros _. by_running.
    + by_running.
  - rewrite (Hsched _ (lit "distilgpt2") _ (lit "distilgpt2")) by by_running.
    rewrite (Hsched _ (lit "gpt2-medium") _ (lit "gpt2-medium")) by by_running.
    reflexivity.
  - rewrite Hloop by by_running. by_running.
Defined.

Lemma gen_text_first_empty w resp first more :
  ok resp = true ->
  parsed resp = Parsed (VArr (first :: more)) ->
  prop first (lit "generated_text") = Return (VStr []) ->
  gen_text w (Responded resp) = Some [].
Proof.
  intros Hok Hp Hg. unfold gen_text, JSON_parse. rewrite Hok, Hp.
  unfold AskQuestion.extract_text.
  cbn [isArray length_of opt_prop prop andb at0 elem0].
  change (jsstring_eqb (lit "length") (lit "length")) with true. cbv iota.
  cbn [truthy num_of_nat List.length].
  now rewrite Hg.
Qed.

Lemma gen_text_bare_empty w resp fields :
  ok resp = true ->
  parsed resp = Parsed (VObj fields) ->
  lookup (lit "generated_text") fields = VStr [] ->
  gen_text w (Responded resp)
  = Some (slice0 4000 (JSON_stringify w (VObj fields))).
Proof.
  intros Hok Hp Hg. unfold gen_text, JSON_parse. rewrite Hok, Hp.
  unfold AskQuestion.extract_text.
  cbn [isArray andb prop obind]. now rewrite Hg.
Qed.

Lemma distilgpt2_first prompt :
  schedule prompt AskQuestion.genModels
  = (AskQuestion.text_generation_url (lit "distilgpt2"),
     AskQuestion.payload prompt)
    :: (AskQuestion.text2text_generation_url (lit "distilgpt2"),
        AskQuestion.payload2 prompt)
    :: schedule prompt [lit "gpt2-medium"; lit "facebook/opt-350m"].
Proof. reflexivity. Qed.

(** C10, as amended.  When a model's mode A call is answered 2xx with a
    JSON array whose first element has the empty string as
    [generated_text], the generator returns the empty string at once: that
    request is the last one sent.  The handler then answers 200 with the
    empty answer, tagged "generation" when context was found and untagged,
    with [contextFound: false], when it was not.  A bare object whose
    [generated_text] is the empty string is not read as an empty answer:
    the generator returns the first 4000 characters of the serialized body
    instead. *)
Theorem C10_empty_generated_text :
  (forall w prompt model rest enc t resp first more,
      key_missing w = false ->
      encodeURIComponent model = Some enc ->
      fetch w (nfetch t) (AskQuestion.text_generation_url enc)
        (AskQuestion.payload prompt) = Responded resp ->
      ok resp = true ->
      parsed resp = Parsed (VArr (first :: more)) ->
      prop first (lit "generated_text") = Return (VStr []) ->
      AskQuestion.tryGenerateWithFallbacks w prompt (model :: rest) t
      = (Return [],
         t ++ [EvFetch (AskQuestion.text_generation_url enc)
                 (AskQuestion.payload prompt)]))
  /\ (forall w request t question g rows search resp first more,
         searched w request t question g rows search ->
         let context := AskQuestion.build_context rows in
         let t1 := t ++ [embedding_request question; search] in
         let t2 := if AskQuestion.str_truthy context
                   then t1 ++ [qa_request question context] else t1 in
         let request_A :=
           (AskQuestion.text_generation_url (lit "distilgpt2"),
            AskQuestion.payload (AskQuestion.build_prompt question context)) in
         (context = [] -> g = true) ->
         (context <> [] ->
          usable (qa_answer
                    (fetch w (nfetch t1)
                       (AskQuestion.qa_url (lit "deepset%2Froberta-base-squad2"))
                       (AskQuestion.qa_payload question context))) = None) ->
         fetch w (nfetch t2) (fst request_A) (snd request_A) = Responded resp ->
         ok resp = true ->
         parsed resp = Parsed (VArr (first :: more)) ->
         prop first (lit "generated_text") = Return (VStr []) ->
         exists r,
           AskQuestion.POST w request t
           = (Return r, t2 ++ [EvFetch (fst request_A) (snd request_A)])
           /\ reply_status r = 200
           /\ field "answer" r = VStr []
           /\ source_tag r
              = (if AskQuestion.str_truthy context
                 then VStr (lit "generation") else VUndefined)
           /\ field "contextFound" r
              = VBool (AskQuestion.str_truthy context))
  /\ (forall w prompt model rest enc t resp fields,
         key_missing w = false ->
         encodeURIComponent model = Some enc ->
         fetch w (nfetch t) (AskQuestion.text_generation_url enc)
           (AskQuestion.payload prompt) = Responded resp ->
         ok resp = true ->
         parsed resp = Parsed (VObj fields) ->
         lookup (lit "generated_text") fields = VStr [] ->
         AskQuestion.tryGenerateWithFallbacks w prompt (model :: rest) t
         = (Return (slice0 4000 (JSON_stringify w (VObj fields))),
            t ++ [EvFetch (AskQuestion.text_generation_url enc)
                    (AskQuestion.payload prompt)])).
Proof.
  split; [|split].
  - intros w prompt model rest enc t resp first more Hk He Hf Hok Hp Hg.
    unfold AskQuestion.tryGenerateWithFallbacks. rewrite Hk.
    rewrite generate_loop_schedule.
    assert (R : schedule prompt (model :: rest)
                = (AskQuestion.text_generation_url enc,
                   AskQuestion.payload prompt)
                  :: (AskQuestion.text2text_generation_url enc,
                      AskQuestion.payload2 prompt)
                  :: schedule prompt rest).
    { unfold schedule. cbn [flat_map]. unfold requests_of at 1.
      now rewrite He. }
    rewrite R. cbn [first_success].
    now rewrite Hf, (gen_text_first_empty _ _ _ _ Hok Hp Hg).
  - intros w request t question g rows search resp first more S
      context t1 t2 request_A Hg Hx Hf Hok Hp Hgt.
    pose proof (POST_after_search _ _ _ _ _ _ _ S) as P. cbv zeta in P.
    pose proof (searched_key _ _ _ _ _ _ _ S) as Hk.
    fold context t1 in P.
    assert (G : AskQuestion.generation_stage w question context t2
                = (Return (if AskQuestion.str_truthy context
                           then AskQuestion.generation_reply []
                           else AskQuestion.general_answer_reply []),
                   t2 ++ [EvFetch (fst request_A) (snd request_A)])).
    { rewrite (generation_stage_spec _ _ _ _ Hk). cbv zeta.
      rewrite distilgpt2_first. cbn [first_success].
      unfold request_A in Hf. cbn [fst snd] in Hf.
      now rewrite Hf, (gen_text_first_empty _ _ _ _ Hok Hp Hgt). }
    unfold t2 in G |- *.
    destruct (AskQuestion.str_truthy context) eqn:C; cbn [negb] in P.
    + apply str_truthy_true in C. rewrite (Hx C) in P.
      exists (AskQuestion.generation_reply []).
      rewrite P, G. repeat split; reflexivity.
    + apply str_truthy_false in C. rewrite (Hg C) in P.
      exists (AskQuestion.general_answer_reply []).
      rewrite P, G. repeat split; reflexivity.
  - intros w prompt model rest enc t resp fields Hk He Hf Hok Hp Hg.
    unfold AskQuestion.tryGenerateWithFallbacks. rewrite Hk.
    rewrite generate_loop_schedule.
    assert (R : schedule prompt (model :: rest)
                = (AskQuestion.text_generation_url enc,
                   AskQuestion.payload prompt)
                  :: (AskQuestion.text2text_generation_url enc,
                      AskQuestion.payload2 prompt)
                  :: schedule prompt rest).
    { unfold schedule. cbn [flat_map]. unfold requests_of at 1.
      now rewrite He. }
    rewrite R. cbn [first_success].
    now rewrite Hf, (gen_text_bare_empty _ _ _ Hok Hp Hg).
Qed.

(** C10 as stated fails twice.  A bare object [{generated_text: ""}] makes
    the handler answer with the serialized body, not with the empty string;
    and an empty text generated without context is answered without a
    [source] field. *)
Lemma C10_counterexample :
  (let w := scripted [respond 200 sample_vector; respond 500 VNull;
                      respond 200 (VObj [(lit "generated_text", VStr [])])]
              (rows_found sample_rows) in
   let q := lit "Has Brandon paid?" in
   let r := AskQuestion.generation_reply
              (lit "{" ++ [34%N] ++ lit "generated_text" ++ [34; 58; 34; 34]%N
               ++ lit "}") in
   AskQuestion.POST w (ask "Has Brandon paid?" false) []
   = (Return r,
      [embedding_request q; sample_search; qa_request q sample_context;
       EvFetch (AskQuestion.text_generation_url (lit "distilgpt2"))
         (AskQuestion.payload (AskQuestion.build_prompt q sample_context))])
   /\ field "answer" r <> VStr [])
  /\ (let w := scripted [respond 200 sample_vector;
                         respond 200 (generated "")]
                 (rows_found []) in
      let q := lit "Has Brandon paid?" in
      let r := AskQuestion.general_answer_reply [] in
      AskQuestion.POST w (ask "Has Brandon paid?" true) []
      = (Return r,
         [embedding_request q; sample_search;
          EvFetch (AskQuestion.text_generation_url (lit "distilgpt2"))
            (AskQuestion.payload (AskQuestion.build_prompt q []))])
      /\ reply_status r = 200
      /\ field "answer" r = VStr []
      /\ source_tag r <> VStr (lit "generation")).
Proof.
  cbv zeta. split.
  - split; [vm_compute; reflexivity|]. vm_compute. discriminate.
  - split; [vm_compute; reflexivity|]. split; [reflexivity|].
    split; [reflexivity|]. vm_compute. discriminate.
Qed.

Lemma C10_witness :
  (let w := scripted [respond 200 sample_vector; respond 500 VNull;
                      respond 200 (generated "")]
              (rows_found sample_rows) in
   let q := lit "Has Brandon paid?" in
   AskQuestion.tryGenerateWithFallbacks w (lit "prompt")
     [lit "distilgpt2"; lit "gpt2-medium"]
     [embedding_request q; qa_request q sample_context]
   = (Return [],
      [embedding_request q; qa_request q sample_context]
      ++ [EvFetch (AskQuestion.text_generation_url (lit "distilgpt2"))
            (AskQuestion.payload (lit "prompt"))]))
  /\ (let w := scripted [respond 200 sample_vector; respond 500 VNull;
                         respond 200 (generated "")]
                 (rows_found sample_rows) in
      let q := lit "Has Brandon paid?" in
      let context := AskQuestion.build_context (Some sample_rows) in
      let t1 := [] ++ [embedding_request q; sample_search] in
      let t2 := if AskQuestion.str_truthy context
                then t1 ++ [qa_request q context] else t1 in
      let request_A :=
        (AskQuestion.text_generation_url (lit "distilgpt2"),
         AskQuestion.payload (AskQuestion.build_prompt q context)) in
      exists r,
        AskQuestion.POST w (ask "Has Brandon paid?" false) []
        = (Return r, t2 ++ [EvFetch (fst request_A) (snd request_A)])
        /\ reply_status r = 200
        /\ field "answer" r = VStr []
        /\ source_tag r
           = (if AskQuestion.str_truthy context
              then VStr (lit "generation") else VUndefined)
        /\ field "contextFound" r
           = VBool (AskQuestion.str_truthy context))
  /\ (let w := scripted [respond 200 (VObj [(lit "generated_text", VStr [])])]
                 (rows_found []) in
      AskQuestion.tryGenerateWithFallbacks w (lit "prompt")
        [lit "distilgpt2"; lit "gpt2-medium"] []
      = (Return (slice0 4000
                   (JSON_stringify w (VObj [(lit "generated_text", VStr [])]))),
         [] ++ [EvFetch (AskQuestion.text_generation_url (lit "distilgpt2"))
                  (AskQuestion.payload (lit "prompt"))])).
Proof.
  cbv zeta. split; [|split].
  - refine (proj1 C10_empty_generated_text _ (lit "prompt") (lit "distilgpt2")
              [lit "gpt2-medium"] (lit "distilgpt2") _
              (mkResponse 200 (sample_stringify (generated ""))
                 (Parsed (generated "")))
              (VObj [(lit "generated_text", VStr [])]) [] _ _ _ _ _ _);
      by_running.
  - refine (proj1 (proj2 C10_empty_generated_text)
              (scripted [respond 200 sample_vector; respond 500 VNull;
                         respond 200 (generated "")]
                 (rows_found sample_rows))
              (ask "Has Brandon paid?" false) [] (lit "Has Brandon paid?")
              false (Some sample_rows) sample_search
              (mkResponse 200 (sample_stringify (generated ""))
                 (Parsed (generated "")))
              (VObj [(lit "generated_text", VStr [])]) [] _ _ _ _ _ _ _).
    + search_ran "Has Brandon paid?"%string false.
    + by_running.
    + intros _. by_running.
    + by_running.
    + by_running.
    + by_running.
    + by_running.
  - refine (proj2 (proj2 C10_empty_generated_text)
              (scripted [respond 200 (VObj [(lit "generated_text", VStr [])])]
                 (rows_found []))
              (lit "prompt") (lit "distilgpt2") [lit "gpt2-medium"]
              (lit "distilgpt2") []
              (mkResponse 200
                 (sample_stringify (VObj [(lit "generated_text", VStr [])]))
                 (Parsed (VObj [(lit "generated_text", VStr [])])))
              [(lit "generated_text", VStr [])] _ _ _ _ _ _);
      by_running.
Defined.

(** ** The embedding client (C5, C6, C7) *)

Lemma store_normalize_first_match w (json : value) :
  StoreEmail.normalize w json =
    match json with
    | VNull | VUndefined => Throw (cannot_read json (lit "embedding"))
    | _ =>
        match first_match shapes_in_order json with
        | Some v => Return v
        | None => Throw (store_shape_error w json)
        end
    end.
Proof.
  unfold StoreEmail.normalize, store_shape_error. 
  generalize (Error (lit "Unexpected HF embeddings response shape: "
                     ++ slice0 500 (JSON_stringify w json))).
  intros err.
  unfold shapes_in_order, first_match, decode.
  destruct json as [| |b|q|s|xs|fs]; try reflexivity.
  - destruct xs as [|x xs']; [reflexivity|].
    destruct x as [| |b|q|s|ys|gs]; try reflexivity.
    destruct ys as [|y ys']; [reflexivity|]. destruct y; reflexivity.
  - cbn [isArray andb at0 elem0 prop obind opt_prop].
    generalize (lookup (lit "embedding") fs) (lookup (lit "embeddings") fs)
      (lookup (lit "data") fs).
    intros e es d.
    rewrite !truthy_and_isArray.
    destruct (isArray e); [reflexivity|].
    destruct (truthy es && isArray (at0 es) && is_number (at0 (at0 es)));
      [reflexivity|].
    destruct (truthy es && is_number (at0 es)); [reflexivity|].
    destruct (isArray d); [|reflexivity]. cbn [andb].
    destruct (truthy (opt_prop (at0 d) (lit "embedding"))) eqn:Ht;
      [|reflexivity].
    now rewrite prop_of_truthy.
Qed.

Lemma first_match_embedding fs xs :
  lookup (lit "embedding") fs = VArr xs ->
  first_match shapes_in_order (VObj fs) = Some (VArr xs).
Proof.
  intros H. unfold shapes_in_order, first_match, decode.
  cbn [isArray andb opt_prop prop]. now rewrite H.
Qed.

Lemma first_match_embeddings_flat fs q qs :
  isArray (lookup (lit "embedding") fs) = false ->
  lookup (lit "embeddings") fs = numvec (q :: qs) ->
  first_match shapes_in_order (VObj fs) = Some (numvec (q :: qs)).
Proof.
  intros H1 H2. unfold shapes_in_order, first_match, decode.
  cbn [isArray andb opt_prop prop]. now rewrite H1, H2.
Qed.

Lemma first_match_embeddings_nested fs q qs more :
  isArray (lookup (lit "embedding") fs) = false ->
  lookup (lit "embeddings") fs = VArr (numvec (q :: qs) :: more) ->
  first_match shapes_in_order (VObj fs) = Some (numvec (q :: qs)).
Proof.
  intros H1 H2. unfold shapes_in_order, first_match, decode.
  cbn [isArray andb opt_prop prop]. now rewrite H1, H2.
Qed.

Lemma first_match_data fs gs more qs :
  isArray (lookup (lit "embedding") fs) = false ->
  lookup (lit "embeddings") fs = VUndefined ->
  lookup (lit "data") fs = VArr (VObj gs :: more) ->
  lookup (lit "embedding") gs = numvec qs ->
  first_match shapes_in_order (VObj fs) = Some (numvec qs).
Proof.
  intros H1 H2 H3 H4. unfold shapes_in_order, first_match, decode.
  cbn [isArray andb opt_prop prop]. rewrite H1, H2, H3.
  cbn [truthy andb isArray at0 elem0 opt_prop prop]. now rewrite H4.
Qed.

(** The shapes of C5 on every body but [null].  Both embedding clients read
    a body that is not [null] by trying the five shapes in the order bare
    array, nested row, [embedding], [embeddings], [data[0].embedding], and
    return what the first shape that applies reads; each shape that holds a
    non-empty numeric vector yields that vector, an [embedding] field being
    read before an [embeddings] field and that before a [data] field.  When
    no shape applies the "Unexpected ... response shape" error is thrown
    and no vector is returned.  For the body [null] the read of its
    [embedding] property throws a TypeError before that error is
    reached. *)
Theorem embedding_shapes_in_order :
  (forall json,
      json <> VNull -> json <> VUndefined ->
      AskQuestion.normalize json
      = match first_match shapes_in_order json with
        | Some v => Return v
        | None => Throw (Error (lit "Unexpected HF embedding response shape"))
        end)
  /\ (forall w json,
         json <> VNull -> json <> VUndefined ->
         StoreEmail.normalize w json
         = match first_match shapes_in_order json with
           | Some v => Return v
           | None =>
               Throw (Error (lit "Unexpected HF embeddings response shape: "
                             ++ slice0 500 (JSON_stringify w json)))
           end)
  /\ (forall q qs,
         first_match shapes_in_order (numvec (q :: qs))
         = Some (numvec (q :: qs)))
  /\ (forall q qs more,
         first_match shapes_in_order (VArr (numvec (q :: qs) :: more))
         = Some (numvec (q :: qs)))
  /\ (forall fields qs,
         lookup (lit "embedding") fields = numvec qs ->
         first_match shapes_in_order (VObj fields) = Some (numvec qs))
  /\ (forall fields q qs,
         isArray (lookup (lit "embedding") fields) = false ->
         lookup (lit "embeddings") fields = numvec (q :: qs) ->
         first_match shapes_in_order (VObj fields) = Some (numvec (q :: qs)))
  /\ (forall fields q qs more,
         isArray (lookup (lit "embedding") fields) = false ->
         lookup (lit "embeddings") fields = VArr (numvec (q :: qs) :: more) ->
         first_match shapes_in_order (VObj fields) = Some (numvec (q :: qs)))
  /\ (forall fields inner more qs,
         isArray (lookup (lit "embedding") fields) = false ->
         lookup (lit "embeddings") fields = VUndefined ->
         lookup (lit "data") fields = VArr (VObj inner :: more) ->
         lookup (lit "embedding") inner = numvec qs ->
         first_match shapes_in_order (VObj fields) = Some (numvec qs))
  /\ AskQuestion.normalize VNull
     = Throw (TypeError (lit "Cannot read properties of null (reading 'embedding')"))
  /\ (forall w,
         StoreEmail.normalize w VNull
         = Throw (TypeError (lit "Cannot read properties of null (reading 'embedding')"))).
Proof.
  split.
  { intros json Hn Hu. rewrite ask_normalize_first_match.
    destruct json; congruence || reflexivity. }
  split.
  { intros w json Hn Hu. rewrite store_normalize_first_match.
    destruct json; congruence || reflexivity. }
  split; [reflexivity|]. split; [reflexivity|].
  split; [intros fields qs; apply first_match_embedding|].
  split; [exact first_match_embeddings_flat|].
  split; [exact first_match_embeddings_nested|].
  split; [exact first_match_data|].
  split; [reflexivity|]. intros w. reflexivity.
Qed.

(** C5 does not hold of the code on the body [null]: no shape applies to
    it, and what both clients throw is the TypeError of the property read,
    not the shape error; the question handler answers 500 with the
    TypeError's message. *)
Theorem C5_null_body_type_error :
  first_match shapes_in_order VNull = None
  /\ AskQuestion.normalize VNull
     = Throw (TypeError (lit "Cannot read properties of null (reading 'embedding')"))
  /\ AskQuestion.normalize VNull
     <> Throw (Error (lit "Unexpected HF embedding response shape"))
  /\ (forall w,
         StoreEmail.normalize w VNull
         = Throw (TypeError (lit "Cannot read properties of null (reading 'embedding')")))
  /\ AskQuestion.POST (scripted [respond 200 VNull] (rows_found sample_rows))
       (ask "Has Brandon paid?" false) []
     = (Return (mkReply 500
                  (VObj [(lit "error",
                          VStr (lit "Cannot read properties of null (reading 'embedding')"))])),
        [embedding_request (lit "Has Brandon paid?")]).
Proof.
  split; [reflexivity|]. split; [reflexivity|].
  split; [vm_compute; discriminate|].
  split; [intros w; reflexivity|]. vm_compute. reflexivity.
Qed.

Lemma embedding_shapes_example :
  AskQuestion.normalize
    (VObj [(lit "embeddings", VArr [numvec [1 # 2; 3 # 4]]);
           (lit "data", VArr [VObj [(lit "embedding", numvec [5 # 1])]])])
  = Return (numvec [1 # 2; 3 # 4])
  /\ StoreEmail.normalize (scripted [] (rows_found []))
       (VObj [(lit "data", VArr [VObj [(lit "embedding", numvec [5 # 1])]])])
     = Return (numvec [5 # 1]).
Proof.
  destruct embedding_shapes_in_order
    as (Hask & Hstore & _ & _ & _ & _ & Hnested & Hdata & _).
  split.
  - rewrite Hask by discriminate.
    rewrite (Hnested _ (1 # 2) [3 # 4] []); by_running.
  - rewrite Hstore by discriminate.
    rewrite (Hdata _ [(lit "embedding", numvec [5 # 1])] [] [5 # 1]);
      by_running.
Defined.

Lemma attempt_body_permanent w url body a t r :
  fetch w (nfetch t) url body = Responded r ->
  ok r = false -> transient r = false -> a <> StoreEmail.maxAttempts ->
  StoreEmail.attempt_body w url body a t
  = (Return StoreEmail.Continue, t ++ [EvFetch url body; EvSleep (250 * a)]).
Proof.
  intros Hf Hok Ht Ha. unfold transient in Ht. rewrite Hok in Ht.
  cbn [negb andb] in Ht.
  unfold StoreEmail.attempt_body, try_catch, bind.
  rewrite (do_fetch_responded _ _ _ _ _ Hf), Hok, Ht. cbn [negb].
  unfold throw. apply Z.eqb_neq in Ha. rewrite Ha.
  unfold sleep, ret. now rewrite <- app_assoc.
Qed.

Lemma attempt_body_shape_error w url body a t r json e :
  fetch w (nfetch t) url body = Responded r ->
  ok r = true -> parsed r = Parsed json ->
  StoreEmail.normalize w json = Throw e -> a <> StoreEmail.maxAttempts ->
  StoreEmail.attempt_body w url body a t
  = (Return StoreEmail.Continue, t ++ [EvFetch url body; EvSleep (250 * a)]).
Proof.
  intros Hf Hok Hp Hn Ha.
  unfold StoreEmail.attempt_body, try_catch, bind.
  rewrite (do_fetch_responded _ _ _ _ _ Hf), Hok. cbn [negb].
  unfold lift. rewrite Hp, Hn. apply Z.eqb_neq in Ha. rewrite Ha.
  unfold sleep, ret. now rewrite <- app_assoc.
Qed.

(** C6 does not hold of the code.  The primary endpoint answers 404 once
    and then 200: the client waits 250 ms and asks the primary endpoint
    again, where the claim has it move on to the fallback endpoint.  The
    same happens after a 200 response of an unknown shape. *)
Theorem C6_permanent_failure_is_retried :
  let body := VObj [(lit "inputs", VStr (lit "chunk"))] in
  let primary := StoreEmail.urlPrimary (lit "all-MiniLM-L6-v2") in
  StoreEmail.getHfEmbedding
    (scripted [respond 404 (VStr (lit "Not Found")); respond 200 sample_vector]
       (rows_found []))
    (lit "chunk") (lit "all-MiniLM-L6-v2") []
  = (Return sample_vector,
     [EvFetch primary body; EvSleep 250; EvFetch primary body])
  /\ StoreEmail.getHfEmbedding
       (scripted [respond 200 (VObj [(lit "vector", sample_vector)]);
                  respond 200 sample_vector]
          (rows_found []))
       (lit "chunk") (lit "all-MiniLM-L6-v2") []
     = (Return sample_vector,
        [EvFetch primary body; EvSleep 250; EvFetch primary body]).
Proof. cbv zeta. split; vm_compute; reflexivity. Qed.

Lemma store_two_backoffs w text model enc t r1 r2 r3 json v :
  key_missing w = false ->
  encodeURIComponent model = Some enc ->
  let url := StoreEmail.urlPrimary enc in
  let body := VObj [(lit "inputs", VStr text)] in
  fetch w (nfetch t) url body = Responded r1 -> status r1 = 500 ->
  fetch w (S (nfetch t)) url body = Responded r2 -> status r2 = 500 ->
  fetch w (S (S (nfetch t))) url body = Responded r3 -> status r3 = 200 ->
  parsed r3 = Parsed json -> StoreEmail.normalize w json = Return v ->
  StoreEmail.getHfEmbedding w text model t
  = (Return v,
     t ++ [EvFetch url body; EvSleep (1 * 300);
           EvFetch url body; EvSleep (2 * 300);
           EvFetch url body]).
Proof.
  intros Hk He url body H1 S1 H2 S2 H3 S3 Hp Hn.
  unfold StoreEmail.getHfEmbedding. rewrite Hk, He.
  fold url body.
  assert (T1 : transient r1 = true) by (unfold transient, ok; now rewrite S1).
  assert (T2 : transient r2 = true) by (unfold transient, ok; now rewrite S2).
  assert (O3 : ok r3 = true) by (unfold ok; now rewrite S3).
  apply endpoints_first.
  rewrite (attempts_transient _ _ _ _ _ _ _ H1 T1).
  rewrite (attempts_transient w url body _ _ _ r2); [| |exact T2].
  2:{ rewrite <- H2. f_equal. rewrite nfetch_app. unfold nfetch. simpl. lia. }
  rewrite (attempts_success w url body _ _ _ r3 json v); try assumption.
  2:{ rewrite <- H3. f_equal. rewrite !nfetch_app. unfold nfetch. simpl. lia. }
  f_equal. rewrite <- !(app_assoc t). reflexivity.
Qed.

Lemma ask_getHfEmbedding_no_retry w text model enc t r :
  key_missing w = false ->
  encodeURIComponent model = Some enc ->
  let url := hf_models ++ enc ++ lit "/pipeline/feature-extraction" in
  let body := VObj [(lit "inputs", VStr text)] in
  fetch w (nfetch t) url body = Responded r -> ok r = false ->
  AskQuestion.getHfEmbedding w text model t
  = (Throw (Error (lit "HF embedding error: " ++ string_of_Z (status r)
                   ++ lit " " ++ body_text r)),
     t ++ [EvFetch url body]).
Proof.
  intros Hk He url body Hf Hok. unfold AskQuestion.getHfEmbedding.
  rewrite Hk, He. unfold bind. fold url body.
  now rewrite (do_fetch_responded _ _ _ _ _ Hf), Hok.
Qed.

(** C7, as amended.  When the primary endpoint answers 500 to two requests
    in a row and then 200 with a body one of the shapes reads, the
    ingestion-side client (store-email) returns the vector after three
    requests to the primary endpoint and two delays, of one and of two
    times the base delay of 300 ms; the fallback endpoint is not contacted.
    The question-side client (ask-question) has neither retry nor fallback
    endpoint: one request is sent, and a 500, like any other failure
    status, ends the call with an error. *)
Theorem C7_backoff_in_ingestion_client :
  (forall w text model enc t r1 r2 r3 json v,
      key_missing w = false ->
      encodeURIComponent model = Some enc ->
      let url := StoreEmail.urlPrimary enc in
      let body := VObj [(lit "inputs", VStr text)] in
      fetch w (nfetch t) url body = Responded r1 -> status r1 = 500 ->
      fetch w (S (nfetch t)) url body = Responded r2 -> status r2 = 500 ->
      fetch w (S (S (nfetch t))) url body = Responded r3 -> status r3 = 200 ->
      parsed r3 = Parsed json -> StoreEmail.normalize w json = Return v ->
      StoreEmail.getHfEmbedding w text model t
      = (Return v,
         t ++ [EvFetch url body; EvSleep (1 * 300);
               EvFetch url body; EvSleep (2 * 300);
               EvFetch url body]))
  /\ (forall w text model enc t r,
         key_missing w = false ->
         encodeURIComponent model = Some enc ->
         let url := hf_models ++ enc ++ lit "/pipeline/feature-extraction" in
         let body := VObj [(lit "inputs", VStr text)] in
         fetch w (nfetch t) url body = Responded r -> ok r = false ->
         AskQuestion.getHfEmbedding w text model t
         = (Throw (Error (lit "HF embedding error: " ++ string_of_Z (status r)
                          ++ lit " " ++ body_text r)),
            t ++ [EvFetch url body])).
Proof.
  split; [exact store_two_backoffs|exact ask_getHfEmbedding_no_retry].
Qed.

Lemma C7_witness :
  (let w := scripted [respond 500 VNull; respond 500 VNull;
                      respond 200 sample_vector]
              (rows_found []) in
   let url := StoreEmail.urlPrimary (lit "all-MiniLM-L6-v2") in
   let body := VObj [(lit "inputs", VStr (lit "chunk"))] in
   StoreEmail.getHfEmbedding w (lit "chunk") (lit "all-MiniLM-L6-v2") []
   = (Return sample_vector,
      [] ++ [EvFetch url body; EvSleep (1 * 300);
             EvFetch url body; EvSleep (2 * 300);
             EvFetch url body]))
  /\ (let w := scripted [respond 503 VNull; respond 200 sample_vector]
                 (rows_found []) in
      let url := hf_models ++ lit "all-MiniLM-L6-v2"
                 ++ lit "/pipeline/feature-extraction" in
      let body := VObj [(lit "inputs", VStr (lit "chunk"))] in
      let r := mkResponse 503 (sample_stringify VNull) (Parsed VNull) in
      AskQuestion.getHfEmbedding w (lit "chunk") (lit "all-MiniLM-L6-v2") []
      = (Throw (Error (lit "HF embedding error: " ++ string_of_Z (status r)
                       ++ lit " " ++ body_text r)),
         [] ++ [EvFetch url body])).
Proof.
  cbv zeta. split.
  - refine (proj1 C7_backoff_in_ingestion_client
              (scripted [respond 500 VNull; respond 500 VNull;
                         respond 200 sample_vector] (rows_found []))
              (lit "chunk") (lit "all-MiniLM-L6-v2") (lit "all-MiniLM-L6-v2")
              []
              (mkResponse 500 (sample_stringify VNull) (Parsed VNull))
              (mkResponse 500 (sample_stringify VNull) (Parsed VNull))
              (mkResponse 200 (sample_stringify sample_vector)
                 (Parsed sample_vector))
              sample_vector sample_vector _ _ _ _ _ _ _ _ _ _);
      by_running.
  - refine (proj2 C7_backoff_in_ingestion_client
              (scripted [respond 503 VNull; respond 200 sample_vector]
                 (rows_found []))
              (lit "chunk") (lit "all-MiniLM-L6-v2") (lit "all-MiniLM-L6-v2")
              [] (mkResponse 503 (sample_stringify VNull) (Parsed VNull))
              _ _ _ _);
      by_running.
Defined.

(** C7 as stated fails for the question-side client.  The endpoint answers
    500, 500 and would then answer 200 with a vector: the client of
    [ask-question/route.ts] throws at the first 500 without any delay or
    second request, and the handler answers 500. *)
Lemma C7_counterexample :
  let w := scripted [respond 500 VNull; respond 500 VNull;
                     respond 200 sample_vector]
             (rows_found sample_rows) in
  let q := lit "Has Brandon paid?" in
  AskQuestion.getHfEmbedding w q AskQuestion.default_embedding_model []
  = (Throw (Error (lit "HF embedding error: 500 null")),
     [embedding_request q])
  /\ AskQuestion.POST w (ask "Has Brandon paid?" false) []
     = (Return (mkReply 500
                  (VObj [(lit "error",
                          VStr (lit "HF embedding error: 500 null"))])),
        [embedding_request q]).
Proof. cbv zeta. split; vm_compute; reflexivity. Qed.

(** * The rest of the two routes: proofs *)

(** ** The chunker *)

Lemma split_spaces_cons (text : jsstring) :
  exists word words, Chunker.split_spaces text = word :: words.
Proof.
  induction text as [|c rest (word & words & IH)]; cbn [Chunker.split_spaces].
  - eauto.
  - destruct (c =? 32)%N; [eauto|]. rewrite IH. eauto.
Qed.

Lemma split_spaces_space_free (text : jsstring) :
  Forall (fun word => has_space word = false) (Chunker.split_spaces text).
Proof.
  induction text as [|c rest IH]; cbn [Chunker.split_spaces].
  - repeat constructor.
  - destruct (c =? 32)%N eqn:C.
    + constructor; [reflexivity|exact IH].
    + destruct (Chunker.split_spaces rest) as [|word words].
      * constructor; [|constructor]. unfold has_space. cbn [existsb].
        rewrite N.eqb_sym, C. reflexivity.
      * inversion IH as [|? ? Hw Hws]; subst. constructor; [|exact Hws].
        unfold has_space in *. cbn [existsb]. now rewrite N.eqb_sym, C.
Qed.

Lemma split_spaces_app (a b : jsstring) :
  Chunker.split_spaces (a ++ 32%N :: b)
  = Chunker.split_spaces a ++ Chunker.split_spaces b.
Proof.
  induction a as [|c a IH]; cbn [app Chunker.split_spaces].
  - reflexivity.
  - destruct (c =? 32)%N; [now rewrite IH|].
    rewrite IH. destruct (split_spaces_cons a) as (word & words & ->).
    reflexivity.
Qed.

Lemma split_spaces_word (word : jsstring) :
  has_space word = false -> Chunker.split_spaces word = [word].
Proof.
  induction word as [|c word IH]; [reflexivity|].
  unfold has_space. cbn [existsb]. intros H.
  apply orb_false_iff in H as [Hc Hw]. cbn [Chunker.split_spaces].
  rewrite N.eqb_sym, Hc. now rewrite (IH Hw).
Qed.

Lemma words_of_app (a b : jsstring) :
  words_of (a ++ 32%N :: b) = words_of a ++ words_of b.
Proof. unfold words_of. now rewrite split_spaces_app, filter_app. Qed.

Lemma words_of_word (word : jsstring) :
  has_space word = false ->
  words_of word = if AskQuestion.str_truthy word then [word] else [].
Proof.
  intros H. unfold words_of. rewrite (split_spaces_word _ H). reflexivity.
Qed.

Lemma chunk_words_chunks n words : forall chunks cur,
  Chunker.chunk_words n words chunks cur
  = chunks ++ Chunker.chunk_words n words [] cur.
Proof.
  induction words as [|word rest IH]; intros chunks cur;
    cbn [Chunker.chunk_words].
  - destruct (AskQuestion.str_truthy cur); [reflexivity|now rewrite app_nil_r].
  - destruct (_ >? n).
    + rewrite (IH (chunks ++ [cur])), (IH ([] ++ [cur])).
      now rewrite <- app_assoc.
    + apply IH.
Qed.

Lemma chunk_words_keeps_words n words : forall chunks cur,
  Forall (fun word => has_space word = false) words ->
  flat_map words_of (Chunker.chunk_words n words chunks cur)
  = flat_map words_of chunks ++ words_of cur
    ++ filter AskQuestion.str_truthy words.
Proof.
  induction words as [|word rest IH]; intros chunks cur HF;
    cbn [Chunker.chunk_words filter].
  - rewrite app_nil_r. destruct cur as [|c cur]; cbn [AskQuestion.str_truthy].
    + now rewrite app_nil_r.
    + rewrite flat_map_app. cbn [flat_map]. now rewrite app_nil_r.
  - inversion HF as [|? ? Hw Hrest]; subst.
    destruct (_ >? n).
    + rewrite (IH _ _ Hrest), flat_map_app. cbn [flat_map].
      rewrite app_nil_r, (words_of_word _ Hw), <- app_assoc.
      destruct (AskQuestion.str_truthy word); reflexivity.
    + rewrite (IH _ _ Hrest). f_equal.
      destruct cur as [|c cur]; cbn [AskQuestion.str_truthy app].
      * rewrite (words_of_word _ Hw).
        destruct (AskQuestion.str_truthy word); reflexivity.
      * change (c :: cur ++ 32%N :: word) with ((c :: cur) ++ 32%N :: word).
        rewrite words_of_app, (words_of_word _ Hw), <- app_assoc.
        destruct (AskQuestion.str_truthy word); reflexivity.
Qed.

Lemma splitIntoChunks_words (text : jsstring) (chunkSize : Z) :
  flat_map words_of (Chunker.splitIntoChunks text chunkSize) = words_of text.
Proof.
  unfold Chunker.splitIntoChunks.
  rewrite chunk_words_keeps_words by apply split_spaces_space_free.
  reflexivity.
Qed.

(** X1.  Chunking loses no word and keeps the order: the words of the
    chunks, chunk after chunk, are the words of the text. *)
Theorem chunks_keep_every_word (text : jsstring) (chunkSize : Z) :
  flat_map words_of (Chunker.splitIntoChunks text chunkSize) = words_of text.
Proof. apply splitIntoChunks_words. Qed.

Lemma chunk_words_sizes n words : forall chunks cur,
  Forall (fun word => has_space word = false) words ->
  Forall (fun c => Z.of_nat (List.length c) <= n \/ has_space c = false)
    chunks ->
  (Z.of_nat (List.length cur) <= n \/ has_space cur = false) ->
  Forall (fun c => Z.of_nat (List.length c) <= n \/ has_space c = false)
    (Chunker.chunk_words n words chunks cur).
Proof.
  induction words as [|word rest IH]; intros chunks cur HF Hchunks Hcur;
    cbn [Chunker.chunk_words].
  - destruct (AskQuestion.str_truthy cur); [|exact Hchunks].
    apply Forall_app. split; [exact Hchunks|]. now constructor.
  - inversion HF as [|? ? Hw Hrest]; subst.
    destruct (_ >? n) eqn:G.
    + apply IH; [exact Hrest| |now right].
      apply Forall_app. split; [exact Hchunks|]. now constructor.
    + apply IH; [exact Hrest|exact Hchunks|]. left.
      rewrite Z.gtb_ltb in G. apply Z.ltb_ge in G.
      rewrite !length_app.
      destruct (AskQuestion.str_truthy cur); cbn [List.length]; lia.
Qed.

Lemma splitIntoChunks_sizes (text : jsstring) (chunkSize : Z) :
  Forall (fun chunk =>
            Z.of_nat (List.length chunk) <= chunkSize
            \/ has_space chunk = false)
    (Chunker.splitIntoChunks text chunkSize).
Proof.
  unfold Chunker.splitIntoChunks. apply chunk_words_sizes.
  - apply split_spaces_space_free.
  - constructor.
  - now right.
Qed.

(** X2.  A chunk is longer than the chunk size only when it is a single
    word: every chunk with a space in it has at most [chunkSize] code
    units. *)
Theorem chunks_fit_or_are_one_word (text : jsstring) (chunkSize : Z) :
  Forall (fun chunk =>
            Z.of_nat (List.length chunk) <= chunkSize
            \/ has_space chunk = false)
    (Chunker.splitIntoChunks text chunkSize).
Proof. apply splitIntoChunks_sizes. Qed.

(** X3.  When every word of the text has fewer than [chunkSize] code
    units, every chunk has at most [chunkSize] code units. *)
Theorem chunks_within_size (text : jsstring) (chunkSize : Z) :
  Forall (fun word => Z.of_nat (List.length word) < chunkSize)
    (Chunker.split_spaces text) ->
  Forall (fun chunk => Z.of_nat (List.length chunk) <= chunkSize)
    (Chunker.splitIntoChunks text chunkSize).
Proof.
  intros Hshort. apply Forall_forall. intros chunk Hin.
  pose proof (splitIntoChunks_sizes text chunkSize) as Hfit.
  rewrite Forall_forall in Hfit. destruct (Hfit _ Hin) as [H|Hfree]; [exact H|].
  destruct chunk as [|c chunk].
  - destruct (split_spaces_cons text) as (word & words & E).
    rewrite E in Hshort. inversion Hshort; subst. cbn [List.length]. lia.
  - assert (Hw : In (c :: chunk) (words_of text)).
    { rewrite <- (splitIntoChunks_words text chunkSize).
      apply in_flat_map. exists (c :: chunk). split; [exact Hin|].
      rewrite (words_of_word _ Hfree). now left. }
    unfold words_of in Hw. apply filter_In in Hw as [Hw _].
    rewrite Forall_forall in Hshort. specialize (Hshort _ Hw). lia.
Qed.

Lemma chunks_within_size_witness :
  Forall (fun chunk => Z.of_nat (List.length chunk) <= 12)
    (Chunker.splitIntoChunks (lit "Payment is pending for INV-7") 12)
  /\ Chunker.splitIntoChunks (lit "Payment is pending for INV-7") 12
     = [lit "Payment is"; lit "pending for"; lit "INV-7"].
Proof.
  split; [|vm_compute; reflexivity].
  apply chunks_within_size. vm_compute.
  repeat (constructor; [reflexivity|]). constructor.
Defined.

Lemma join_cons_more (sep x y : jsstring) (l : list jsstring) :
  join sep (x :: y :: l) = x ++ sep ++ join sep (y :: l).
Proof. reflexivity. Qed.

Lemma join_space_merge (pre : list jsstring) a b post :
  join [32%N] (pre ++ (a ++ [32%N] ++ b) :: post)
  = join [32%N] (pre ++ a :: b :: post).
Proof.
  induction pre as [|x pre IH].
  - cbn [app]. rewrite join_cons_more.
    destruct post as [|p post].
    + reflexivity.
    + rewrite !join_cons_more, <- !app_assoc. reflexivity.
  - destruct pre as [|y pre].
    + cbn [app] in *. rewrite !join_cons_more.
      destruct post as [|p post].
      * cbn [join]. reflexivity.
      * rewrite !join_cons_more, <- !app_assoc. reflexivity.
    + change ((x :: y :: pre) ++ ?l) with (x :: y :: (pre ++ l)).
      rewrite !join_cons_more.
      change (y :: pre ++ ?l) with ((y :: pre) ++ l). now rewrite IH.
Qed.

Lemma join_split_spaces (text : jsstring) :
  join [32%N] (Chunker.split_spaces text) = text.
Proof.
  induction text as [|c rest IH]; [reflexivity|].
  cbn [Chunker.split_spaces].
  destruct (split_spaces_cons rest) as (word & words & E).
  rewrite E in *. destruct (c =? 32)%N eqn:C.
  - apply N.eqb_eq in C. subst c. rewrite join_cons_more, IH. reflexivity.
  - destruct words as [|w ws].
    + cbn [join] in *. now rewrite IH.
    + rewrite join_cons_more in IH. rewrite join_cons_more.
      rewrite <- IH. reflexivity.
Qed.

Lemma chunk_words_join n words : forall chunks c cur,
  Forall (fun word => word <> []) words ->
  join [32%N] (Chunker.chunk_words n words chunks (c :: cur))
  = join [32%N] (chunks ++ (c :: cur) :: words).
Proof.
  induction words as [|word rest IH]; intros chunks c cur HF;
    cbn [Chunker.chunk_words AskQuestion.str_truthy].
  - reflexivity.
  - inversion HF as [|? ? Hw Hrest]; subst.
    destruct word as [|d word]; [congruence|].
    destruct (_ >? n).
    + rewrite (IH _ _ _ Hrest), <- app_assoc. reflexivity.
    + change ((c :: cur) ++ [32%N] ++ d :: word)
        with ((c :: cur) ++ [32%N] ++ (d :: word)).
      destruct ((c :: cur) ++ [32%N] ++ d :: word) as [|e merged] eqn:M;
        [discriminate M|].
      rewrite (IH _ _ _ Hrest), <- M. apply join_space_merge.
Qed.

(** X4.  Round trip.  For a text whose pieces between spaces are all
    non-empty (no leading, trailing or doubled space, and not the empty
    text) and whose first word has fewer than [chunkSize] code units,
    joining the chunks with single spaces gives the text back. *)
Theorem chunks_join_back (text : jsstring) (chunkSize : Z) first others :
  Chunker.split_spaces text = first :: others ->
  Forall (fun word => word <> []) (first :: others) ->
  Z.of_nat (List.length first) < chunkSize ->
  join [32%N] (Chunker.splitIntoChunks text chunkSize) = text.
Proof.
  intros E HF Hshort. unfold Chunker.splitIntoChunks. rewrite E.
  inversion HF as [|? ? Hfirst Hothers]; subst.
  cbn [Chunker.chunk_words List.length AskQuestion.str_truthy app].
  replace (Z.of_nat 0 + Z.of_nat (List.length first) + 1 >? chunkSize)
    with false by (symmetry; rewrite Z.gtb_ltb; apply Z.ltb_ge; lia).
  destruct first as [|c first]; [congruence|].
  rewrite (chunk_words_join _ _ _ _ _ Hothers). cbn [app].
  pose proof (join_split_spaces text) as J. rewrite E in J. exact J.
Qed.

Lemma chunks_join_back_witness :
  join [32%N]
    (Chunker.splitIntoChunks (lit "Payment is pending for INV-7") 12)
  = lit "Payment is pending for INV-7".
Proof.
  refine (chunks_join_back _ 12 (lit "Payment")
            [lit "is"; lit "pending"; lit "for"; lit "INV-7"] _ _ _).
  - vm_compute. reflexivity.
  - repeat (constructor; [vm_compute; discriminate|]). constructor.
  - vm_compute. reflexivity.
Defined.

Lemma chunk_words_blank n words :
  1 <= n -> Forall (fun word => word = []) words ->
  Chunker.chunk_words n words [] [] = [].
Proof.
  intros Hn. induction 1 as [|word rest -> _ IH]; [reflexivity|].
  cbn [Chunker.chunk_words List.length AskQuestion.str_truthy app].
  replace (Z.of_nat 0 + Z.of_nat 0 + 1 >? n) with false
    by (symmetry; rewrite Z.gtb_ltb; apply Z.ltb_ge; lia).
  exact IH.
Qed.

Lemma splitIntoChunks_no_words text chunkSize :
  1 <= chunkSize -> words_of text = [] ->
  Chunker.splitIntoChunks text chunkSize = [].
Proof.
  intros Hn Hw. unfold Chunker.splitIntoChunks.
  apply chunk_words_blank; [exact Hn|].
  unfold words_of in Hw. apply Forall_forall. intros word Hin.
  destruct word as [|c word]; [reflexivity|].
  assert (I : In (c :: word)
                (filter AskQuestion.str_truthy (Chunker.split_spaces text)))
    by (apply filter_In; split; [exact Hin|reflexivity]).
  rewrite Hw in I. destruct I.
Qed.

(** X5.  Two edges of the chunker.  A text without any word (empty, or
    spaces only) gives no chunk at all, for every chunk size of at least 1.
    A text whose first word has [chunkSize] code units or more gives the
    empty string as its first chunk. *)
Theorem chunker_edges :
  (forall text chunkSize,
      1 <= chunkSize -> words_of text = [] ->
      Chunker.splitIntoChunks text chunkSize = [])
  /\ (forall text chunkSize first others,
         Chunker.split_spaces text = first :: others ->
         chunkSize <= Z.of_nat (List.length first) ->
         exists more, Chunker.splitIntoChunks text chunkSize = [] :: more).
Proof.
  split.
  - intros text n Hn Hw. now apply splitIntoChunks_no_words.
  - intros text n first others E Hlong. unfold Chunker.splitIntoChunks.
    rewrite E. cbn [Chunker.chunk_words List.length app].
    replace (Z.of_nat 0 + Z.of_nat (List.length first) + 1 >? n) with true
      by (symmetry; rewrite Z.gtb_ltb; apply Z.ltb_lt; lia).
    rewrite chunk_words_chunks. cbn [app]. eauto.
Qed.

Lemma chunker_edges_witness :
  Chunker.splitIntoChunks (lit "   ") 2000 = []
  /\ exists more,
       Chunker.splitIntoChunks (lit "INV-2025-07 due") 5 = [] :: more.
Proof.
  split.
  - apply (proj1 chunker_edges); [lia|vm_compute; reflexivity].
  - apply (proj2 chunker_edges _ 5 (lit "INV-2025-07") [lit "due"]);
      vm_compute; [reflexivity|discriminate].
Defined.

(** ** The question handler as a whole *)

Lemma ask_getHfEmbedding_throws w question t e t' :
  AskQuestion.getHfEmbedding w question AskQuestion.default_embedding_model t
  = (Throw e, t') ->
  t' = t \/ t' = t ++ [embedding_request question].
Proof.
  unfold AskQuestion.getHfEmbedding. rewrite embedding_model_encoded.
  destruct (key_missing w); [intros E; injection E as _ <-; now left|].
  unfold bind, do_fetch. fold (embedding_request question). intros E. right.
  destruct (fetch w (nfetch t) _ _) as [r|e']; [|now injection E as _ <-].
  destruct (negb (ok r)); [unfold throw in E; now injection E as _ <-|].
  unfold lift in E.
  destruct (JSON_parse r) as [json|e'']; [|now injection E as _ <-].
  destruct (AskQuestion.normalize json); now injection E as _ <-.
Qed.

Lemma usable_some a r :
  usable a = Some r ->
  exists answer score,
    blank answer = false
    /\ r = AskQuestion.extractive_reply (trim answer) score.
Proof.
  destruct a as [qa|]; [|discriminate]. cbn [usable].
  destruct (blank (AskQuestion.answer qa)) eqn:B; [discriminate|].
  intros E. injection E as <-. eauto.
Qed.

Lemma genModels_schedule prompt :
  List.length (schedule prompt AskQuestion.genModels) = 6%nat.
Proof. reflexivity. Qed.

Lemma first_success_genModels w prompt n text k :
  first_success w n (schedule prompt AskQuestion.genModels) = Some (text, k) ->
  (1 <= k <= 6)%nat.
Proof.
  intros H. apply first_success_some in H. now rewrite genModels_schedule in H.
Qed.

Lemma message_or_default (m d : jsstring) :
  d <> [] -> (if AskQuestion.str_truthy m then m else d) <> [].
Proof. destruct m; [trivial|discriminate]. Qed.

Lemma POST_handled w request t :
  exists r extra,
    AskQuestion.POST w request t = (Return r, t ++ extra)
    /\ handled w t request r extra.
Proof.
  destruct request as [bodyJson|why].
  2:{ unfold AskQuestion.POST, try_catch, bind, lift.
      cbn [AskQuestion.request_json]. do 2 eexists.
      split; [now rewrite app_nil_r|].
      apply failed_before_embedding, message_or_default. discriminate. }
  destruct (AskQuestion.call_trim w
              (or_else (opt_prop bodyJson (lit "question")) (VStr [])))
    as [question|e] eqn:Hq.
  2:{ unfold AskQuestion.POST, try_catch. unfold bind at 1. unfold lift at 1.
      cbn [AskQuestion.request_json]. unfold bind at 1. unfold lift at 1.
      rewrite Hq. do 2 eexists.
      split; [now rewrite app_nil_r|].
      apply failed_before_embedding, message_or_default. discriminate. }
  destruct question as [|c q].
  { unfold AskQuestion.POST, try_catch. unfold bind at 1. unfold lift at 1.
    cbn [AskQuestion.request_json]. unfold bind at 1. unfold lift at 1.
    rewrite Hq. cbn [AskQuestion.str_truthy negb]. do 2 eexists.
    split; [now rewrite app_nil_r|].
    now apply missing_question with (bodyJson := bodyJson). }
  destruct (AskQuestion.getHfEmbedding w (c :: q)
              AskQuestion.default_embedding_model t) as [[emb|e] t0] eqn:He.
  2:{ unfold AskQuestion.POST, try_catch. unfold bind at 1. unfold lift at 1.
      cbn [AskQuestion.request_json]. unfold bind at 1. unfold lift at 1.
      rewrite Hq. cbn [AskQuestion.str_truthy negb]. unfold bind at 1.
      rewrite He.
      destruct (ask_getHfEmbedding_throws _ _ _ _ _ He) as [-> | ->];
        do 2 eexists.
      - split; [now rewrite app_nil_r|].
        apply failed_before_embedding, message_or_default. discriminate.
      - split; [reflexivity|].
        apply failed_embedding, message_or_default. discriminate. }
  pose proof (getHfEmbedding_trace _ _ _ _ _ He) as ->.
  destruct (error (rpc w AskQuestion.search_fn
                     (AskQuestion.rpc_args emb
                        (AskQuestion.matchThreshold_of bodyJson)
                        (AskQuestion.emailFilter_of bodyJson))))
    as [msg|] eqn:Herr.
  { unfold AskQuestion.POST, try_catch. unfold bind at 1. unfold lift at 1.
    cbn [AskQuestion.request_json]. unfold bind at 1. unfold lift at 1.
    rewrite Hq. cbn [AskQuestion.str_truthy negb]. unfold bind at 1.
    rewrite He. unfold bind at 1. unfold do_rpc. rewrite Herr.
    do 2 eexists. split.
    - rewrite <- (app_assoc t). reflexivity.
    - apply failed_search; [|reflexivity|exact Hq|discriminate|exact He].
      apply message_or_default. discriminate. }
  set (question := c :: q) in *.
  set (rows := data (rpc w AskQuestion.search_fn
                       (AskQuestion.rpc_args emb
                          (AskQuestion.matchThreshold_of bodyJson)
                          (AskQuestion.emailFilter_of bodyJson)))).
  assert (S : searched w (Parsed bodyJson) t question
                (AskQuestion.generateIfNoContext_of bodyJson) rows
                (search_call bodyJson emb)).
  { exists bodyJson, emb. repeat split; try assumption; try reflexivity.
    discriminate. }
  pose proof (searched_key _ _ _ _ _ _ _ S) as Hk.
  rewrite (POST_after_search _ _ _ _ _ _ _ S). cbv zeta.
  set (context := AskQuestion.build_context rows).
  destruct (AskQuestion.str_truthy context) eqn:C; cbn [negb].
  - assert (Hc : context <> []) by now apply str_truthy_true.
    destruct (usable _) as [r|] eqn:U.
    + destruct (usable_some _ _ U) as (answer & score & B & ->).
      do 2 eexists. split.
      * rewrite <- (app_assoc t). reflexivity.
      * eapply extracted; [exact S|exact Hc|exact B].
    + rewrite (generation_stage_spec _ _ _ _ Hk). cbv zeta.
      destruct (first_success _ _ _) as [[text k]|] eqn:F; [rewrite C|].
      * do 2 eexists. split.
        -- rewrite <- (app_assoc t), <- (app_assoc t). reflexivity.
        -- eapply generated_from_context; [exact S|exact Hc|].
           exact (first_success_genModels _ _ _ _ _ F).
      * do 2 eexists. split.
        -- rewrite <- (app_assoc t), <- (app_assoc t). reflexivity.
        -- pose proof (generators_exhausted _ _ _ _ _ _ _ S) as G.
           fold context in G. rewrite C in G. apply G. intros E.
           now elim Hc.
  - assert (Hc : context = []) by now apply str_truthy_false.
    destruct (AskQuestion.generateIfNoContext_of bodyJson) eqn:Hg.
    + rewrite (generation_stage_spec _ _ _ _ Hk). cbv zeta. rewrite Hc.
      destruct (first_success _ _ _) as [[text k]|] eqn:F;
        cbn [AskQuestion.str_truthy].
      * do 2 eexists. split.
        -- rewrite <- (app_assoc t). reflexivity.
        -- eapply generated_without_context; [exact S|exact Hc|].
           exact (first_success_genModels _ _ _ _ _ F).
      * do 2 eexists. split.
        -- rewrite <- (app_assoc t). reflexivity.
        -- pose proof (generators_exhausted _ _ _ _ _ _ _ S) as G.
           fold context in G. rewrite Hc in G.
           cbn [AskQuestion.str_truthy] in G. now apply G.
    + do 2 eexists. split; [reflexivity|].
      eapply nothing_to_answer_from; [exact S|exact Hc].
Qed.

(** *** Counting the effects of a run *)

Lemma searches_app (t u : trace) : searches (t ++ u) = searches t ++ searches u.
Proof.
  induction t as [|[url body|fn args|ms] t IH]; simpl;
    [reflexivity|assumption|now f_equal|assumption].
Qed.

Lemma sleep_total_app (t u : trace) :
  sleep_total (t ++ u) = sleep_total t + sleep_total u.
Proof.
  induction t as [|[url body|fn args|ms] t IH]; simpl;
    [reflexivity|assumption|assumption|lia].
Qed.

Lemma fetched_urls_app (t u : trace) :
  fetched_urls (t ++ u) = fetched_urls t ++ fetched_urls u.
Proof.
  induction t as [|[url body|fn args|ms] t IH]; simpl;
    [reflexivity|now f_equal|assumption|assumption].
Qed.

Lemma nfetch_fetch_events reqs : nfetch (fetch_events reqs) = List.length reqs.
Proof.
  unfold nfetch, fetch_events.
  induction reqs as [|r reqs IH]; simpl; [reflexivity|now f_equal].
Qed.

Lemma searches_fetch_events reqs : searches (fetch_events reqs) = [].
Proof. induction reqs as [|r reqs IH]; simpl; [reflexivity|assumption]. Qed.

Lemma sleep_total_fetch_events reqs : sleep_total (fetch_events reqs) = 0.
Proof. induction reqs as [|r reqs IH]; simpl; [reflexivity|assumption]. Qed.

Lemma searched_call w request t question g rows search :
  searched w request t question g rows search ->
  exists fn args, search = EvRpc fn args.
Proof. intros (b & e & _ & _ & _ & _ & _ & -> & _). eauto. Qed.

(** The effects of a handled request: at most eight requests, no pause, and
    no search but one that directly follows the embedding request. *)
Lemma handled_effects w t request r extra :
  handled w t request r extra ->
  (nfetch extra <= 8)%nat
  /\ sleep_total extra = 0
  /\ (searches extra = []
      \/ exists question fn args post,
           extra = embedding_request question :: EvRpc fn args :: post
           /\ searches post = []).
Proof.
  intros H. destruct H as
    [ bodyJson E Hq | msg Hm | msg question Hm | msg question bodyJson emb Hm E Hq Hn He
    | question rows search S Hc | question g rows search answer score S Hc B
    | question g rows search text k S Hc Hk
    | question rows search text k S Hc Hk
    | question g rows search S Hg ];
    try (destruct (searched_call _ _ _ _ _ _ _ S) as (fn & args & ->)).
  - repeat split; [cbn; lia|now left].
  - repeat split; [cbn; lia|now left].
  - repeat split; [cbn; lia|now left].
  - repeat split; [cbn; lia|]. right. unfold search_call. now eauto 6.
  - repeat split; [cbn; lia|]. right. now eauto 6.
  - repeat split; [cbn; lia|]. right. now eauto 6.
  - rewrite nfetch_app, sleep_total_app, nfetch_fetch_events,
      sleep_total_fetch_events.
    rewrite length_firstn, genModels_schedule.
    repeat split; [cbn; lia|]. right. do 4 eexists. split; [reflexivity|].
    cbn [searches qa_request]. apply searches_fetch_events.
  - rewrite nfetch_app, sleep_total_app, nfetch_fetch_events,
      sleep_total_fetch_events.
    rewrite length_firstn, genModels_schedule.
    repeat split; [cbn; lia|]. right. do 4 eexists. split; [reflexivity|].
    apply searches_fetch_events.
  - rewrite !nfetch_app, !sleep_total_app, nfetch_fetch_events,
      sleep_total_fetch_events, genModels_schedule.
    destruct (AskQuestion.str_truthy _).
    + repeat split; [cbn; lia|]. right. do 4 eexists. split; [reflexivity|].
      cbn [searches qa_request app]. apply searches_fetch_events.
    + repeat split; [cbn; lia|]. right. do 4 eexists. split; [reflexivity|].
      cbn [app]. apply searches_fetch_events.
Qed.

(** The search that a handled request made. *)
Lemma handled_search w t request r extra fn args :
  handled w t request r extra ->
  In (fn, args) (searches extra) ->
  exists bodyJson question emb,
    request = Parsed bodyJson
    /\ AskQuestion.call_trim w
         (or_else (opt_prop bodyJson (lit "question")) (VStr []))
       = Return question
    /\ question <> []
    /\ AskQuestion.getHfEmbedding w question
         AskQuestion.default_embedding_model t
       = (Return emb, t ++ [embedding_request question])
    /\ EvRpc fn args = search_call bodyJson emb.
Proof.
  assert (G : forall question g rows search post,
             searched w request t question g rows search ->
             searches post = [] ->
             In (fn, args)
               (searches (embedding_request question :: search :: post)) ->
             exists bodyJson question emb,
               request = Parsed bodyJson
               /\ AskQuestion.call_trim w
                    (or_else (opt_prop bodyJson (lit "question")) (VStr []))
                  = Return question
               /\ question <> []
               /\ AskQuestion.getHfEmbedding w question
                    AskQuestion.default_embedding_model t
                  = (Return emb, t ++ [embedding_request question])
               /\ EvRpc fn args = search_call bodyJson emb).
  { intros question g rows search post
      (b & e & -> & Hq & Hn & _ & He & -> & _) Hp.
    cbn [searches embedding_request]. rewrite Hp.
    intros [I|[]]. injection I as <- <-. exists b, question, e.
    repeat split; assumption. }
  intros H. destruct H as
    [ bodyJson E Hq | msg Hm | msg question Hm | msg question bodyJson emb Hm E Hq Hn He
    | question rows search S Hc | question g rows search answer score S Hc B
    | question g rows search text k S Hc Hk
    | question rows search text k S Hc Hk
    | question g rows search S Hg ].
  - intros [].
  - intros [].
  - cbn [searches embedding_request]. intros [].
  - cbn [searches embedding_request search_call In]. intros [I|[]].
    injection I as <- <-. exists bodyJson, question, emb.
    repeat split; assumption.
  - now apply G with (1 := S).
  - now apply G with (1 := S).
  - apply G with (1 := S). cbn [searches qa_request].
    apply searches_fetch_events.
  - apply G with (1 := S). apply searches_fetch_events.
  - apply G with (1 := S). rewrite searches_app, searches_fetch_events.
    now destruct (AskQuestion.str_truthy _).
Qed.

(** *** Trimmed strings *)

Lemma trimStart_head (s : jsstring) c r :
  trimStart s = c :: r -> is_whitespace c = false.
Proof.
  induction s as [|d s IH]; simpl; [discriminate|].
  destruct (is_whitespace d) eqn:W; [assumption|].
  intros E. now injection E as <- _.
Qed.

Lemma last_rev_cons {A} (l : list A) (c d : A) : last (rev (c :: l)) d = c.
Proof. simpl. apply last_last. Qed.

Lemma trimmed_trim (s : jsstring) : trimmed (trim s) = true.
Proof.
  unfold trim, trimEnd.
  destruct (trimStart_suffix (rev (trimStart s))) as (p & E & B).
  destruct (trimStart (rev (trimStart s))) as [|c v] eqn:V; [reflexivity|].
  pose proof (trimStart_head _ _ _ V) as Wc.
  assert (U : trimStart s = rev (c :: v) ++ rev p).
  { rewrite <- rev_app_distr, <- E. now rewrite rev_involutive. }
  destruct (rev (c :: v)) as [|d u] eqn:R.
  { apply (f_equal (@List.length N)) in R. rewrite length_rev in R.
    discriminate. }
  unfold trimmed. rewrite <- R at 1. rewrite last_rev_cons, Wc.
  rewrite (trimStart_head _ _ _ U). reflexivity.
Qed.

(** *** What the question handler answers *)

Ltac handled_cases H :=
  destruct H as
    [ b0 Eb Hq0 | msg Hm | msg question Hm
    | msg question b0 emb Hm Eb Hq0 Hn He
    | question rows search S Hc | question g rows search answer score S Hc B
    | question g rows search text k S Hc Hk
    | question rows search text k S Hc Hk
    | question g rows search S Hg ].

(** X6.  The question handler never throws and never fails to answer: every
    request gets a response, and the effects of the run are added to those
    that came before.  A response with status 200 has no [error] field and
    says in [contextFound] whether sections were found; any other response
    has status 400, 500 or 502 and a body that is exactly an [error] field
    with a non-empty message. *)
Theorem ask_POST_always_replies (w : world) (request : parse_outcome)
    (t : trace) :
  exists r extra,
    AskQuestion.POST w request t = (Return r, t ++ extra)
    /\ ((reply_status r = 200
         /\ field "error" r = VUndefined
         /\ exists found, field "contextFound" r = VBool found)
        \/ (In (reply_status r) [400; 500; 502]
            /\ exists msg,
                 msg <> [] /\ reply_body r = AskQuestion.obj_error msg)).
Proof.
  destruct (POST_handled w request t) as (r & extra & E0 & H).
  exists r, extra. split; [exact E0|]. clear E0.
  handled_cases H.
  - right. split; [cbn; tauto|]. eexists. split; [|reflexivity]. discriminate.
  - right. split; [cbn; tauto|]. eauto.
  - right. split; [cbn; tauto|]. eauto.
  - right. split; [cbn; tauto|]. eauto.
  - left. repeat split. now exists false.
  - left. repeat split. now exists true.
  - left. repeat split. now exists true.
  - left. repeat split. now exists false.
  - right. split; [cbn; tauto|]. eexists. split; [|reflexivity]. discriminate.
Qed.

(** X7.  One question costs at most eight requests to the inference service
    (one embedding, one extraction, six generation attempts) and never a
    pause; the database is searched at most once, and only directly after
    the embedding request, which is then the first effect of the run. *)
Theorem ask_POST_effort (w : world) (request : parse_outcome) (t : trace) :
  exists o extra,
    AskQuestion.POST w request t = (o, t ++ extra)
    /\ (nfetch extra <= 8)%nat
    /\ sleep_total extra = 0
    /\ (searches extra = []
        \/ exists question fn args post,
             extra = embedding_request question :: EvRpc fn args :: post
             /\ searches post = []).
Proof.
  destruct (POST_handled w request t) as (r & extra & E0 & H).
  exists (Return r), extra. split; [exact E0|].
  exact (handled_effects _ _ _ _ _ H).
Qed.

Lemma call_trim_string w q question :
  AskQuestion.call_trim w (or_else q (VStr [])) = Return question ->
  question <> [] ->
  exists s, q = VStr s /\ question = trim s.
Proof.
  unfold or_else. destruct (truthy q) eqn:T.
  - destruct q; try discriminate. cbn. intros E _. injection E as <-. eauto.
  - cbn. intros E N. injection E as <-. now elim N.
Qed.

(** X8.  Whatever search the handler makes is the call of
    [match_filtered_email_sections] with the embedding of the trimmed
    question, a match count of 10, the threshold of the request when that
    is a number and -0.3 otherwise, and the mail filter of the request,
    [null] included, with "brandon@gmail.com" when the request names none. *)
Theorem ask_POST_search_arguments (w : world) (request : parse_outcome)
    (t : trace) :
  exists o extra,
    AskQuestion.POST w request t = (o, t ++ extra)
    /\ forall fn args,
         In (fn, args) (searches extra) ->
         exists bodyJson s emb,
           request = Parsed bodyJson
           /\ opt_prop bodyJson (lit "question") = VStr s
           /\ AskQuestion.getHfEmbedding w (trim s)
                AskQuestion.default_embedding_model t
              = (Return emb, t ++ [embedding_request (trim s)])
           /\ fn = lit "match_filtered_email_sections"
           /\ args =
              VObj [(lit "query_embedding", emb);
                    (lit "match_threshold",
                     match opt_prop bodyJson (lit "match_threshold") with
                     | VNum threshold => VNum threshold
                     | _ => VNum (-3 # 10)
                     end);
                    (lit "match_count", VNum (10 # 1));
                    (lit "email_address",
                     match opt_prop bodyJson (lit "email_filter") with
                     | VUndefined => VStr (lit "brandon@gmail.com")
                     | filter => filter
                     end)].
Proof.
  destruct (POST_handled w request t) as (r & extra & E0 & H).
  exists (Return r), extra. split; [exact E0|]. intros fn args I.
  destruct (handled_search _ _ _ _ _ _ _ H I)
    as (bodyJson & question & emb & -> & Hq & Hn & He & Hs).
  destruct (call_trim_string _ _ _ Hq Hn) as (s & Es & ->).
  exists bodyJson, s, emb. unfold search_call in Hs. injection Hs as -> ->.
  repeat split; try assumption.
  unfold AskQuestion.rpc_args, AskQuestion.matchThreshold_of,
    AskQuestion.emailFilter_of.
  now destruct (opt_prop bodyJson (lit "match_threshold")).
Qed.

(** X9.  The answer of a 200 response is [null], or a string that neither
    starts nor ends with white space; an answer tagged "extractive-qa" is
    never empty. *)
Theorem ask_POST_answers_trimmed (w : world) (request : parse_outcome)
    (t t' : trace) (r : reply) :
  AskQuestion.POST w request t = (Return r, t') ->
  reply_status r = 200 ->
  field "answer" r = VNull
  \/ exists answer,
       field "answer" r = VStr answer
       /\ trimmed answer = true
       /\ (source_tag r = VStr (lit "extractive-qa") -> answer <> []).
Proof.
  destruct (POST_handled w request t) as (r0 & extra & E0 & H).
  rewrite E0. intros E. injection E as -> _. clear E0.
  handled_cases H; intros St; try discriminate St.
  - now left.
  - right. exists (trim answer). repeat split; [apply trimmed_trim|].
    intros _. apply str_truthy_true. rewrite str_truthy_trim, B. reflexivity.
  - right. exists (trim text). repeat split; [apply trimmed_trim|].
    discriminate.
  - right. exists (trim text). repeat split; [apply trimmed_trim|].
    discriminate.
Qed.

Lemma ask_POST_answers_trimmed_witness :
  field "answer"
    (AskQuestion.extractive_reply (lit "INV-7") (VNum (91 # 100)))
  = VNull
  \/ exists answer,
       field "answer"
         (AskQuestion.extractive_reply (lit "INV-7") (VNum (91 # 100)))
       = VStr answer
       /\ trimmed answer = true
       /\ (source_tag
             (AskQuestion.extractive_reply (lit "INV-7") (VNum (91 # 100)))
           = VStr (lit "extractive-qa") -> answer <> []).
Proof.
  apply (ask_POST_answers_trimmed
           (scripted [respond 200 sample_vector;
                      respond 200 (answered "  INV-7 ")]
              (rows_found sample_rows))
           (ask "Which invoice is due?" false) []
           [embedding_request (lit "Which invoice is due?"); sample_search;
            qa_request (lit "Which invoice is due?") sample_context]);
    vm_compute; reflexivity.
Defined.

Lemma call_trim_missing w q :
  truthy q = false \/ (exists s, q = VStr s /\ blank s = true) ->
  AskQuestion.call_trim w (or_else q (VStr [])) = Return [].
Proof.
  unfold or_else. intros [F|(s & -> & B)].
  - now rewrite F.
  - cbn [truthy]. destruct s as [|c s]; [reflexivity|].
    cbn [AskQuestion.call_trim]. now rewrite (trim_blank _ B).
Qed.

Lemma call_trim_missing_inv w q :
  AskQuestion.call_trim w (or_else q (VStr [])) = Return [] ->
  truthy q = false \/ (exists s, q = VStr s /\ blank s = true).
Proof.
  unfold or_else. destruct (truthy q) eqn:T; [|now left].
  destruct q; try discriminate. cbn. intros E. injection E as E.
  right. eexists. split; [reflexivity|now apply trim_nil_blank].
Qed.

(** X10.  A request is answered with status 400 exactly when it carries no
    question: the [question] of the body is missing or falsy (the body may
    be [null] or no object at all), or is a string of white space only.
    The 400 response is the "Missing question" error and comes without any
    request, search or pause. *)
Theorem ask_POST_missing_question (w : world) (bodyJson : value) (t : trace) :
  exists r extra,
    AskQuestion.POST w (Parsed bodyJson) t = (Return r, t ++ extra)
    /\ (reply_status r = 400
        <-> (truthy (opt_prop bodyJson (lit "question")) = false
             \/ exists s,
                  opt_prop bodyJson (lit "question") = VStr s
                  /\ blank s = true))
    /\ (reply_status r = 400 ->
        r = mkReply 400 (AskQuestion.obj_error (lit "Missing question"))
        /\ extra = []).
Proof.
  destruct (AskQuestion.call_trim w
              (or_else (opt_prop bodyJson (lit "question")) (VStr [])))
    as [[|c q]|e] eqn:Hq.
  - exists (mkReply 400 (AskQuestion.obj_error (lit "Missing question"))), [].
    split; [|split].
    + unfold AskQuestion.POST, try_catch. unfold bind at 1. unfold lift at 1.
      cbn [AskQuestion.request_json]. unfold bind at 1. unfold lift at 1.
      rewrite Hq, app_nil_r. reflexivity.
    + split; [intros _; now apply call_trim_missing_inv with (w := w)|].
      reflexivity.
    + now split.
  - destruct (POST_handled w (Parsed bodyJson) t) as (r & extra & E0 & H).
    exists r, extra. split; [exact E0|].
    assert (N : reply_status r <> 400).
    { handled_cases H; try discriminate.
      injection Eb as <-. rewrite Hq in Hq0. discriminate. }
    split; [|intros St; now elim N]. split; [intros St; now elim N|].
    intros C. apply (call_trim_missing w) in C. rewrite Hq in C.
    discriminate.
  - destruct (POST_handled w (Parsed bodyJson) t) as (r & extra & E0 & H).
    exists r, extra. split; [exact E0|].
    assert (N : reply_status r <> 400).
    { handled_cases H; try discriminate.
      injection Eb as <-. rewrite Hq in Hq0. discriminate. }
    split; [|intros St; now elim N]. split; [intros St; now elim N|].
    intros C. apply (call_trim_missing w) in C. rewrite Hq in C.
    discriminate.
Qed.

(** X11.  A question that is truthy but no string (a number, [true], an
    array, an object) is not refused as missing: calling [trim] on it
    throws, and the request is answered with status 500 and the message of
    that TypeError, without any request or search. *)
Theorem ask_POST_question_not_a_string (w : world) (bodyJson : value)
    (t : trace) :
  truthy (opt_prop bodyJson (lit "question")) = true ->
  is_string (opt_prop bodyJson (lit "question")) = false ->
  AskQuestion.POST w (Parsed bodyJson) t
  = (Return
       (mkReply 500
          (AskQuestion.obj_error
             (if AskQuestion.str_truthy (trim_is_not_a_function w)
              then trim_is_not_a_function w
              else lit "Failed to generate response"))),
     t).
Proof.
  intros T S.
  unfold AskQuestion.POST, try_catch. unfold bind at 1. unfold lift at 1.
  cbn [AskQuestion.request_json]. unfold bind at 1. unfold lift at 1.
  unfold or_else. rewrite T.
  destruct (opt_prop bodyJson (lit "question")); try discriminate;
    reflexivity.
Qed.

Lemma ask_POST_question_not_a_string_witness :
  AskQuestion.POST (scripted [] (rows_found []))
    (Parsed (VObj [(lit "question", VNum (42 # 1))])) []
  = (Return
       (mkReply 500
          (AskQuestion.obj_error
             (lit "(intermediate value).trim is not a function"))),
     []).
Proof.
  apply (ask_POST_question_not_a_string (scripted [] (rows_found []))
           (VObj [(lit "question", VNum (42 # 1))]) []); reflexivity.
Defined.

Lemma POST_with_question w bodyJson s t :
  opt_prop bodyJson (lit "question") = VStr s ->
  blank s = false ->
  AskQuestion.POST w (Parsed bodyJson) t
  = try_catch
      (questionEmbedding <-
         AskQuestion.getHfEmbedding w (trim s)
           AskQuestion.default_embedding_model ;;
       r <- do_rpc w AskQuestion.search_fn
              (AskQuestion.rpc_args questionEmbedding
                 (AskQuestion.matchThreshold_of bodyJson)
                 (AskQuestion.emailFilter_of bodyJson)) ;;
       match error r with
       | Some msg =>
           throw (Error (if AskQuestion.str_truthy msg then msg
                         else lit "Supabase RPC failed"))
       | None =>
           AskQuestion.answer_stage w (trim s)
             (AskQuestion.build_context (data r))
             (AskQuestion.generateIfNoContext_of bodyJson)
       end)
      (fun err =>
         ret (mkReply 500
                (AskQuestion.obj_error
                   (if AskQuestion.str_truthy (message err) then message err
                    else lit "Failed to generate response")))) t.
Proof.
  intros Q B.
  assert (T : AskQuestion.str_truthy (trim s) = true)
    by now rewrite str_truthy_trim, B.
  assert (S : s <> []) by (intros ->; discriminate).
  unfold AskQuestion.POST, try_catch. unfold bind at 1. unfold lift at 1.
  cbn [AskQuestion.request_json]. unfold bind at 1. unfold lift at 1.
  rewrite Q. unfold or_else. cbn [truthy].
  destruct s as [|c s]; [now elim S|]. cbn [AskQuestion.call_trim].
  rewrite T. reflexivity.
Qed.

Lemma list_not_longer {A} (l : list A) (x : A) : l <> l ++ [x].
Proof.
  intros E. apply (f_equal (@List.length A)) in E.
  rewrite length_app in E. simpl in E. lia.
Qed.

(** X12.  Without the access token no question is answered and nothing is
    requested or searched: the response has status 400 or 500, and a
    request that carries a question gets status 500 with the message
    "HF_API_KEY not set". *)
Theorem ask_POST_without_key (w : world) (request : parse_outcome)
    (t : trace) :
  key_missing w = true ->
  exists r,
    AskQuestion.POST w request t = (Return r, t)
    /\ (reply_status r = 400 \/ reply_status r = 500)
    /\ forall bodyJson s,
         request = Parsed bodyJson ->
         opt_prop bodyJson (lit "question") = VStr s ->
         blank s = false ->
         r = mkReply 500 (AskQuestion.obj_error (lit "HF_API_KEY not set")).
Proof.
  intros K.
  assert (G : forall bodyJson s,
             opt_prop bodyJson (lit "question") = VStr s ->
             blank s = false ->
             AskQuestion.POST w (Parsed bodyJson) t
             = (Return (mkReply 500
                          (AskQuestion.obj_error (lit "HF_API_KEY not set"))),
                t)).
  { intros bodyJson s Q B. rewrite (POST_with_question _ _ _ _ Q B).
    unfold try_catch, bind, AskQuestion.getHfEmbedding. rewrite K.
    reflexivity. }
  destruct (POST_handled w request t) as (r & extra & E0 & H).
  assert (X : extra = [] /\ (reply_status r = 400 \/ reply_status r = 500)).
  { handled_cases H;
      try (apply searched_key in S; congruence);
      try (split; [reflexivity|cbn; tauto]).
    - pose proof (ask_getHfEmbedding_throws w question t) as _.
      destruct request as [bodyJson|why].
      + destruct (AskQuestion.call_trim w
                    (or_else (opt_prop bodyJson (lit "question")) (VStr [])))
          as [[|c q]|e] eqn:Hq.
        * revert E0. unfold AskQuestion.POST, try_catch. unfold bind at 1.
          unfold lift at 1. cbn [AskQuestion.request_json].
          unfold bind at 1. unfold lift at 1. rewrite Hq.
          cbn [AskQuestion.str_truthy negb ret]. intros E0.
          apply (f_equal snd) in E0. now apply list_not_longer in E0.
        * destruct (call_trim_string _ _ _ Hq ltac:(discriminate))
            as (s & Es & Et).
          assert (B : blank s = false).
          { destruct (blank s) eqn:B; [|reflexivity].
            rewrite (trim_blank _ B) in Et. discriminate. }
          rewrite (G _ _ Es B) in E0.
          apply (f_equal snd) in E0. now apply list_not_longer in E0.
        * revert E0. unfold AskQuestion.POST, try_catch. unfold bind at 1.
          unfold lift at 1. cbn [AskQuestion.request_json].
          unfold bind at 1. unfold lift at 1. rewrite Hq.
          cbn [ret]. intros E0.
          apply (f_equal snd) in E0. now apply list_not_longer in E0.
      + revert E0. unfold AskQuestion.POST, try_catch, bind, lift.
        cbn [AskQuestion.request_json ret]. intros E0.
        apply (f_equal snd) in E0. now apply list_not_longer in E0.
    - revert He. unfold AskQuestion.getHfEmbedding. rewrite K. discriminate. }
  destruct X as [-> St]. rewrite app_nil_r in E0.
  exists r. split; [exact E0|]. split; [exact St|].
  intros bodyJson s -> Q B. rewrite (G _ _ Q B) in E0. now injection E0.
Qed.

Lemma ask_POST_without_key_witness :
  exists r,
    AskQuestion.POST keyless (ask "Which invoice is due?" true) []
    = (Return r, [])
    /\ (reply_status r = 400 \/ reply_status r = 500)
    /\ forall bodyJson s,
         ask "Which invoice is due?" true = Parsed bodyJson ->
         opt_prop bodyJson (lit "question") = VStr s ->
         blank s = false ->
         r = mkReply 500 (AskQuestion.obj_error (lit "HF_API_KEY not set")).
Proof.
  apply (ask_POST_without_key keyless (ask "Which invoice is due?" true) []).
  reflexivity.
Defined.

(** X13.  When the inference service answers the embedding request with a
    status outside 200-299, the question is answered with status 500, the
    upstream status and body are passed on in the error message, and the
    run ends there: one request, no search. *)
Theorem ask_POST_embedding_failure (w : world) (bodyJson : value)
    (s : jsstring) (t : trace) (resp : response) :
  key_missing w = false ->
  opt_prop bodyJson (lit "question") = VStr s ->
  blank s = false ->
  fetch w (nfetch t)
    (hf_models ++ lit "sentence-transformers%2Fall-MiniLM-L6-v2"
     ++ lit "/pipeline/feature-extraction")
    (VObj [(lit "inputs", VStr (trim s))])
  = Responded resp ->
  ok resp = false ->
  AskQuestion.POST w (Parsed bodyJson) t
  = (Return
       (mkReply 500
          (AskQuestion.obj_error
             (lit "HF embedding error: " ++ string_of_Z (status resp)
              ++ lit " " ++ body_text resp))),
     t ++ [embedding_request (trim s)]).
Proof.
  intros K Q B F O. rewrite (POST_with_question _ _ _ _ Q B).
  unfold try_catch, bind.
  rewrite (ask_getHfEmbedding_no_retry w (trim s) _ _ t resp K
             embedding_model_encoded F O).
  reflexivity.
Qed.

Lemma ask_POST_embedding_failure_witness :
  AskQuestion.POST
    (scripted [respond 503 (VObj [(lit "error", VStr (lit "loading"))])]
       (rows_found sample_rows))
    (ask " Which invoice is due? " true) []
  = (Return
       (mkReply 500
          (AskQuestion.obj_error
             (lit "HF embedding error: " ++ string_of_Z 503 ++ lit " "
              ++ sample_stringify
                   (VObj [(lit "error", VStr (lit "loading"))])))),
     [] ++ [embedding_request (trim (lit " Which invoice is due? "))]).
Proof.
  apply (ask_POST_embedding_failure
           (scripted [respond 503 (VObj [(lit "error", VStr (lit "loading"))])]
              (rows_found sample_rows))
           (ask_body " Which invoice is due? " true)
           (lit " Which invoice is due? ") []
           (mkResponse 503
              (sample_stringify (VObj [(lit "error", VStr (lit "loading"))]))
              (Parsed (VObj [(lit "error", VStr (lit "loading"))]))));
    reflexivity.
Defined.

(** X14.  When the search comes back with an error, the question is
    answered with status 500 and the message of that error, or "Supabase RPC
    failed" when the error has none; no answer engine is called, whatever
    rows came with the error. *)
Theorem ask_POST_search_error (w : world) (bodyJson : value) (s : jsstring)
    (t t' : trace) (emb : value) (msg : jsstring) :
  opt_prop bodyJson (lit "question") = VStr s ->
  blank s = false ->
  AskQuestion.getHfEmbedding w (trim s) AskQuestion.default_embedding_model t
  = (Return emb, t') ->
  error (rpc w AskQuestion.search_fn
           (AskQuestion.rpc_args emb (AskQuestion.matchThreshold_of bodyJson)
              (AskQuestion.emailFilter_of bodyJson)))
  = Some msg ->
  AskQuestion.POST w (Parsed bodyJson) t
  = (Return
       (mkReply 500
          (AskQuestion.obj_error
             (if AskQuestion.str_truthy msg then msg
              else lit "Supabase RPC failed"))),
     t ++ [embedding_request (trim s); search_call bodyJson emb]).
Proof.
  intros Q B He Hr. rewrite (POST_with_question _ _ _ _ Q B).
  pose proof (getHfEmbedding_trace _ _ _ _ _ He) as ->.
  unfold try_catch. unfold bind at 1. rewrite He. unfold bind at 1.
  unfold do_rpc. rewrite Hr. unfold throw, ret, search_call.
  rewrite <- (app_assoc t). cbn [app message].
  now destruct msg.
Qed.

Lemma ask_POST_search_error_witness :
  AskQuestion.POST
    (scripted [respond 200 sample_vector] (search_refused "permission denied"))
    (ask "Which invoice is due?" true) []
  = (Return
       (mkReply 500
          (AskQuestion.obj_error
             (if AskQuestion.str_truthy (lit "permission denied")
              then lit "permission denied"
              else lit "Supabase RPC failed"))),
     [] ++ [embedding_request (trim (lit "Which invoice is due?"));
            search_call (ask_body "Which invoice is due?" true)
              sample_vector]).
Proof.
  apply (ask_POST_search_error
           (scripted [respond 200 sample_vector]
              (search_refused "permission denied"))
           (ask_body "Which invoice is due?" true)
           (lit "Which invoice is due?") []
           [embedding_request (lit "Which invoice is due?")]
           sample_vector (lit "permission denied"));
    reflexivity.
Defined.

(** ** The answer engines on their own *)



(** X16.  Reading the text of a generation response fails on exactly the
    bodies that are [null] or arrays starting with [null]; every other body
    of a 2xx response is taken as generated text, be it an error object or
    an empty array, which are passed on as the first 4000 characters of
    their JSON text. *)
Theorem extract_text_total_but_null (w : world) (json : value) :
  ((exists text, AskQuestion.extract_text w json = Return text)
   <-> null_headed json = false)
  /\ (forall fields,
        json = VObj fields ->
        is_string (lookup (lit "generated_text") fields) = false ->
        AskQuestion.extract_text w json
        = Return (slice0 4000 (JSON_stringify w json)))
  /\ (json = VArr [] ->
      AskQuestion.extract_text w json
      = Return (slice0 4000 (JSON_stringify w json))).
Proof.
  unfold AskQuestion.extract_text.
  generalize (slice0 4000 (JSON_stringify w json)). intros dump.
  split; [|split].
  - destruct json as [| |b|q|s|xs|fs].
    + split; [intros [text E]|]; discriminate.
    + split; [intros [text E]|]; discriminate.
    + split; [reflexivity|]. intros _. cbn. eauto.
    + split; [reflexivity|]. intros _. cbn. eauto.
    + split; [reflexivity|]. intros _.
      cbn [isArray andb prop obind].
      destruct (jsstring_eqb _ _); cbn; eauto.
    + destruct xs as [|x xs']; [split; [reflexivity|]; intros _; cbn; eauto|].
      cbn [isArray length_of opt_prop prop andb at0 elem0 List.length].
      change (jsstring_eqb (lit "length") (lit "length")) with true.
      cbv iota.
      assert (T : truthy (num_of_nat (S (List.length xs'))) = true).
      { unfold num_of_nat, truthy. apply negb_true_iff.
        apply not_true_is_false. intros E. apply Qeq_bool_iff in E.
        unfold Qeq in E. simpl in E. lia. }
      rewrite T.
      change (jsstring_eqb (lit "generated_text") (lit "length")) with false.
      cbv iota. cbn [obind].
      destruct x as [| |b|q|s|ys|gs];
        try (split; [intros [text E]|]; discriminate);
        split; try reflexivity; intros _; cbn [prop obind null_headed].
      * eauto.
      * eauto.
      * destruct (jsstring_eqb (lit "generated_text") (lit "length"));
          destruct (jsstring_eqb (lit "text") (lit "length")); cbn; eauto.
      * destruct (jsstring_eqb (lit "generated_text") (lit "length"));
          destruct (jsstring_eqb (lit "text") (lit "length")); cbn; eauto.
      * destruct (lookup (lit "generated_text") gs); eauto;
          destruct (lookup (lit "text") gs); eauto.
    + split; [reflexivity|]. intros _. cbn [isArray andb prop obind].
      destruct (lookup (lit "generated_text") fs) as [| | | |[|c s]| |];
        eauto.
  - intros fields -> S. cbn [isArray andb prop obind].
    destruct (lookup (lit "generated_text") fields) as [| | | |s| |];
      try reflexivity; discriminate.
  - intros ->. reflexivity.
Qed.

Lemma extract_text_total_but_null_witness :
  AskQuestion.extract_text (scripted [] (rows_found []))
    (VObj [(lit "error", VStr (lit "loading"))])
  = Return
      (slice0 4000
         (JSON_stringify (scripted [] (rows_found []))
            (VObj [(lit "error", VStr (lit "loading"))]))).
Proof.
  apply (proj1 (proj2 (extract_text_total_but_null
                         (scripted [] (rows_found []))
                         (VObj [(lit "error", VStr (lit "loading"))])))
           [(lit "error", VStr (lit "loading"))]);
    reflexivity.
Defined.

(** X17.  The fourth test of the text2text branch (line 139) repeats the
    first and is never reached with a different outcome: both pipelines read
    a response body in the same way. *)
Theorem text2text_reads_like_text_generation (w : world) (json : value) :
  AskQuestion.extract_text2 w json = AskQuestion.extract_text w json.
Proof. apply extract_text2_eq. Qed.

(** X18.  The two copies of the embedding client accept the same bodies and
    read the same vector from them: the extra length test of the
    store-email copy changes nothing, because an array whose first element
    is a number is not empty. *)
Theorem embedding_clients_read_alike (w : world) (json v : value) :
  AskQuestion.normalize json = Return v
  <-> StoreEmail.normalize w json = Return v.
Proof.
  rewrite ask_normalize_first_match, store_normalize_first_match.
  destruct json; try tauto;
    destruct (first_match shapes_in_order _); split; congruence.
Qed.

(** ** The embedding client of the store-email route *)


Lemma attempt_body_cases w url body a t :
  exists r tail,
    StoreEmail.attempt_body w url body a t
    = (Return r, t ++ EvFetch url body :: tail)
    /\ ((exists v, r = StoreEmail.Returned v /\ tail = []
                   /\ decoded_from w (nfetch t) url body v)
        \/ (r = StoreEmail.Continue /\ tail = [EvSleep (300 * a)])
        \/ (r = StoreEmail.Continue /\ a <> StoreEmail.maxAttempts
            /\ tail = [EvSleep (250 * a)])
        \/ (r = StoreEmail.Break /\ a = StoreEmail.maxAttempts /\ tail = [])).
Proof.
  assert (C : forall t',
             (if a =? StoreEmail.maxAttempts then ret StoreEmail.Break
              else sleep (250 * a) ;;; ret StoreEmail.Continue)
               (t' ++ [EvFetch url body])
             = (Return (if a =? StoreEmail.maxAttempts then StoreEmail.Break
                        else StoreEmail.Continue),
                t' ++ EvFetch url body
                   :: (if a =? StoreEmail.maxAttempts then []
                       else [EvSleep (250 * a)]))).
  { intros t'. destruct (a =? StoreEmail.maxAttempts); [reflexivity|].
    unfold bind, sleep, ret. now rewrite <- (app_assoc t'). }
  assert (D : exists r tail,
             (Return (if a =? StoreEmail.maxAttempts then StoreEmail.Break
                      else StoreEmail.Continue),
              t ++ EvFetch url body
                 :: (if a =? StoreEmail.maxAttempts then []
                     else [EvSleep (250 * a)]))
             = (Return r, t ++ EvFetch url body :: tail)
             /\ ((exists v, r = StoreEmail.Returned v /\ tail = []
                            /\ decoded_from w (nfetch t) url body v)
                 \/ (r = StoreEmail.Continue /\ tail = [EvSleep (300 * a)])
                 \/ (r = StoreEmail.Continue /\ a <> StoreEmail.maxAttempts
                     /\ tail = [EvSleep (250 * a)])
                 \/ (r = StoreEmail.Break /\ a = StoreEmail.maxAttempts
                     /\ tail = []))).
  { destruct (a =? StoreEmail.maxAttempts) eqn:A; do 2 eexists;
      (split; [reflexivity|]).
    - apply Z.eqb_eq in A. now right; right; right.
    - apply Z.eqb_neq in A. now right; right; left. }
  unfold StoreEmail.attempt_body, try_catch. unfold bind at 1. unfold do_fetch.
  destruct (fetch w (nfetch t) url body) as [resp|e] eqn:F.
  2:{ rewrite C. exact D. }
  destruct (ok resp) eqn:O; cbn [negb].
  - unfold bind at 1. unfold lift at 1.
    destruct (parsed resp) as [json|why] eqn:P.
    2:{ rewrite C. exact D. }
    unfold bind, lift.
    destruct (StoreEmail.normalize w json) as [v|e] eqn:N.
    2:{ rewrite C. exact D. }
    do 2 eexists. split; [reflexivity|]. left. exists v.
    repeat split. now exists resp, json.
  - destruct ((status resp =? 429) || (status resp >=? 500)).
    + unfold bind, sleep, ret. rewrite <- (app_assoc t).
      do 2 eexists. split; [reflexivity|]. now right; left.
    + unfold throw. rewrite C. exact D.
Qed.

Ltac split_ands := repeat match goal with |- _ /\ _ => split end.

(** The attempts at one endpoint, [n] of them left and attempt [4 - n] the
    next one. *)
Lemma attempts_cases w url body : forall n a t,
  (n <= 3)%nat -> a = 4 - Z.of_nat n ->
  exists r extra,
    StoreEmail.attempts w url body n a t = (Return r, t ++ extra)
    /\ (nfetch extra <= n)%nat
    /\ fetched_urls extra = repeat url (nfetch extra)
    /\ searches extra = []
    /\ 0 <= sleep_total extra <= 150 * (7 - Z.of_nat n) * Z.of_nat n
    /\ match r with
       | None => nfetch extra = n
       | Some v =>
           exists pre,
             extra = pre ++ [EvFetch url body]
             /\ decoded_from w (nfetch t + nfetch pre) url body v
       end.
Proof.
  induction n as [|n IH]; intros a t Hn Ha.
  - exists None, []. cbn [StoreEmail.attempts]. unfold ret.
    rewrite app_nil_r. split_ands; try reflexivity; unfold nfetch; simpl; lia.
  - cbn [StoreEmail.attempts]. unfold bind at 1.
    destruct (attempt_body_cases w url body a t)
      as (r & tail & -> & [(v & -> & -> & Dv)|[(-> & ->)|[(-> & Ha' & ->)
                                                         |(-> & Ha' & ->)]]]).
    + exists (Some v), [EvFetch url body]. unfold ret.
      split_ands; try (unfold nfetch; simpl; lia); try reflexivity;
        try (cbn [sleep_total]; nia).
      exists []. simpl. split; [reflexivity|]. now rewrite Nat.add_0_r.
    + destruct (IH (a + 1) (t ++ [EvFetch url body; EvSleep (300 * a)]))
        as (r & extra & E & Nf & Fu & Se & Sl & R); [lia|lia|].
      exists r, ([EvFetch url body; EvSleep (300 * a)] ++ extra).
      rewrite E, <- (app_assoc t). split; [reflexivity|].
      rewrite nfetch_app, fetched_urls_app, searches_app, sleep_total_app.
      change (nfetch [EvFetch url body; EvSleep (300 * a)]) with 1%nat.
      cbn [fetched_urls searches sleep_total app repeat Nat.add].
      split_ands; try lia.
      * now f_equal.
      * assumption.
      * destruct r as [v|]; [|lia].
        destruct R as (pre & -> & Dv).
        exists ([EvFetch url body; EvSleep (300 * a)] ++ pre).
        split; [now rewrite <- app_assoc|].
        rewrite !nfetch_app in *.
        change (nfetch [EvFetch url body; EvSleep (300 * a)]) with 1%nat
          in *.
        now rewrite Nat.add_assoc.
    + destruct (IH (a + 1) (t ++ [EvFetch url body; EvSleep (250 * a)]))
        as (r & extra & E & Nf & Fu & Se & Sl & R); [lia|lia|].
      exists r, ([EvFetch url body; EvSleep (250 * a)] ++ extra).
      rewrite E, <- (app_assoc t). split; [reflexivity|].
      rewrite nfetch_app, fetched_urls_app, searches_app, sleep_total_app.
      change (nfetch [EvFetch url body; EvSleep (250 * a)]) with 1%nat.
      cbn [fetched_urls searches sleep_total app repeat Nat.add].
      split_ands; try lia.
      * now f_equal.
      * assumption.
      * destruct r as [v|]; [|lia].
        destruct R as (pre & -> & Dv).
        exists ([EvFetch url body; EvSleep (250 * a)] ++ pre).
        split; [now rewrite <- app_assoc|].
        rewrite !nfetch_app in *.
        change (nfetch [EvFetch url body; EvSleep (250 * a)]) with 1%nat
          in *.
        now rewrite Nat.add_assoc.
    + exists None, [EvFetch url body]. unfold ret.
      unfold StoreEmail.maxAttempts in Ha'.
      split_ands; try (unfold nfetch; simpl; lia); try reflexivity;
        try (cbn [sleep_total]; nia).
Qed.

Lemma store_client_cases w text model enc t :
  key_missing w = false ->
  encodeURIComponent model = Some enc ->
  exists o extra i j,
    StoreEmail.getHfEmbedding w text model t = (o, t ++ extra)
    /\ fetched_urls extra
       = repeat (StoreEmail.urlPrimary enc) i
         ++ repeat (StoreEmail.urlFallback enc) j
    /\ (i <= 3)%nat /\ (j <= 3)%nat /\ (0 < j -> i = 3)%nat
    /\ nfetch extra = (i + j)%nat
    /\ searches extra = []
    /\ 0 <= sleep_total extra <= 3600
    /\ match o with
       | Return v =>
           exists pre url,
             extra = pre ++ [EvFetch url (VObj [(lit "inputs", VStr text)])]
             /\ decoded_from w (nfetch t + nfetch pre) url
                  (VObj [(lit "inputs", VStr text)]) v
       | Throw e => e = failed_with_any_endpoint /\ i = 3%nat /\ j = 3%nat
       end.
Proof.
  intros K He. unfold StoreEmail.getHfEmbedding. rewrite K, He.
  set (body := VObj [(lit "inputs", VStr text)]).
  cbn [StoreEmail.endpoints]. unfold bind at 1.
  change (Z.to_nat StoreEmail.maxAttempts) with 3%nat.
  destruct (attempts_cases w (StoreEmail.urlPrimary enc) body 3 1 t)
    as (r1 & extra1 & -> & N1 & F1 & S1 & L1 & R1); [lia|reflexivity|].
  destruct r1 as [v|].
  - destruct R1 as (pre & -> & Dv).
    exists (Return v), (pre ++ [EvFetch (StoreEmail.urlPrimary enc) body]),
      (nfetch (pre ++ [EvFetch (StoreEmail.urlPrimary enc) body])), 0%nat.
    unfold ret. split_ands; try lia; try assumption; try reflexivity.
    + cbn [repeat]. now rewrite app_nil_r.
    + now eauto.
  - unfold bind at 1.
    destruct (attempts_cases w (StoreEmail.urlFallback enc) body 3 1
                (t ++ extra1))
      as (r2 & extra2 & -> & N2 & F2 & S2 & L2 & R2); [lia|reflexivity|].
    rewrite <- (app_assoc t).
    exists (match r2 with
            | Some v => Return v
            | None => Throw failed_with_any_endpoint
            end), (extra1 ++ extra2), 3%nat, (nfetch extra2).
    rewrite fetched_urls_app, nfetch_app, searches_app, sleep_total_app,
      F1, F2, S1, S2, R1.
    change (Z.of_nat 3) with 3 in L1, L2.
    split_ands; try lia; try reflexivity.
    + now destruct r2.
    + destruct r2 as [v|].
      * destruct R2 as (pre & -> & Dv).
        exists (extra1 ++ pre), (StoreEmail.urlFallback enc).
        split; [now rewrite <- app_assoc|].
        rewrite nfetch_app in *. now rewrite Nat.add_assoc.
      * now split_ands.
Qed.

Lemma store_client_effort (w : world) (text model : jsstring) (t : trace) :
  exists o extra,
    StoreEmail.getHfEmbedding w text model t = (o, t ++ extra)
    /\ (nfetch extra <= 6)%nat
    /\ 0 <= sleep_total extra <= 3600
    /\ searches extra = [].
Proof.
  destruct (key_missing w) eqn:K.
  { unfold StoreEmail.getHfEmbedding. rewrite K.
    exists (Throw (Error (lit "HF_API_KEY not set in environment"))), [].
    split; [unfold throw; now rewrite app_nil_r|].
    split_ands; try reflexivity; unfold nfetch; simpl; lia. }
  destruct (encodeURIComponent model) as [enc|] eqn:He.
  2:{ unfold StoreEmail.getHfEmbedding. rewrite K, He.
      exists (Throw (URIError (lit "URI malformed"))), [].
      split; [unfold throw; now rewrite app_nil_r|].
      split_ands; try reflexivity; unfold nfetch; simpl; lia. }
  destruct (store_client_cases w text model enc t K He)
    as (o & extra & i & j & E & _ & Hi & Hj & _ & N & S & L & _).
  exists o, extra. split_ands; try assumption; lia.
Qed.

(** X19.  Embedding one chunk costs at most six requests (three to each of
    the two endpoints) and at most 3.6 seconds of pauses; the client never
    touches the database. *)
Theorem store_getHfEmbedding_effort (w : world) (text model : jsstring)
    (t : trace) :
  exists o extra,
    StoreEmail.getHfEmbedding w text model t = (o, t ++ extra)
    /\ (nfetch extra <= 6)%nat
    /\ 0 <= sleep_total extra <= 3600
    /\ searches extra = [].
Proof. apply store_client_effort. Qed.

(** X20.  The requests of the client go to the primary endpoint first and
    to the fallback endpoint afterwards, at most three times each, and the
    fallback endpoint is only asked once the primary endpoint has been asked
    three times. *)
Theorem store_getHfEmbedding_endpoint_order (w : world)
    (text model enc : jsstring) (t : trace) :
  encodeURIComponent model = Some enc ->
  exists o extra i j,
    StoreEmail.getHfEmbedding w text model t = (o, t ++ extra)
    /\ fetched_urls extra
       = repeat (StoreEmail.urlPrimary enc) i
         ++ repeat (StoreEmail.urlFallback enc) j
    /\ (i <= 3)%nat /\ (j <= 3)%nat /\ (0 < j -> i = 3)%nat.
Proof.
  intros He. destruct (key_missing w) eqn:K.
  { unfold StoreEmail.getHfEmbedding. rewrite K.
    exists (Throw (Error (lit "HF_API_KEY not set in environment"))), [],
      0%nat, 0%nat.
    split; [unfold throw; now rewrite app_nil_r|].
    split_ands; try reflexivity; lia. }
  destruct (store_client_cases w text model enc t K He)
    as (o & extra & i & j & E & F & Hi & Hj & Hij & _).
  exists o, extra, i, j. now split_ands.
Qed.

Lemma store_getHfEmbedding_endpoint_order_witness :
  exists o extra i j,
    StoreEmail.getHfEmbedding
      (scripted [respond 404 VNull; respond 404 VNull; respond 404 VNull;
                 respond 200 sample_vector] (rows_found []))
      (lit "Invoice INV-7 is due.") AskQuestion.default_embedding_model []
    = (o, [] ++ extra)
    /\ fetched_urls extra
       = repeat
           (StoreEmail.urlPrimary
              (lit "sentence-transformers%2Fall-MiniLM-L6-v2")) i
         ++ repeat
              (StoreEmail.urlFallback
                 (lit "sentence-transformers%2Fall-MiniLM-L6-v2")) j
    /\ (i <= 3)%nat /\ (j <= 3)%nat /\ (0 < j -> i = 3)%nat.
Proof.
  apply (store_getHfEmbedding_endpoint_order
           (scripted [respond 404 VNull; respond 404 VNull; respond 404 VNull;
                      respond 200 sample_vector] (rows_found []))
           (lit "Invoice INV-7 is due.") AskQuestion.default_embedding_model
           (lit "sentence-transformers%2Fall-MiniLM-L6-v2") []).
  vm_compute. reflexivity.
Defined.

(** X21.  The client fails in three ways only.  Without the access token
    and with a model name that cannot be encoded it throws before any
    request.  Otherwise it throws the one error "Failed to fetch embedding
    from Hugging Face with any endpoint", after exactly six requests: the
    status and body of the failed responses never reach the caller. *)
Theorem store_getHfEmbedding_errors (w : world) (text model : jsstring)
    (t t' : trace) (e : exn) :
  StoreEmail.getHfEmbedding w text model t = (Throw e, t') ->
  (key_missing w = true
   /\ e = Error (lit "HF_API_KEY not set in environment") /\ t' = t)
  \/ (encodeURIComponent model = None
      /\ e = URIError (lit "URI malformed") /\ t' = t)
  \/ (e = failed_with_any_endpoint
      /\ exists extra, t' = t ++ extra /\ nfetch extra = 6%nat).
Proof.
  destruct (key_missing w) eqn:K.
  { unfold StoreEmail.getHfEmbedding. rewrite K. intros E.
    injection E as <- <-. now left. }
  destruct (encodeURIComponent model) as [enc|] eqn:He.
  2:{ unfold StoreEmail.getHfEmbedding. rewrite K, He. intros E.
      injection E as <- <-. now right; left. }
  destruct (store_client_cases w text model enc t K He)
    as (o & extra & i & j & -> & _ & _ & _ & _ & N & _ & _ & R).
  intros E. injection E as -> <-. destruct R as (-> & -> & ->).
  right; right. split; [reflexivity|]. now exists extra.
Qed.

Lemma store_getHfEmbedding_errors_witness :
  (key_missing (scripted [] (rows_found [])) = true
   /\ failed_with_any_endpoint
      = Error (lit "HF_API_KEY not set in environment")
   /\ [primary_request (lit "Invoice INV-7 is due."); EvSleep 250;
       primary_request (lit "Invoice INV-7 is due."); EvSleep 500;
       primary_request (lit "Invoice INV-7 is due.");
       fallback_request (lit "Invoice INV-7 is due."); EvSleep 250;
       fallback_request (lit "Invoice INV-7 is due."); EvSleep 500;
       fallback_request (lit "Invoice INV-7 is due.")]
      = [])
  \/ (encodeURIComponent AskQuestion.default_embedding_model = None
      /\ failed_with_any_endpoint = URIError (lit "URI malformed")
      /\ [primary_request (lit "Invoice INV-7 is due."); EvSleep 250;
          primary_request (lit "Invoice INV-7 is due."); EvSleep 500;
          primary_request (lit "Invoice INV-7 is due.");
          fallback_request (lit "Invoice INV-7 is due."); EvSleep 250;
          fallback_request (lit "Invoice INV-7 is due."); EvSleep 500;
          fallback_request (lit "Invoice INV-7 is due.")]
         = [])
  \/ (failed_with_any_endpoint = failed_with_any_endpoint
      /\ exists extra,
           [primary_request (lit "Invoice INV-7 is due."); EvSleep 250;
            primary_request (lit "Invoice INV-7 is due."); EvSleep 500;
            primary_request (lit "Invoice INV-7 is due.");
            fallback_request (lit "Invoice INV-7 is due."); EvSleep 250;
            fallback_request (lit "Invoice INV-7 is due."); EvSleep 500;
            fallback_request (lit "Invoice INV-7 is due.")]
           = [] ++ extra
           /\ nfetch extra = 6%nat).
Proof.
  apply (store_getHfEmbedding_errors (scripted [] (rows_found []))
           (lit "Invoice INV-7 is due.") AskQuestion.default_embedding_model
           []).
  vm_compute. reflexivity.
Defined.

(** X22.  A vector the client returns was decoded from the response to the
    last request of the run, which had a 2xx status; nothing happens after
    that request, no pause included. *)
Theorem store_getHfEmbedding_result (w : world) (text model : jsstring)
    (t t' : trace) (v : value) :
  StoreEmail.getHfEmbedding w text model t = (Return v, t') ->
  exists pre url,
    t' = t ++ pre ++ [EvFetch url (VObj [(lit "inputs", VStr text)])]
    /\ decoded_from w (nfetch t + nfetch pre) url
         (VObj [(lit "inputs", VStr text)]) v.
Proof.
  destruct (key_missing w) eqn:K.
  { unfold StoreEmail.getHfEmbedding. rewrite K. discriminate. }
  destruct (encodeURIComponent model) as [enc|] eqn:He.
  2:{ unfold StoreEmail.getHfEmbedding. rewrite K, He. discriminate. }
  destruct (store_client_cases w text model enc t K He)
    as (o & extra & i & j & -> & _ & _ & _ & _ & N & _ & _ & R).
  intros E. injection E as -> <-. destruct R as (pre & url & -> & Dv).
  now exists pre, url.
Qed.

Lemma store_getHfEmbedding_result_witness :
  exists pre url,
    [EvFetch
       (StoreEmail.urlPrimary (lit "sentence-transformers%2Fall-MiniLM-L6-v2"))
       (VObj [(lit "inputs", VStr (lit "Invoice INV-7 is due."))]);
     EvSleep 300;
     EvFetch
       (StoreEmail.urlPrimary (lit "sentence-transformers%2Fall-MiniLM-L6-v2"))
       (VObj [(lit "inputs", VStr (lit "Invoice INV-7 is due."))])]
    = [] ++ pre
         ++ [EvFetch url
               (VObj [(lit "inputs", VStr (lit "Invoice INV-7 is due."))])]
    /\ decoded_from
         (scripted [respond 503 VNull; respond 200 sample_vector]
            (rows_found []))
         (nfetch [] + nfetch pre) url
         (VObj [(lit "inputs", VStr (lit "Invoice INV-7 is due."))])
         sample_vector.
Proof.
  apply (store_getHfEmbedding_result
           (scripted [respond 503 VNull; respond 200 sample_vector]
              (rows_found []))
           (lit "Invoice INV-7 is due.") AskQuestion.default_embedding_model
           []).
  vm_compute. reflexivity.
Defined.

(** ** The store-email handler *)

Lemma inference_of_app (st u : StoreEmailHandler.store_trace) :
  StoreEmailHandler.inference_of (st ++ u)
  = StoreEmailHandler.inference_of st ++ StoreEmailHandler.inference_of u.
Proof.
  induction st as [|[e|rows|rows] st IH]; simpl;
    [reflexivity|now f_equal|assumption|assumption].
Qed.

Lemma inference_of_map (t : trace) :
  StoreEmailHandler.inference_of (map StoreEmailHandler.Inference t) = t.
Proof. induction t as [|e t IH]; simpl; [reflexivity|now f_equal]. Qed.

Lemma section_rows_app (st u : StoreEmailHandler.store_trace) :
  section_rows (st ++ u) = section_rows st ++ section_rows u.
Proof.
  induction st as [|[e|rows|rows] st IH]; simpl; try assumption;
    [reflexivity|].
  destruct rows as [| | | | |[|row [|row' rows]]|]; try assumption.
  simpl. now f_equal.
Qed.

Lemma section_rows_map (t : trace) :
  section_rows (map StoreEmailHandler.Inference t) = [].
Proof. induction t as [|e t IH]; simpl; [reflexivity|assumption]. Qed.

Lemma email_rows_app (st u : StoreEmailHandler.store_trace) :
  email_rows (st ++ u) = email_rows st ++ email_rows u.
Proof.
  induction st as [|[e|rows|rows] st IH]; simpl;
    [reflexivity|assumption|now f_equal|assumption].
Qed.

Lemma email_rows_map (t : trace) :
  email_rows (map StoreEmailHandler.Inference t) = [].
Proof. induction t as [|e t IH]; simpl; [reflexivity|assumption]. Qed.

Lemma run_client_grows {A} (m : M A) st o extra :
  m (StoreEmailHandler.inference_of st)
  = (o, StoreEmailHandler.inference_of st ++ extra) ->
  StoreEmailHandler.run_client m st
  = (o, st ++ map StoreEmailHandler.Inference extra).
Proof.
  intros E. unfold StoreEmailHandler.run_client. rewrite E.
  rewrite skipn_app, skipn_all, Nat.sub_diag. reflexivity.
Qed.

Lemma numbered_nil emailId chunks i : numbered emailId chunks [] i = [].
Proof. now destruct chunks. Qed.

(** The loop over the chunks: the rows it inserts are those of the chunks
    in order, for as many chunks as got an embedding. *)
Lemma store_chunks_cases w db emailId : forall chunks i st,
  exists o extra embeddings,
    StoreEmailHandler.store_chunks w db emailId chunks i st = (o, st ++ extra)
    /\ section_rows extra = numbered emailId chunks embeddings i
    /\ (List.length embeddings <= List.length chunks)%nat
    /\ Forall (fun embedding => isArray embedding = true) embeddings
    /\ email_rows extra = []
    /\ (nfetch (StoreEmailHandler.inference_of extra)
        <= 6 * List.length chunks)%nat
    /\ match o with
       | Return _ => List.length embeddings = List.length chunks
       | Throw _ => True
       end.
Proof.
  induction chunks as [|chunk rest IH]; intros i st.
  - exists (Return tt), [], []. cbn [StoreEmailHandler.store_chunks].
    unfold StoreEmailHandler.sret. rewrite app_nil_r.
    split_ands; try reflexivity; try apply Forall_nil; simpl; lia.
  - cbn [StoreEmailHandler.store_chunks].
    unfold StoreEmailHandler.sbind at 1.
    destruct (store_client_effort w chunk AskQuestion.default_embedding_model
                (StoreEmailHandler.inference_of st))
      as (o1 & extra1 & E1 & N1 & _ & _).
    rewrite (run_client_grows _ _ _ _ E1).
    assert (Stop : forall e,
               exists o extra embeddings,
                 (@Throw unit e,
                  st ++ map StoreEmailHandler.Inference extra1)
                 = (o, st ++ extra)
                 /\ section_rows extra
                    = numbered emailId (chunk :: rest) embeddings i
                 /\ (List.length embeddings
                     <= List.length (chunk :: rest))%nat
                 /\ Forall (fun embedding => isArray embedding = true)
                      embeddings
                 /\ email_rows extra = []
                 /\ (nfetch (StoreEmailHandler.inference_of extra)
                     <= 6 * List.length (chunk :: rest))%nat
                 /\ match o with
                    | Return _ =>
                        List.length embeddings = List.length (chunk :: rest)
                    | Throw _ => True
                    end).
    { intros e.
      exists (Throw e), (map StoreEmailHandler.Inference extra1), [].
      rewrite section_rows_map, email_rows_map, inference_of_map.
      split_ands; try reflexivity; try apply Forall_nil; try exact I;
        simpl; lia. }
    destruct o1 as [embedding|e]; [|apply Stop].
    destruct (isArray embedding) eqn:Arr; cbn [negb]; [|apply Stop].
    unfold StoreEmailHandler.sbind at 1, StoreEmailHandler.do_insert_section.
    set (row := StoreEmailHandler.section_row emailId chunk embedding i).
    set (st1 := st ++ map StoreEmailHandler.Inference extra1).
    destruct (StoreEmailHandler.insert_section db st1 (VArr [row]))
      as [msg|].
    + exists (Throw (Error (if AskQuestion.str_truthy msg then msg
                            else lit "Failed to insert email section"))),
        (map StoreEmailHandler.Inference extra1
         ++ [StoreEmailHandler.InsertSection (VArr [row])]),
        [embedding].
      unfold StoreEmailHandler.sthrow, st1. rewrite <- (app_assoc st).
      rewrite section_rows_app, email_rows_app, inference_of_app,
        section_rows_map, email_rows_map, inference_of_map.
      cbn [section_rows email_rows StoreEmailHandler.inference_of app
           numbered].
      rewrite numbered_nil, app_nil_r.
      split_ands; try reflexivity; try (simpl; lia).
      now constructor.
    + destruct (IH (S i)
                  (st1 ++ [StoreEmailHandler.InsertSection (VArr [row])]))
        as (o & extra & embeddings & E & Rows & Len & Arrs & Em & Nf & Done).
      exists o,
        (map StoreEmailHandler.Inference extra1
         ++ [StoreEmailHandler.InsertSection (VArr [row])] ++ extra),
        (embedding :: embeddings).
      rewrite E. unfold st1.
      rewrite <- (app_assoc st), <- (app_assoc st),
        <- (app_assoc (map _ extra1)).
      rewrite section_rows_app, email_rows_app, inference_of_app,
        section_rows_map, email_rows_map, inference_of_map, nfetch_app.
      cbn [section_rows email_rows StoreEmailHandler.inference_of app
           numbered List.length].
      rewrite Rows, Em.
      split_ands; try reflexivity; try lia.
      * now constructor.
      * destruct o; [lia|exact I].
Qed.

Lemma store_POST_stored w db request st :
  exists r extra,
    StoreEmailHandler.POST w db request st = (Return r, st ++ extra)
    /\ stored w db st request r extra.
Proof.
  unfold StoreEmailHandler.POST, StoreEmailHandler.stry_catch.
  unfold StoreEmailHandler.sbind at 1, StoreEmailHandler.slift at 1.
  destruct request as [requestData|why]; cbn [AskQuestion.request_json].
  2:{ do 2 eexists. unfold StoreEmailHandler.sret.
      split; [now rewrite app_nil_r|].
      apply unreadable_request with (why := why); [reflexivity|].
      apply message_or_default. discriminate. }
  destruct (StoreEmailHandler.emailSchema db requestData) as [email|] eqn:V.
  2:{ do 2 eexists. unfold StoreEmailHandler.sret.
      split; [now rewrite app_nil_r|]. now apply invalid_mail. }
  unfold StoreEmailHandler.sbind at 1, StoreEmailHandler.do_insert_email.
  set (rows := VArr [StoreEmailHandler.email_row email]).
  destruct (StoreEmailHandler.emailError
              (StoreEmailHandler.insert_email db st rows)) as [msg|] eqn:Er.
  { do 2 eexists. unfold StoreEmailHandler.sthrow, StoreEmailHandler.sret.
    split; [reflexivity|].
    apply mail_refused with (requestData := requestData);
      [reflexivity|exact V| |].
    - apply message_or_default. discriminate.
    - fold rows. rewrite Er. discriminate. }
  unfold StoreEmailHandler.sbind at 1, StoreEmailHandler.slift at 1.
  destruct (prop (StoreEmailHandler.inserted
                    (StoreEmailHandler.insert_email db st rows)) (lit "id"))
    as [emailId|e] eqn:Id.
  2:{ do 2 eexists. unfold StoreEmailHandler.sret.
      split; [reflexivity|].
      apply mail_refused with (requestData := requestData);
        [reflexivity|exact V| |].
      - apply message_or_default. discriminate.
      - fold rows. rewrite Id. discriminate. }
  cbv zeta. unfold StoreEmailHandler.sbind at 1.
  destruct (store_chunks_cases w db emailId
              (Chunker.splitIntoChunks (StoreEmailHandler.body email)
                 Chunker.default_chunkSize)
              0 (st ++ [StoreEmailHandler.InsertEmail rows]))
    as (o & extra & embeddings & -> & Rows & Len & Arrs & Em & Nf & Done).
  rewrite <- (app_assoc st). cbn [app].
  destruct o as [[]|e]; do 2 eexists; unfold StoreEmailHandler.sret;
    (split; [reflexivity|]).
  - now apply mail_stored
      with (requestData := requestData) (emailId := emailId)
           (embeddings := embeddings).
  - apply sections_failed
      with (requestData := requestData) (emailId := emailId)
           (embeddings := embeddings); try assumption; try reflexivity.
    apply message_or_default. discriminate.
Qed.

Ltac stored_cases H :=
  destruct H as
    [ why msg Rq Hm
    | d Rq V
    | d mail msg Rq V Hm NoId
    | d mail id embs rest msg Rq V Er Id Hm Rows Len Arrs Em Nf
    | d mail id embs rest Rq V Er Id Rows Len Arrs Em Nf ].

(** X23.  The store-email handler never throws: every request gets a
    response, with status 200 and the message "Email stored successfully!",
    with status 400 and the error "Invalid email data", or with status 500
    and a body that is exactly an [error] field with a non-empty message. *)
Theorem store_POST_always_replies (w : world)
    (db : StoreEmailHandler.database) (request : parse_outcome)
    (st : StoreEmailHandler.store_trace) :
  exists r extra,
    StoreEmailHandler.POST w db request st = (Return r, st ++ extra)
    /\ ((reply_status r = 200
         /\ reply_body r
            = VObj [(lit "message", VStr (lit "Email stored successfully!"))])
        \/ (reply_status r = 400
            /\ field "error" r = VStr (lit "Invalid email data"))
        \/ (reply_status r = 500
            /\ exists msg,
                 msg <> [] /\ reply_body r = AskQuestion.obj_error msg)).
Proof.
  destruct (store_POST_stored w db request st) as (r & extra & E & H).
  exists r, extra. split; [exact E|]. clear E.
  stored_cases H.
  - right; right. split; [reflexivity|]. eauto.
  - right; left. now split.
  - right; right. split; [reflexivity|]. eauto.
  - right; right. split; [reflexivity|]. eauto.
  - left. now split.
Qed.

(** X24.  A request is answered with status 400 exactly when its body does
    not pass the validation, and then nothing is inserted and nothing is
    requested. *)
Theorem store_POST_validation (w : world) (db : StoreEmailHandler.database)
    (requestData : value) (st : StoreEmailHandler.store_trace) :
  exists r extra,
    StoreEmailHandler.POST w db (Parsed requestData) st
    = (Return r, st ++ extra)
    /\ (reply_status r = 400
        <-> StoreEmailHandler.emailSchema db requestData = None)
    /\ (reply_status r = 400 -> extra = []).
Proof.
  destruct (store_POST_stored w db (Parsed requestData) st)
    as (r & extra & E & H).
  exists r, extra. split; [exact E|]. clear E.
  stored_cases H; try discriminate Rq; injection Rq as <-.
  - split; [now split|reflexivity].
  - split; [split; [discriminate|congruence]|discriminate].
  - split; [split; [discriminate|congruence]|discriminate].
  - split; [split; [discriminate|congruence]|discriminate].
Qed.



(** X26.  When the database refuses the mail, the request is answered with
    status 500 and the message of the database error, or "Failed to insert
    email" when the error has none; the body is not chunked, no embedding
    is requested and no section is inserted. *)
Theorem store_POST_email_insert_error (w : world)
    (db : StoreEmailHandler.database) (requestData : value)
    (email : StoreEmailHandler.Email) (st : StoreEmailHandler.store_trace)
    (msg : jsstring) :
  StoreEmailHandler.emailSchema db requestData = Some email ->
  StoreEmailHandler.emailError
    (StoreEmailHandler.insert_email db st
       (VArr [StoreEmailHandler.email_row email]))
  = Some msg ->
  StoreEmailHandler.POST w db (Parsed requestData) st
  = (Return
       (mkReply 500
          (AskQuestion.obj_error
             (if AskQuestion.str_truthy msg then msg
              else lit "Failed to insert email"))),
     st ++ [StoreEmailHandler.InsertEmail
              (VArr [StoreEmailHandler.email_row email])]).
Proof.
  intros V Er.
  unfold StoreEmailHandler.POST, StoreEmailHandler.stry_catch.
  unfold StoreEmailHandler.sbind at 1, StoreEmailHandler.slift at 1.
  cbn [AskQuestion.request_json]. rewrite V.
  unfold StoreEmailHandler.sbind at 1, StoreEmailHandler.do_insert_email.
  rewrite Er. unfold StoreEmailHandler.sthrow, StoreEmailHandler.sret.
  cbn [message]. now destruct msg.
Qed.

Lemma store_POST_email_insert_error_witness :
  StoreEmailHandler.POST (scripted [] (rows_found [])) full_database
    (Parsed (sample_mail "Invoice INV-7 is due.")) []
  = (Return
       (mkReply 500
          (AskQuestion.obj_error
             (if AskQuestion.str_truthy (lit "disk full") then lit "disk full"
              else lit "Failed to insert email"))),
     [] ++ [StoreEmailHandler.InsertEmail
              (VArr [StoreEmailHandler.email_row
                       (sample_email "Invoice INV-7 is due.")])]).
Proof.
  apply (store_POST_email_insert_error (scripted [] (rows_found []))
           full_database (sample_mail "Invoice INV-7 is due.")
           (sample_email "Invoice INV-7 is due.") [] (lit "disk full"));
    reflexivity.
Defined.

(** X27.  A mail whose body has no word (it is empty, or spaces only) is
    stored without sections: once the mail row is inserted and its id can
    be read, the response is 200 and the insert of the mail is the only
    effect; no embedding is requested, so the access token is not needed. *)
Theorem store_POST_body_without_words (w : world)
    (db : StoreEmailHandler.database) (requestData : value)
    (email : StoreEmailHandler.Email) (st : StoreEmailHandler.store_trace)
    (emailId : value) :
  StoreEmailHandler.emailSchema db requestData = Some email ->
  words_of (StoreEmailHandler.body email) = [] ->
  StoreEmailHandler.emailError
    (StoreEmailHandler.insert_email db st
       (VArr [StoreEmailHandler.email_row email]))
  = None ->
  prop (StoreEmailHandler.inserted
          (StoreEmailHandler.insert_email db st
             (VArr [StoreEmailHandler.email_row email])))
    (lit "id")
  = Return emailId ->
  StoreEmailHandler.POST w db (Parsed requestData) st
  = (Return StoreEmailHandler.stored_reply,
     st ++ [StoreEmailHandler.InsertEmail
              (VArr [StoreEmailHandler.email_row email])]).
Proof.
  intros V Hw Er Id.
  unfold StoreEmailHandler.POST, StoreEmailHandler.stry_catch.
  unfold StoreEmailHandler.sbind at 1, StoreEmailHandler.slift at 1.
  cbn [AskQuestion.request_json]. rewrite V.
  unfold StoreEmailHandler.sbind at 1, StoreEmailHandler.do_insert_email.
  rewrite Er.
  unfold StoreEmailHandler.sbind at 1, StoreEmailHandler.slift at 1.
  rewrite Id. cbv zeta.
  assert (C : Chunker.splitIntoChunks (StoreEmailHandler.body email)
                 Chunker.default_chunkSize = []).
  { apply splitIntoChunks_no_words; [|exact Hw].
    unfold Chunker.default_chunkSize. lia. }
  rewrite C. reflexivity.
Qed.

Lemma store_POST_body_without_words_witness :
  StoreEmailHandler.POST keyless sample_database
    (Parsed (sample_mail "   ")) []
  = (Return StoreEmailHandler.stored_reply,
     [] ++ [StoreEmailHandler.InsertEmail
              (VArr [StoreEmailHandler.email_row (sample_email "   ")])]).
Proof.
  apply (store_POST_body_without_words keyless sample_database
           (sample_mail "   ") (sample_email "   ") [] (VNum (7 # 1)));
    reflexivity.
Defined.

(** X28.  Storing a mail costs at most six requests for each chunk of its
    body, and the mail itself is inserted at most once, before anything
    else is done. *)
Theorem store_POST_effort (w : world) (db : StoreEmailHandler.database)
    (request : parse_outcome) (st : StoreEmailHandler.store_trace) :
  exists r extra,
    StoreEmailHandler.POST w db request st = (Return r, st ++ extra)
    /\ (extra = []
        \/ exists requestData email rest,
             request = Parsed requestData
             /\ StoreEmailHandler.emailSchema db requestData = Some email
             /\ extra
                = StoreEmailHandler.InsertEmail
                    (VArr [StoreEmailHandler.email_row email]) :: rest
             /\ email_rows rest = []
             /\ (nfetch (StoreEmailHandler.inference_of rest)
                 <= 6 * List.length
                          (Chunker.splitIntoChunks
                             (StoreEmailHandler.body email) 2000))%nat).
Proof.
  destruct (store_POST_stored w db request st) as (r & extra & E & H).
  exists r, extra. split; [exact E|]. clear E.
  stored_cases H.
  - now left.
  - now left.
  - right. exists d, mail, []. split_ands; try assumption; try reflexivity.
    unfold nfetch. simpl. lia.
  - right. exists d, mail, rest. now split_ands.
  - right. exists d, mail, rest. now split_ands.
Qed.

(** ** The clients of the question route, for any model *)

Lemma schedule_length prompt models :
  (List.length (schedule prompt models) <= 2 * List.length models)%nat.
Proof.
  induction models as [|model rest IH]; [simpl; lia|].
  cbn [schedule flat_map]. fold (schedule prompt rest).
  rewrite length_app. unfold requests_of.
  destruct (encodeURIComponent model); simpl in *; lia.
Qed.

Lemma fetch_events_length reqs :
  List.length (fetch_events reqs) = List.length reqs.
Proof. apply length_map. Qed.

(** X29.  Once the access token is set, the generator sends nothing but
    generation requests, at most two for each model it is given and no
    pause; it fails in one way only, with "All generation models failed or
    were unavailable", after it has sent every request of every model.
    Given no model at all it fails at once. *)
Theorem tryGenerateWithFallbacks_effort (w : world) (prompt : jsstring)
    (models : list jsstring) (t : trace) :
  key_missing w = false ->
  exists o extra,
    AskQuestion.tryGenerateWithFallbacks w prompt models t = (o, t ++ extra)
    /\ nfetch extra = List.length extra
    /\ (List.length extra <= 2 * List.length models)%nat
    /\ (forall e,
          o = Throw e ->
          e = all_models_failed
          /\ extra = fetch_events (schedule prompt models))
    /\ (models = [] -> o = Throw all_models_failed /\ extra = []).
Proof.
  intros K. unfold AskQuestion.tryGenerateWithFallbacks.
  rewrite K, generate_loop_schedule.
  pose proof (schedule_length prompt models) as L.
  destruct (first_success w (nfetch t) (schedule prompt models))
    as [[text k]|] eqn:F.
  - exists (Return text),
      (fetch_events (firstn k (schedule prompt models))).
    rewrite nfetch_fetch_events, fetch_events_length, length_firstn.
    split_ands; try reflexivity; try lia.
    + intros e E. discriminate E.
    + intros ->. discriminate F.
  - exists (Throw all_models_failed), (fetch_events (schedule prompt models)).
    rewrite nfetch_fetch_events, fetch_events_length.
    split_ands; try reflexivity; try lia.
    + intros e E. injection E as <-. now split.
    + intros ->. now split.
Qed.

Lemma tryGenerateWithFallbacks_effort_witness :
  exists o extra,
    AskQuestion.tryGenerateWithFallbacks
      (scripted [respond 503 VNull; respond 200 (generated "INV-7")]
         (rows_found []))
      (lit "Which invoice is due?") [lit "distilgpt2"] []
    = (o, [] ++ extra)
    /\ nfetch extra = List.length extra
    /\ (List.length extra <= 2 * List.length [lit "distilgpt2"])%nat
    /\ (forall e,
          o = Throw e ->
          e = all_models_failed
          /\ extra
             = fetch_events
                 (schedule (lit "Which invoice is due?") [lit "distilgpt2"]))
    /\ ([lit "distilgpt2"] = [] -> o = Throw all_models_failed /\ extra = []).
Proof.
  apply (tryGenerateWithFallbacks_effort
           (scripted [respond 503 VNull; respond 200 (generated "INV-7")]
              (rows_found []))
           (lit "Which invoice is due?") [lit "distilgpt2"] []).
  reflexivity.
Defined.

(** X30.  The embedding client of the question route sends at most one
    request, whatever the model, and none without the access token; a
    vector it returns was decoded from the 2xx response to that request. *)
Theorem ask_getHfEmbedding_single_request (w : world) (text model : jsstring)
    (t : trace) :
  exists o extra,
    AskQuestion.getHfEmbedding w text model t = (o, t ++ extra)
    /\ (List.length extra <= 1)%nat
    /\ nfetch extra = List.length extra
    /\ (key_missing w = true -> extra = [])
    /\ forall v,
         o = Return v ->
         exists enc resp json,
           encodeURIComponent model = Some enc
           /\ extra
              = [EvFetch
                   (hf_models ++ enc ++ lit "/pipeline/feature-extraction")
                   (VObj [(lit "inputs", VStr text)])]
           /\ fetch w (nfetch t)
                (hf_models ++ enc ++ lit "/pipeline/feature-extraction")
                (VObj [(lit "inputs", VStr text)])
              = Responded resp
           /\ ok resp = true
           /\ parsed resp = Parsed json
           /\ AskQuestion.normalize json = Return v.
Proof.
  unfold AskQuestion.getHfEmbedding.
  destruct (key_missing w) eqn:K.
  { exists (Throw (Error (lit "HF_API_KEY not set"))), [].
    unfold throw. rewrite app_nil_r.
    split_ands; try reflexivity; try (simpl; lia). discriminate. }
  destruct (encodeURIComponent model) as [enc|].
  2:{ exists (Throw (URIError (lit "URI malformed"))), [].
      unfold throw. rewrite app_nil_r.
      split_ands; try reflexivity; try (simpl; lia); discriminate. }
  set (url := hf_models ++ enc ++ lit "/pipeline/feature-extraction").
  set (body := VObj [(lit "inputs", VStr text)]).
  unfold bind, do_fetch.
  destruct (fetch w (nfetch t) url body) as [resp|e] eqn:F.
  2:{ exists (Throw e), [EvFetch url body].
      split_ands; try reflexivity; try (simpl; lia); discriminate. }
  destruct (ok resp) eqn:O; cbn [negb].
  2:{ eexists _, [EvFetch url body]. unfold throw.
      split_ands; try reflexivity; try (simpl; lia); discriminate. }
  unfold lift, JSON_parse.
  destruct (parsed resp) as [json|why] eqn:P.
  2:{ eexists _, [EvFetch url body].
      split_ands; try reflexivity; try (simpl; lia); discriminate. }
  exists (AskQuestion.normalize json), [EvFetch url body].
  split_ands; try reflexivity; try (simpl; lia); try discriminate.
  intros v N. exists enc, resp, json. now split_ands.
Qed.
